(** * CureHelp+ conversational query resolver (chatbot.py)

    A shallow embedding of the chatbot's query resolver: intent
    classification, the symptom matcher, the FAQ retriever, the disease
    knowledge aggregator and the response assembler, followed by the
    properties of the specification that were checked against them.

    Conventions of the embedding:
    - a Python [str] is a list of Unicode code points;
    - a pandas DataFrame is a list of column labels and a list of rows of
      cells;
    - [try: ... except:] is an error monad ([Ok] / [Raise]) with an explicit
      handler;
    - a Python [float] and a numpy [float64] are IEEE 754 binary64 numbers,
      with the operations of the Standard Library's specification of
      floating-point arithmetic ([SpecFloat]);
    - what the libraries compute and the source does not fix is a parameter:
      the Unicode case mappings, the compilation of a regular expression
      typed by the user, [float()] on text, the arithmetic inside
      scikit-learn's [cosine_similarity] and the dtype pandas gives a
      column. *)

From Stdlib Require Import String Ascii.
From Stdlib Require Import List Bool Arith ZArith NArith QArith Lia.
From Stdlib Require Import Floats.SpecFloat.
Import ListNotations.

Close Scope Q_scope.
Open Scope nat_scope.

Set Implicit Arguments.

(** ** Python strings *)

Module PyStr.

Definition char := N.
Definition pystr := list char.

(** An ASCII literal of the source, as a list of code points. *)
Definition lit (s : string) : pystr :=
  map N_of_ascii (list_ascii_of_string s).

Definition char_eqb (a b : char) : bool := N.eqb a b.

Fixpoint eqb (a b : pystr) : bool :=
  match a, b with
  | [], [] => true
  | x :: a', y :: b' => char_eqb x y && eqb a' b'
  | _, _ => false
  end.

(** [str.isspace] on one character: the Unicode white space of CPython
    (bidirectional types WS, B, S and category Zs). *)
Definition is_space (c : char) : bool :=
  ((9 <=? c) && (c <=? 13) || (28 <=? c) && (c <=? 32)
   || (c =? 133) || (c =? 160) || (c =? 5760)
   || (8192 <=? c) && (c <=? 8202)
   || (c =? 8232) || (c =? 8233) || (c =? 8239) || (c =? 8287)
   || (c =? 12288))%N.

Definition is_ascii (c : char) : bool := (c <? 128)%N.

Definition ascii_lower (c : char) : char :=
  if ((65 <=? c) && (c <=? 90))%N then (c + 32)%N else c.

Definition ascii_upper (c : char) : char :=
  if ((97 <=? c) && (c <=? 122))%N then (c - 32)%N else c.

(** The case mappings of the Unicode character database on a string that
    has a character outside ASCII.  They are a parameter of the development:
    every result that quantifies over all strings holds for every database. *)
Class UnicodeCase := {
  lower_beyond_ascii : pystr -> pystr;
  upper_beyond_ascii : pystr -> pystr
}.

Section Case.
Context {ucd : UnicodeCase}.

(** [s.lower()] *)
Definition lower (s : pystr) : pystr :=
  if forallb is_ascii s then map ascii_lower s else lower_beyond_ascii s.

(** [s.upper()] *)
Definition upper (s : pystr) : pystr :=
  if forallb is_ascii s then map ascii_upper s else upper_beyond_ascii s.

End Case.

Fixpoint lstrip (s : pystr) : pystr :=
  match s with
  | c :: s' => if is_space c then lstrip s' else s
  | [] => []
  end.

Definition rstrip (s : pystr) : pystr := rev (lstrip (rev s)).

(** [s.strip()] *)
Definition strip (s : pystr) : pystr := rstrip (lstrip s).

(** [s.split()]: the maximal runs of characters that are not white space.
    [cur] is the current run, reversed. *)
Fixpoint split_from (cur : pystr) (s : pystr) : list pystr :=
  match s with
  | [] => match cur with [] => [] | _ => [rev cur] end
  | c :: s' =>
      if is_space c
      then match cur with
           | [] => split_from [] s'
           | _ => rev cur :: split_from [] s'
           end
      else split_from (c :: cur) s'
  end.

Definition split (s : pystr) : list pystr := split_from [] s.

(** [s.split(sep)] for a separator of one character: empty fields are kept. *)
Fixpoint split_on_from (sep : char) (cur : pystr) (s : pystr) : list pystr :=
  match s with
  | [] => [rev cur]
  | c :: s' =>
      if char_eqb c sep
      then rev cur :: split_on_from sep [] s'
      else split_on_from sep (c :: cur) s'
  end.

Definition split_on (sep : char) (s : pystr) : list pystr :=
  split_on_from sep [] s.

(** [s.replace(a, b)] for single characters. *)
Definition replace (a b : char) (s : pystr) : pystr :=
  map (fun c => if char_eqb c a then b else c) s.

(** [c in s] for a single character. *)
Definition has_char (c : char) (s : pystr) : bool := existsb (char_eqb c) s.

(** [s.startswith(p)] *)
Fixpoint startswith (p s : pystr) : bool :=
  match p, s with
  | [], _ => true
  | x :: p', y :: s' => char_eqb x y && startswith p' s'
  | _ :: _, [] => false
  end.

(** [p in s] for strings. *)
Fixpoint contains (p s : pystr) : bool :=
  startswith p s ||
  match s with
  | [] => false
  | _ :: s' => contains p s'
  end.

(** [x in l] for a list of strings. *)
Definition mem (x : pystr) (l : list pystr) : bool := existsb (eqb x) l.

(** [l.index(x)] *)
Fixpoint index_of (x : pystr) (l : list pystr) : option nat :=
  match l with
  | [] => None
  | y :: l' => if eqb x y then Some 0 else option_map S (index_of x l')
  end.

(** [set(l)]: the elements of [l] without repetition. *)
Fixpoint dedup (l : list pystr) : list pystr :=
  match l with
  | [] => []
  | x :: l' => if mem x l' then dedup l' else x :: dedup l'
  end.

End PyStr.

Import PyStr.

(** ** Regular expressions ([re])

    The fragment of Python's pattern language that chatbot.py uses, with the
    backtracking semantics of [re]: alternatives are tried left to right,
    [?] and [+] are greedy, and [re.search] returns the match that starts
    leftmost. *)

Module Re.

Inductive regex :=
| Chr (c : char)                 (* a literal character *)
| Cls (p : char -> bool)         (* a character class: [\s], [[^?]] *)
| Eps                            (* the empty pattern *)
| Cat (r1 r2 : regex)            (* r1 r2 *)
| Alt (r1 r2 : regex)            (* r1|r2 *)
| Opt (r : regex)                (* r? *)
| Plus (p : char -> bool)        (* class+ *)
| Grp (n : nat) (r : regex).     (* capturing group number n *)

(** A literal string of the pattern. *)
Fixpoint chars (s : pystr) : regex :=
  match s with
  | [] => Eps
  | [c] => Chr c
  | c :: s' => Cat (Chr c) (chars s')
  end.

Definition Str (s : string) : regex := chars (lit s).

(** [(?:a|b|...)] *)
Fixpoint alts (l : list regex) : regex :=
  match l with
  | [] => Cls (fun _ => false)
  | [r] => r
  | r :: l' => Alt r (alts l')
  end.

Definition captures := list (nat * pystr).

Section Matcher.
Variable A : Type.

(** Greedy repetition of a class, zero or more times, then [k]; gives back
    characters one at a time when [k] fails. *)
Fixpoint star (p : char -> bool) (s : pystr) (k : pystr -> option A)
  : option A :=
  match s with
  | c :: s' =>
      if p c
      then match star p s' k with
           | Some a => Some a
           | None => k s
           end
      else k s
  | [] => k s
  end.

(** [rmatch r s caps k]: match [r] at the start of [s], then continue with
    [k] on the rest; [None] when every alternative fails. *)
Fixpoint rmatch (r : regex) (s : pystr) (caps : captures)
  (k : pystr -> captures -> option A) {struct r} : option A :=
  match r with
  | Chr c =>
      match s with
      | x :: s' => if char_eqb x c then k s' caps else None
      | [] => None
      end
  | Cls p =>
      match s with
      | x :: s' => if p x then k s' caps else None
      | [] => None
      end
  | Eps => k s caps
  | Cat r1 r2 => rmatch r1 s caps (fun s1 c1 => rmatch r2 s1 c1 k)
  | Alt r1 r2 =>
      match rmatch r1 s caps k with
      | Some a => Some a
      | None => rmatch r2 s caps k
      end
  | Opt r1 =>
      match rmatch r1 s caps k with
      | Some a => Some a
      | None => k s caps
      end
  | Plus p =>
      match s with
      | x :: s' => if p x then star p s' (fun s2 => k s2 caps) else None
      | [] => None
      end
  | Grp n r1 =>
      rmatch r1 s caps
        (fun s1 c1 => k s1 ((n, firstn (length s - length s1) s) :: c1))
  end.

End Matcher.

(** A match object: the text after the match and the groups. *)
Record match_obj := { m_rest : pystr; m_groups : captures }.

Definition match_here (r : regex) (s : pystr) : option match_obj :=
  rmatch r s [] (fun rest caps => Some {| m_rest := rest; m_groups := caps |}).

(** [re.search(r, s)] *)
Fixpoint search (r : regex) (s : pystr) : option match_obj :=
  match match_here r s with
  | Some m => Some m
  | None =>
      match s with
      | [] => None
      | _ :: s' => search r s'
      end
  end.

(** [m.group(n)]; [None] when the group took no part in the match. *)
Fixpoint group (n : nat) (caps : captures) : option pystr :=
  match caps with
  | [] => None
  | (i, t) :: caps' => if Nat.eqb i n then Some t else group n caps'
  end.

(** The truth value of [re.search(r, s)]. *)
Definition found (r : regex) (s : pystr) : bool :=
  match search r s with Some _ => true | None => false end.

(** [re.findall(r, s)] for a pattern without groups that matches no empty
    string: the matches from left to right, without overlap.  [skip] counts
    the characters of the last match that are still to be passed. *)
Fixpoint findall_from (skip : nat) (r : regex) (s : pystr) : list pystr :=
  match s with
  | [] => []
  | _ :: s' =>
      match skip with
      | S n => findall_from n r s'
      | O =>
          match match_here r s with
          | Some m =>
              let len := length s - length (m_rest m) in
              firstn len s :: findall_from (len - 1) r s'
          | None => findall_from 0 r s'
          end
      end
  end.

Definition findall (r : regex) (s : pystr) : list pystr := findall_from 0 r s.

End Re.

Import Re.

(** ** Intent classifier *)

Inductive intent := Question | Symptoms | Disease.

(** The [question_patterns] of [classify_input_type]. *)
Definition question_patterns : list regex :=
  [ Cat (Str "what ") (Grp 1 (Alt (Str "are") (Str "is")));
    Cat (Str "how ") (Grp 1 (alts [Str "to"; Str "do"; Str "can"]));
    Cat (Str "why ") (Grp 1 (Alt (Str "is") (Str "are")));
    Cat (Str "when ") (Grp 1 (Alt (Str "should") (Str "do")));
    Cat (Str "where ") (Grp 1 (Alt (Str "can") (Str "do")));
    Cat (Str "who ") (Grp 1 (Alt (Str "should") (Str "can")));
    Str "can you";
    Str "could you";
    Str "would you";
    Str "explain";
    Str "tell me about" ].

Definition qmark : char := 63%N.
Definition comma : char := 44%N.

Section Classifier.
Context {ucd : UnicodeCase}.

(** [is_question] of [classify_input_type]: some pattern is found in the
    lowered, stripped input. *)
Definition is_question (user_input : pystr) : bool :=
  let user_input_lower := strip (lower user_input) in
  existsb (fun pattern => found pattern user_input_lower) question_patterns.

Definition classify_input_type (user_input : pystr) : intent :=
  match user_input with
  | [] => Question
  | _ =>
      let is_question := is_question user_input in
      let has_question_mark := has_char qmark user_input in
      let has_commas := has_char comma user_input in
      let is_short_phrase :=
        (length (split user_input) <=? 5) && negb is_question in
      if has_question_mark || is_question then Question
      else if has_commas && is_short_phrase then Symptoms
      else if negb is_question && (length (split user_input) <=? 3)
           then Disease
           else Question
  end.

End Classifier.

(** A finite excerpt of the Unicode case mappings, character by character:
    ASCII, the Latin-1 supplement and the few characters below; every other
    character is left as it is.  It is only used to run the model on concrete
    inputs. *)
Definition excerpt_lower_char (c : char) : pystr :=
  if ((65 <=? c) && (c <=? 90))%N then [(c + 32)%N]
  else if ((192 <=? c) && (c <=? 222) && negb (c =? 215))%N then [(c + 32)%N]
  else if (c =? 304)%N then [105%N; 775%N]          (* U+0130 *)
  else if (c =? 8490)%N then [107%N]                 (* U+212A KELVIN SIGN *)
  else [c].

Definition excerpt_upper_char (c : char) : pystr :=
  if ((97 <=? c) && (c <=? 122))%N then [(c - 32)%N]
  else if (c =? 181)%N then [924%N]                  (* U+00B5 MICRO SIGN *)
  else if (c =? 223)%N then [83%N; 83%N]             (* U+00DF SHARP S *)
  else if ((224 <=? c) && (c <=? 254) && negb (c =? 247))%N then [(c - 32)%N]
  else if (c =? 255)%N then [376%N]
  else if (c =? 305)%N then [73%N]                   (* U+0131 DOTLESS I *)
  else if (c =? 383)%N then [83%N]                   (* U+017F LONG S *)
  else [c].

Definition ucd_excerpt : UnicodeCase :=
  {| lower_beyond_ascii := flat_map excerpt_lower_char;
     upper_beyond_ascii := flat_map excerpt_upper_char |}.

(** ** Floating-point numbers

    IEEE 754 binary64, rounding to nearest with ties to even. *)

Module F64.

Definition prec : Z := 53.
Definition emax : Z := 1024.

Definition float := spec_float.

Definition zero : float := S754_zero false.
Definition one : float := S754_finite false 4503599627370496 (-52).

Definition add : float -> float -> float := SFadd prec emax.
Definition mul : float -> float -> float := SFmul prec emax.
Definition div : float -> float -> float := SFdiv prec emax.
Definition sqrt : float -> float := SFsqrt prec emax.

(** [a < b] and [a <= b]: false when an operand is NaN. *)
Definition ltb : float -> float -> bool := SFltb.
Definition leb : float -> float -> bool := SFleb.

Definition is_nan (x : float) : bool :=
  match x with S754_nan => true | _ => false end.

Definition is_zero (x : float) : bool :=
  match x with S754_zero _ => true | _ => false end.

(** [np.isfinite] *)
Definition is_finite (x : float) : bool :=
  match x with S754_zero _ | S754_finite _ _ _ => true | _ => false end.

(** [float(z)] for an integer: the nearest float, infinite when [z] is out
    of range. *)
Definition of_Z (z : Z) : float := binary_normalize prec emax z 0 false.

(** A natural number as an operand that is not rounded. *)
Definition exact (n : N) : float :=
  match n with N0 => zero | Npos p => S754_finite false p 0 end.

(** [a / b] on two integers of Python, [b] not 0: the float nearest to the
    quotient.  The division rounds the quotient of the two mantissas, whatever
    their size. *)
Definition truediv (a b : N) : float := div (exact a) (exact b).

(** A decimal literal of the source, [num / den] with [den] a power of 10:
    the float nearest to it. *)
Definition decimal (num den : N) : float := truediv num den.

End F64.

(** The order of the floats that are no NaN is the order of these triples
    of integers: the class of the number (negative infinity, negative, zero,
    positive, infinity), then its exponent, then its mantissa. *)
Definition float_key (x : F64.float) : Z * Z * Z :=
  match x with
  | S754_zero _ => (0, 0, 0)%Z
  | S754_infinity false => (2, 0, 0)%Z
  | S754_infinity true => (-2, 0, 0)%Z
  | S754_nan => (0, 0, 0)%Z
  | S754_finite false m e => (1, e, Zpos m)%Z
  | S754_finite true m e => (-1, - e, Zneg m)%Z
  end.

Definition key_lt (a b : Z * Z * Z) : Prop :=
  let '(c1, e1, m1) := a in
  let '(c2, e2, m2) := b in
  (c1 < c2 \/ c1 = c2 /\ (e1 < e2 \/ e1 = e2 /\ m1 < m2))%Z.

(** Floats that are not negative: a zero, a positive number or infinity. *)
Definition nonneg (x : spec_float) : Prop :=
  match x with
  | S754_zero _ | S754_finite false _ _ | S754_infinity false => True
  | _ => False
  end.

(** Floats that are at least 1: a normal number from 1 upwards, or infinity. *)
Definition at_least_one (x : spec_float) : Prop :=
  match x with
  | S754_infinity false => True
  | S754_finite false m e => (2 ^ 52 <= Zpos m /\ -52 <= e)%Z
  | _ => False
  end.

(** ** Python values, exceptions and data frames *)

(** A cell of a table, and more generally a Python scalar: a string, a
    number or the missing value NaN. *)
Inductive pyval := VStr (s : pystr) | VNum (z : Z) | VNaN.

Definition val_eqb (a b : pyval) : bool :=
  match a, b with
  | VStr s, VStr t => PyStr.eqb s t
  | VNum x, VNum y => Z.eqb x y
  | _, _ => false
  end.

(** [pd.notna(v)] *)
Definition notna (v : pyval) : bool :=
  match v with VNaN => false | _ => true end.

(** The truth value of [v] in a condition. *)
Definition truthy (v : pyval) : bool :=
  match v with
  | VStr [] => false
  | VStr _ => true
  | VNum z => negb (Z.eqb z 0)
  | VNaN => true
  end.

(** The decimal digits of a natural number; [fuel] bounds their count. *)
Fixpoint digits_of (fuel : nat) (n : N) (acc : pystr) : pystr :=
  match fuel with
  | O => acc
  | S fuel' =>
      let acc' := (48 + n mod 10)%N :: acc in
      if (n <? 10)%N then acc' else digits_of fuel' (n / 10)%N acc'
  end.

Definition str_of_N (n : N) : pystr := digits_of (S (N.to_nat (N.log2 n))) n [].

(** [str(v)] *)
Definition py_str (v : pyval) : pystr :=
  match v with
  | VStr s => s
  | VNum z =>
      if (z <? 0)%Z then 45%N :: str_of_N (Z.to_N (- z)) else str_of_N (Z.to_N z)
  | VNaN => lit "nan"
  end.

(** The outcome of a Python expression: a value, or a raised exception. *)
Inductive result (A : Type) : Type :=
| Ok (a : A)
| Raise.

Arguments Ok {A} a.
Arguments Raise {A}.

Definition bind {A B : Type} (c : result A) (f : A -> result B) : result B :=
  match c with
  | Ok a => f a
  | Raise => Raise
  end.

Notation "x <- c ;; k" := (bind c (fun x => k))
  (at level 61, c at next level, right associativity).

(** [try: body / except: handler] *)
Definition try_except {A : Type} (body : result A) (handler : A) : A :=
  match body with
  | Ok a => a
  | Raise => handler
  end.

(** A method of [str] called on a value: AttributeError unless the value is
    a string. *)
Definition as_str (v : pyval) : result pystr :=
  match v with
  | VStr s => Ok s
  | _ => Raise
  end.

(** A data frame: the column labels and the rows.  The loader gives every
    column its own label (pandas renames repeated headers), and a row that is
    shorter than the header reads NaN in the missing cells. *)
Record frame := { columns : list pystr; rows : list (list pyval) }.

Definition row := list pyval.

Definition cell (r : row) (j : nat) : pyval := nth j r VNaN.

(** [df.empty] *)
Definition frame_empty (df : frame) : bool :=
  match columns df, rows df with
  | [], _ => true
  | _, [] => true
  | _, _ => false
  end.

(** [r[label]] and [df[label]]: KeyError when there is no such column. *)
Definition col_index (df : frame) (label : pystr) : result nat :=
  match index_of label (columns df) with
  | Some j => Ok j
  | None => Raise
  end.

Definition row_get (df : frame) (r : row) (label : pystr) : result pyval :=
  j <- col_index df label ;; Ok (cell r j).

(** [df[df[label] == v]]: the rows whose cell under [label] equals [v]. *)
Definition rows_where_eq (df : frame) (label : pystr) (v : pyval)
  : result (list row) :=
  j <- col_index df label ;;
  Ok (filter (fun r => val_eqb (cell r j) v) (rows df)).

(** Compilation of a pattern that comes from the user's text, as pandas'
    [Series.str.contains(pat)] does it through [re]: [None] when the text is
    not a well-formed pattern ([re.error]), otherwise the test that tells in
    which strings the pattern is found.  This is a parameter: the reference
    tables are searched with whatever the user typed. *)
Class PatternCompiler := {
  re_compile : pystr -> option (pystr -> bool)
}.

(** ** Disease knowledge aggregator *)

Section Aggregator.
Context {ucd : UnicodeCase} {pc : PatternCompiler}.

(** The columns of the augmented matrix that stand for a symptom. *)
Definition symptom_columns_of (augmented_df : frame) : list pystr :=
  filter (fun col => negb (mem col [lit "diseases"; lit "diseases_clean"]))
         (columns augmented_df).

(** The [try] block of [get_disease_symptoms] on the augmented matrix. *)
Definition symptoms_from_augmented (disease_clean : pystr) (augmented_df : frame)
  : result (list pystr) :=
  aug_match <- rows_where_eq augmented_df (lit "diseases_clean") (VStr disease_clean) ;;
  match aug_match with
  | [] => Ok []
  | first :: _ =>
      let symptom_columns := symptom_columns_of augmented_df in
      Ok (map (replace 95%N 32%N)
            (filter (fun col =>
                       mem col (columns augmented_df) &&
                       match index_of col (columns augmented_df) with
                       | Some j => val_eqb (cell first j) (VNum 1)
                       | None => false
                       end)
                    symptom_columns))
  end.

(** One slot of a matching row: the text kept from it, if any. *)
Definition slot_text (v : pyval) : option pystr :=
  if notna v
  then let text := strip (py_str v) in
       match text with
       | [] => None
       | _ => if PyStr.eqb text (lit "nan") then None else Some text
       end
  else None.

Fixpoint keep_some {A : Type} (l : list (option A)) : list A :=
  match l with
  | [] => []
  | Some a :: l' => a :: keep_some l'
  | None :: l' => keep_some l'
  end.

(** The [try] block of [get_disease_symptoms] on the symptom catalogue. *)
Definition symptoms_from_catalogue (disease_clean : pystr) (symptoms_df : frame)
  : result (list pystr) :=
  symptom_match <- rows_where_eq symptoms_df (lit "Disease_clean") (VStr disease_clean) ;;
  match symptom_match with
  | [] => Ok []
  | first :: _ =>
      Ok (keep_some
            (map (fun jc : nat * pystr =>
                    if startswith (lit "Symptom_") (snd jc)
                    then slot_text (cell first (fst jc))
                    else None)
                 (combine (seq 0 (length (columns symptoms_df)))
                          (columns symptoms_df))))
  end.

Definition get_disease_symptoms (disease_name : pyval)
  (symptoms_df augmented_df : option frame) : result (list pystr) :=
  if negb (truthy disease_name) then Ok []
  else
    name <- as_str disease_name ;;
    let disease_clean := strip (lower name) in
    let symptoms :=
      match augmented_df with
      | Some aug =>
          if mem (lit "diseases_clean") (columns aug)
          then try_except (symptoms_from_augmented disease_clean aug) []
          else []
      | None => []
      end in
    match symptoms, symptoms_df with
    | [], Some sdf =>
        if mem (lit "Disease_clean") (columns sdf)
        then Ok (try_except (symptoms_from_catalogue disease_clean sdf) [])
        else Ok symptoms
    | _, _ => Ok symptoms
    end.

(** The [try] block of [get_disease_precautions]. *)
Definition precautions_from_table (disease_clean : pystr) (precautions_df : frame)
  : result (list pystr) :=
  if mem (lit "Disease_clean") (columns precautions_df)
  then
    prec_match <- rows_where_eq precautions_df (lit "Disease_clean") (VStr disease_clean) ;;
    match prec_match with
    | [] => Ok []
    | first :: _ =>
        Ok (keep_some
              (map (fun col =>
                      match index_of col (columns precautions_df) with
                      | Some j => slot_text (cell first j)
                      | None => None
                      end)
                   [lit "Precaution_1"; lit "Precaution_2";
                    lit "Precaution_3"; lit "Precaution_4"]))
    end
  else Ok [].

Definition get_disease_precautions (disease_name : pyval)
  (precautions_df : option frame) : result (list pystr) :=
  match precautions_df with
  | None => Ok []
  | Some pdf =>
      if negb (truthy disease_name) then Ok []
      else
        name <- as_str disease_name ;;
        let disease_clean := strip (lower name) in
        Ok (try_except (precautions_from_table disease_clean pdf) [])
  end.

(** [col.str.contains(pat, na=False)] on the cells of a column:
    AttributeError when the column holds numbers only, [re.error] when the
    pattern does not compile; a cell that is not a string gives [False]. *)
Definition str_contains (cells : list pyval) (pat : pystr) : result (list bool) :=
  if negb (existsb (fun v => match v with VStr _ => true | _ => false end) cells)
     && negb (match cells with [] => true | _ => false end)
  then Raise
  else
    match re_compile pat with
    | None => Raise
    | Some test =>
        Ok (map (fun v => match v with VStr s => test s | _ => false end) cells)
    end.

Fixpoint select {A : Type} (mask : list bool) (l : list A) : list A :=
  match mask, l with
  | true :: mask', x :: l' => x :: select mask' l'
  | false :: mask', _ :: l' => select mask' l'
  | _, _ => []
  end.

(** The [try] block of [get_disease_description]. *)
Definition description_from_faq (disease_clean : pystr) (faq_df : frame)
  : result (option pyval) :=
  if mem (lit "question_clean") (columns faq_df)
  then
    j <- col_index faq_df (lit "question_clean") ;;
    mask <- str_contains (map (fun r => cell r j) (rows faq_df)) disease_clean ;;
    match select mask (rows faq_df) with
    | [] => Ok None
    | first :: _ =>
        answer <- row_get faq_df first (lit "answer") ;;
        Ok (Some answer)
    end
  else Ok None.

Definition get_disease_description (disease_name : pyval)
  (faq_df : option frame) : result (option pyval) :=
  match faq_df with
  | None => Ok None
  | Some fdf =>
      if negb (truthy disease_name) then Ok None
      else
        name <- as_str disease_name ;;
        let disease_clean := strip (lower name) in
        Ok (try_except (description_from_faq disease_clean fdf) None)
  end.

End Aggregator.

(** ** FAQ retriever *)

(** The [question_patterns] of [find_question_answer]. *)
Definition symptom_question_patterns : list regex :=
  let what := Cat (Str "what ") (Grp 1 (Alt (Str "are") (Str "is"))) in
  let the := Opt (Grp 2 (Str "the ")) in
  [ Cat what (Cat (Chr 32%N) (Cat the
      (Cat (Grp 3 (Alt (Str "symptoms") (Str "signs"))) (Str " of"))));
    Cat what (Cat (Chr 32%N) (Cat the
      (Cat (Grp 3 (Alt (Str "causes") (Str "reason"))) (Str " of"))));
    Cat what (Cat (Chr 32%N) (Cat the
      (Cat (Grp 3 (Alt (Str "treatment") (Str "remedy"))) (Str " for"))));
    Cat (Str "how ") (Cat (Grp 1 (Alt (Str "to") (Str "do")))
      (Cat (Chr 32%N) (Grp 2 (alts [Str "treat"; Str "handle"; Str "manage"]))));
    Cat (Str "what ") (Grp 1 (Alt (Str "is") (Str "are"))) ].

Definition is_ascii_letter (c : char) : bool :=
  ((97 <=? c) && (c <=? 122) || (65 <=? c) && (c <=? 90))%N.

(** The constants of the loop, as floats. *)
Definition threshold : F64.float := F64.decimal 4 10.
Definition early_exit : F64.float := F64.decimal 9 10.

(** The score of one FAQ question against the prepared input: the additions
    of the source, in their order. *)
Definition faq_row_score (is_symptom_question : bool)
  (question_words disease_terms : list pystr) (faq_question : pystr) : F64.float :=
  let score := F64.zero in
  let score :=
    if is_symptom_question &&
       (contains (lit "symptom") faq_question || contains (lit "sign") faq_question)
    then F64.add score (F64.decimal 3 10) else score in
  let faq_words := dedup (split faq_question) in
  let score :=
    match question_words, faq_words with
    | _ :: _, _ :: _ =>
        let overlap := length (filter (fun w => mem w faq_words) question_words) in
        F64.add score (F64.truediv (N.of_nat overlap)
                                   (N.of_nat (length question_words)))
    | _, _ => score
    end in
  fold_left (fun sc term =>
               if contains term faq_question
               then F64.add sc (F64.decimal 2 10) else sc)
            disease_terms score.

(** The loop over the scored rows: [None] is a row that is skipped for its
    empty question.  A row replaces the best match when its score is strictly
    higher ([score > best_score]), and the loop stops at the first best score
    above [early_exit]. *)
Fixpoint faq_scan (A : Type) (scored : list (A * option F64.float))
  (best_match : option A) (best_score : F64.float) : option A * F64.float :=
  match scored with
  | [] => (best_match, best_score)
  | (r, None) :: rest => faq_scan rest best_match best_score
  | (r, Some score) :: rest =>
      if F64.ltb best_score score
      then if F64.ltb early_exit score
           then (Some r, score)
           else faq_scan rest (Some r) score
      else faq_scan rest best_match best_score
  end.

(** The final decision: the best match, if its score is above [threshold]. *)
Definition faq_decide (A : Type) (scored : list (A * option F64.float)) : option A :=
  let (best_match, best_score) := faq_scan scored None F64.zero in
  if F64.ltb threshold best_score then best_match else None.

Section Retriever.
Context {ucd : UnicodeCase}.

(** [str(row['question']).lower() if pd.notna(row['question']) else ""] *)
Definition faq_question_of (v : pyval) : pystr :=
  if notna v then lower (py_str v) else [].

(** The rows of the FAQ table with their position and their score. *)
Definition faq_scored (question : pystr) (faq_df : frame)
  : result (list ((nat * row) * option F64.float)) :=
  let question_clean := strip (lower question) in
  let is_symptom_question :=
    existsb (fun pattern => found pattern question_clean) symptom_question_patterns in
  let question_words := dedup (split question_clean) in
  let disease_terms :=
    filter (fun term => 4 <? length term)
           (findall (Plus is_ascii_letter) question_clean) in
  match rows faq_df with
  | [] => Ok []
  | _ =>
      j <- col_index faq_df (lit "question") ;;
      Ok (map (fun ir : nat * row =>
                 let faq_question := faq_question_of (cell (snd ir) j) in
                 (ir,
                  match faq_question with
                  | [] => None
                  | _ => Some (faq_row_score is_symptom_question question_words
                                 disease_terms faq_question)
                  end))
              (combine (seq 0 (length (rows faq_df))) (rows faq_df)))
  end.

(** [find_question_answer], with the position of the row it returns. *)
Definition find_question_answer_at (question : pystr) (faq_df : option frame)
  : result (option (nat * row)) :=
  match faq_df with
  | None => Ok None
  | Some df =>
      if frame_empty df then Ok None
      else scored <- faq_scored question df ;; Ok (faq_decide scored)
  end.

Definition find_question_answer (question : pystr) (faq_df : option frame)
  : result (option row) :=
  found_at <- find_question_answer_at question faq_df ;;
  Ok (option_map snd found_at).

End Retriever.

(** ** Symptom matcher *)

(** [float(text)] of Python, which numpy applies to the text cells of an
    array of objects under [astype(float)]; [None] is a ValueError.  It is a
    parameter of the development. *)
Class PyFloat := {
  float_of_text : pystr -> option F64.float
}.

(** The arithmetic of scikit-learn's [cosine_similarity] for one query vector
    and the rows of a matrix, once the input is validated: one score for each
    row.  The source does not fix the order in which the library sums the
    products, so the scores are a parameter of the development. *)
Class Sklearn := {
  pairwise_cosine : list F64.float -> list (list F64.float) -> list F64.float;
  pairwise_cosine_length :
    forall x Y, length (pairwise_cosine x Y) = length Y
}.

(** [df.values.astype(float)] on one cell: the float of a number
    (OverflowError when it is out of range), NaN for a missing value, and for
    text what [float()] reads in it. *)
Definition astype_float {pf : PyFloat} (v : pyval) : result F64.float :=
  match v with
  | VNum z =>
      let x := F64.of_Z z in
      if F64.is_finite x then Ok x else Raise
  | VNaN => Ok S754_nan
  | VStr s =>
      match float_of_text s with
      | Some x => Ok x
      | None => Raise
      end
  end.

Fixpoint sequence {A : Type} (l : list (result A)) : result (list A) :=
  match l with
  | [] => Ok []
  | c :: l' => a <- c ;; rest <- sequence l' ;; Ok (a :: rest)
  end.

(** [cosine_similarity([x], Y)[0]]: ValueError when an entry is NaN or
    infinite, when [Y] has no row, when there is no feature or when a width
    differs. *)
Definition cosine_similarity {sk : Sklearn} (x : list F64.float)
  (Y : list (list F64.float)) : result (list F64.float) :=
  if forallb F64.is_finite x && forallb (forallb F64.is_finite) Y
  then
    match x, Y with
    | [], _ => Raise
    | _, [] => Raise
    | _, _ =>
        if forallb (fun y => length y =? length x) Y
        then Ok (pairwise_cosine x Y)
        else Raise
    end
  else Raise.

(** [np.argmax]: the first position of the greatest element, a NaN counting
    as the greatest.  [best_i] is the position of the greatest element so
    far, [i] the current position; an element replaces the greatest one
    unless it is less than or equal to it. *)
Fixpoint argmax_from (best_i : nat) (best : F64.float) (i : nat)
  (l : list F64.float) : nat :=
  match l with
  | [] => best_i
  | s :: l' =>
      if F64.leb s best
      then argmax_from best_i best (S i) l'
      else if F64.is_nan s then i else argmax_from i s (S i) l'
  end.

Definition argmax (l : list F64.float) : nat :=
  match l with
  | [] => 0
  | s :: l' => if F64.is_nan s then 0 else argmax_from 0 s 1 l'
  end.

(** [v[idx] = 1] *)
Fixpoint set_one (idx : nat) (v : list Z) : list Z :=
  match v, idx with
  | [], _ => []
  | _ :: v', O => 1%Z :: v'
  | z :: v', S i => z :: set_one i v'
  end.

Section SymptomMatcher.
Context {ucd : UnicodeCase} {pf : PyFloat} {sk : Sklearn}.

Definition symptom_clean_of (symptom : pystr) : pystr :=
  replace 32%N 95%N (strip (lower symptom)).

(** One turn of the loop that builds the query vector. *)
Definition mark (symptom_columns : list pystr) (query_vector : list Z)
  (symptom : pystr) : list Z :=
  let symptom_clean := symptom_clean_of symptom in
  if mem symptom_clean symptom_columns
  then match index_of symptom_clean symptom_columns with
       | Some idx => set_one idx query_vector
       | None => query_vector
       end
  else query_vector.

(** The query vector: a 1 at the column of every symptom that is one, a 0
    elsewhere. *)
Definition query_vector_of (symptom_columns symptoms_list : list pystr) : list Z :=
  fold_left (mark symptom_columns) symptoms_list
            (repeat 0%Z (length symptom_columns)).

(** [augmented_df[symptom_columns].values.astype(float)] *)
Definition disease_matrix_of (augmented_df : frame) (symptom_columns : list pystr)
  : result (list (list F64.float)) :=
  sequence
    (map (fun r =>
            sequence
              (map (fun col =>
                      j <- col_index augmented_df col ;; astype_float (cell r j))
                   symptom_columns))
         (rows augmented_df)).

(** The [try] block of [predict_disease_from_symptoms]. *)
Definition predict_body (symptoms_list : list pystr) (augmented_df : frame)
  : result (option (pyval * F64.float * list F64.float)) :=
  let symptom_columns := symptom_columns_of augmented_df in
  let query_vector := query_vector_of symptom_columns symptoms_list in
  disease_matrix <- disease_matrix_of augmented_df symptom_columns ;;
  similarities_scores <-
    cosine_similarity (map F64.of_Z query_vector) disease_matrix ;;
  match similarities_scores with
  | _ :: _ =>
      let best_idx := argmax similarities_scores in
      best_disease <- row_get augmented_df (nth best_idx (rows augmented_df) [])
                              (lit "diseases") ;;
      let best_score := nth best_idx similarities_scores F64.zero in
      let best_vector := nth best_idx disease_matrix [] in
      Ok (Some (best_disease, best_score, best_vector))
  | [] => Ok None
  end.

Definition predict_disease_from_symptoms (symptoms_list : list pystr)
  (augmented_df : option frame)
  : option (pyval * F64.float * list F64.float) :=
  match augmented_df with
  | None => None
  | Some df => try_except (predict_body symptoms_list df) None
  end.

End SymptomMatcher.

(** ** Response assembler *)

(** A number of the response: a constant of the source, written as the
    decimal it is, or a score of the symptom matcher. *)
Inductive pynumber := Rat (q : Q) | Cos (s : F64.float).

Record query_response := {
  r_type : option intent;
  r_disease : option pyval;
  r_confidence : pynumber;
  r_symptoms : list pystr;
  r_precautions : list pystr;
  r_description : option pyval;
  r_faq_question : option pyval;
  r_faq_answer : option pyval
}.

Definition initial_response : query_response :=
  {| r_type := None; r_disease := None; r_confidence := Rat 0;
     r_symptoms := []; r_precautions := []; r_description := None;
     r_faq_question := None; r_faq_answer := None |}.

Definition set_type (v : option intent) (r : query_response) : query_response :=
  {| r_type := v; r_disease := r_disease r; r_confidence := r_confidence r;
     r_symptoms := r_symptoms r; r_precautions := r_precautions r;
     r_description := r_description r; r_faq_question := r_faq_question r;
     r_faq_answer := r_faq_answer r |}.

Definition set_disease (v : option pyval) (r : query_response) : query_response :=
  {| r_type := r_type r; r_disease := v; r_confidence := r_confidence r;
     r_symptoms := r_symptoms r; r_precautions := r_precautions r;
     r_description := r_description r; r_faq_question := r_faq_question r;
     r_faq_answer := r_faq_answer r |}.

Definition set_confidence (v : pynumber) (r : query_response) : query_response :=
  {| r_type := r_type r; r_disease := r_disease r; r_confidence := v;
     r_symptoms := r_symptoms r; r_precautions := r_precautions r;
     r_description := r_description r; r_faq_question := r_faq_question r;
     r_faq_answer := r_faq_answer r |}.

Definition set_symptoms (v : list pystr) (r : query_response) : query_response :=
  {| r_type := r_type r; r_disease := r_disease r; r_confidence := r_confidence r;
     r_symptoms := v; r_precautions := r_precautions r;
     r_description := r_description r; r_faq_question := r_faq_question r;
     r_faq_answer := r_faq_answer r |}.

Definition set_precautions (v : list pystr) (r : query_response) : query_response :=
  {| r_type := r_type r; r_disease := r_disease r; r_confidence := r_confidence r;
     r_symptoms := r_symptoms r; r_precautions := v;
     r_description := r_description r; r_faq_question := r_faq_question r;
     r_faq_answer := r_faq_answer r |}.

Definition set_description (v : option pyval) (r : query_response) : query_response :=
  {| r_type := r_type r; r_disease := r_disease r; r_confidence := r_confidence r;
     r_symptoms := r_symptoms r; r_precautions := r_precautions r;
     r_description := v; r_faq_question := r_faq_question r;
     r_faq_answer := r_faq_answer r |}.

Definition set_faq_question (v : option pyval) (r : query_response) : query_response :=
  {| r_type := r_type r; r_disease := r_disease r; r_confidence := r_confidence r;
     r_symptoms := r_symptoms r; r_precautions := r_precautions r;
     r_description := r_description r; r_faq_question := v;
     r_faq_answer := r_faq_answer r |}.

Definition set_faq_answer (v : option pyval) (r : query_response) : query_response :=
  {| r_type := r_type r; r_disease := r_disease r; r_confidence := r_confidence r;
     r_symptoms := r_symptoms r; r_precautions := r_precautions r;
     r_description := r_description r; r_faq_question := r_faq_question r;
     r_faq_answer := v |}.

(** One statement inside the [try] of [process_user_input]: when it raises,
    the handler returns the response as it stands. *)
Notation "'attempt' x <- c 'from' r ;; k" :=
  (match c with Ok x => k | Raise => r end)
  (at level 61, x name, c at next level, r at next level, right associativity).

(** The pattern of the disease shortcut:
    [(?:symptoms|signs|causes|treatment|of|for)\s+([^?]+)] *)
Definition shortcut_pattern : regex :=
  Cat (alts [Str "symptoms"; Str "signs"; Str "causes"; Str "treatment";
             Str "of"; Str "for"])
      (Cat (Plus is_space)
           (Grp 1 (Plus (fun c => negb (char_eqb c qmark))))).

Definition fixed_confidence : Q := 95 # 100.

Section Assembler.
Context {ucd : UnicodeCase} {pc : PatternCompiler} {pf : PyFloat} {sk : Sklearn}.

(** The three look-ups that fill a response for [disease_name], in the order
    of the source. *)
Definition fill_information (disease_name : pyval)
  (precautions_df symptoms_df faq_df augmented_df : option frame)
  (response : query_response) : query_response :=
  attempt symptoms <- get_disease_symptoms disease_name symptoms_df augmented_df
    from response ;;
  let response := set_symptoms symptoms response in
  attempt precautions <- get_disease_precautions disease_name precautions_df
    from response ;;
  let response := set_precautions precautions response in
  attempt description <- get_disease_description disease_name faq_df
    from response ;;
  set_description description response.

(** The fallback of the question path: the FAQ search. *)
Definition faq_fallback (user_input : pystr) (faq_df : option frame)
  (response : query_response) : query_response :=
  attempt faq_match <- find_question_answer user_input faq_df from response ;;
  match faq_match, faq_df with
  | Some faq_row, Some df =>
      attempt question <- row_get df faq_row (lit "question") from response ;;
      let response := set_faq_question (Some question) response in
      attempt answer <- row_get df faq_row (lit "answer") from response ;;
      set_faq_answer (Some answer) response
  | _, _ => response
  end.

(** The candidate disease of the shortcut: [disease_match.group(1).strip()]. *)
Definition potential_disease_of (user_input : pystr) : option pystr :=
  match search shortcut_pattern (lower user_input) with
  | Some disease_match =>
      match group 1 (m_groups disease_match) with
      | Some text => Some (strip text)
      | None => None
      end
  | None => None
  end.

Definition question_path (user_input : pystr)
  (precautions_df symptoms_df faq_df augmented_df : option frame)
  (response : query_response) : query_response :=
  match potential_disease_of user_input with
  | Some potential_disease =>
      if contains (lit "symptom") (lower user_input)
         || contains (lit "sign") (lower user_input)
      then
        attempt symptoms <-
          get_disease_symptoms (VStr potential_disease) symptoms_df augmented_df
          from response ;;
        match symptoms with
        | _ :: _ =>
            let response := set_type (Some Disease) response in
            let response := set_disease (Some (VStr potential_disease)) response in
            let response := set_confidence (Rat fixed_confidence) response in
            let response := set_symptoms symptoms response in
            attempt precautions <-
              get_disease_precautions (VStr potential_disease) precautions_df
              from response ;;
            let response := set_precautions precautions response in
            attempt description <-
              get_disease_description (VStr potential_disease) faq_df
              from response ;;
            set_description description response
        | [] => faq_fallback user_input faq_df response
        end
      else faq_fallback user_input faq_df response
  | None => faq_fallback user_input faq_df response
  end.

Definition symptoms_path (user_input : pystr)
  (precautions_df symptoms_df faq_df augmented_df : option frame)
  (response : query_response) : query_response :=
  let symptoms_list := map strip (split_on comma user_input) in
  match predict_disease_from_symptoms symptoms_list augmented_df with
  | Some (disease_name, confidence, disease_vector) =>
      let response := set_disease (Some disease_name) response in
      let response := set_confidence (Cos confidence) response in
      fill_information disease_name precautions_df symptoms_df faq_df
                       augmented_df response
  | None => response
  end.

Definition disease_path (user_input : pystr)
  (precautions_df symptoms_df faq_df augmented_df : option frame)
  (response : query_response) : query_response :=
  let response := set_disease (Some (VStr user_input)) response in
  let response := set_confidence (Rat fixed_confidence) response in
  fill_information (VStr user_input) precautions_df symptoms_df faq_df
                   augmented_df response.

Definition process_user_input (user_input : pystr)
  (precautions_df symptoms_df faq_df augmented_df : option frame)
  : query_response :=
  let response := initial_response in
  match user_input with
  | [] => response
  | _ =>
      let input_type := classify_input_type user_input in
      let response := set_type (Some input_type) response in
      match input_type with
      | Question =>
          question_path user_input precautions_df symptoms_df faq_df
                        augmented_df response
      | Symptoms =>
          symptoms_path user_input precautions_df symptoms_df faq_df
                        augmented_df response
      | Disease =>
          disease_path user_input precautions_df symptoms_df faq_df
                       augmented_df response
      end
  end.

End Assembler.

(** A pattern compiler for running the model on plain words: a text without
    any character that [re] reads specially is found where it occurs; other
    texts are refused. *)
Definition is_special (c : char) : bool :=
  existsb (char_eqb c) (lit ".^$*+?{}[]\|()").

Definition plain_compiler : PatternCompiler :=
  {| re_compile := fun pat =>
       if existsb is_special pat then None else Some (contains pat) |}.

(** A pattern compiler that also reads the wild card: a text whose only
    special character is [.], which stands for any character but a line
    feed. *)
Definition wildcard_pattern (pat : pystr) : regex :=
  fold_right (fun c r =>
                Cat (if char_eqb c 46%N
                     then Cls (fun x => negb (char_eqb x 10%N))
                     else Chr c) r)
             Eps pat.

Definition wildcard_compiler : PatternCompiler :=
  {| re_compile := fun pat =>
       if existsb (fun c => is_special c && negb (char_eqb c 46%N)) pat
       then None
       else Some (found (wildcard_pattern pat)) |}.

(** A compiler reads a text without special characters as that text: the
    pattern is found where the text occurs. *)
Definition plain_text_search (pc : PatternCompiler) : Prop :=
  forall pat, existsb is_special pat = false ->
              re_compile pat = Some (contains pat).

(** An excerpt of [float()] for running the model: a decimal integer with an
    optional sign, white space around it being ignored; other texts are
    refused. *)
Fixpoint digits_value (acc : Z) (s : pystr) : option Z :=
  match s with
  | [] => Some acc
  | c :: s' =>
      if ((48 <=? c) && (c <=? 57))%N
      then digits_value (10 * acc + Z.of_N (c - 48)) s'
      else None
  end.

Definition integer_of_text (s : pystr) : option F64.float :=
  match strip s with
  | [] => None
  | c :: s' =>
      if char_eqb c 45%N
      then match s' with
           | [] => None
           | _ => option_map (fun z => SFopp (F64.of_Z z)) (digits_value 0 s')
           end
      else if char_eqb c 43%N
      then match s' with
           | [] => None
           | _ => option_map F64.of_Z (digits_value 0 s')
           end
      else option_map F64.of_Z (digits_value 0 (c :: s'))
  end.

Definition integer_text : PyFloat := {| float_of_text := integer_of_text |}.

(** Reference arithmetic for running the model on matrices of integers: the
    steps of scikit-learn (each vector is divided by its Euclidean norm, a
    norm of 0 being replaced by 1, then the dot products are taken), every
    sum from left to right and every product rounded. *)
Definition sum_products (u v : list F64.float) : F64.float :=
  fold_left (fun acc p => F64.add acc (F64.mul (fst p) (snd p)))
            (combine u v) F64.zero.

Definition l2_normalize (v : list F64.float) : list F64.float :=
  let norm := F64.sqrt (sum_products v v) in
  let norm := if F64.is_zero norm then F64.one else norm in
  map (fun x => F64.div x norm) v.

Definition reference_cosine (x : list F64.float) (Y : list (list F64.float))
  : list F64.float :=
  let x_normalized := l2_normalize x in
  map (fun y => sum_products x_normalized (l2_normalize y)) Y.

Definition reference_sklearn : Sklearn :=
  {| pairwise_cosine := reference_cosine;
     pairwise_cosine_length := fun x Y =>
       length_map (fun y => sum_products (l2_normalize x) (l2_normalize y)) Y |}.

(** ** Loading: cleaning and preprocessing *)

Definition is_text (v : pyval) : bool :=
  match v with VStr _ => true | _ => false end.

(** The cells of the column at position [j]. *)
Definition column_of (df : frame) (j : nat) : list pyval :=
  map (fun r => cell r j) (rows df).

(** [df.dropna(how='all')] keeps the rows that have a value somewhere. *)
Definition all_na (width : nat) (r : row) : bool :=
  forallb (fun j => negb (notna (cell r j))) (seq 0 width).

(** [df.columns.str.contains('^Unnamed')] on one label. *)
Definition unnamed (label : pystr) : bool := startswith (lit "Unnamed") label.

(** [fillna('')] on one cell. *)
Definition fillna_text (v : pyval) : pyval :=
  match v with VNaN => VStr [] | _ => v end.

(** The dtype pandas gives a column, as far as [clean_dataframe] asks:
    whether a column with these cells has dtype [object].  Which columns have
    it depends on the version of pandas (a column of text has it before
    pandas 3 and not from pandas 3 on), so the test is a parameter of the
    development. *)
Class Dtypes := {
  object_dtype : list pyval -> bool
}.

(** [clean_dataframe]: drop the rows without any value, drop the columns
    whose label starts with "Unnamed", and in every column of dtype object
    replace NaN by the empty string. *)
Definition clean_dataframe {dt : Dtypes} (df : option frame) : option frame :=
  match df with
  | None => None
  | Some df =>
      let width := length (columns df) in
      let kept_rows := filter (fun r => negb (all_na width r)) (rows df) in
      let kept :=
        filter (fun jc : nat * pystr => negb (unnamed (snd jc)))
               (combine (seq 0 width) (columns df)) in
      let narrowed :=
        map (fun r => map (fun jc : nat * pystr => cell r (fst jc)) kept)
            kept_rows in
      let is_object :=
        map (fun k => object_dtype (map (fun r => cell r k) narrowed))
            (seq 0 (length kept)) in
      Some {| columns := map snd kept;
              rows :=
                map (fun r =>
                       map (fun vo : pyval * bool =>
                              if snd vo then fillna_text (fst vo) else fst vo)
                           (combine r is_object))
                    narrowed |}
  end.

(** The dtypes before pandas 3: a column that holds text has dtype object. *)
Definition object_if_text : Dtypes := {| object_dtype := existsb is_text |}.

(** [r[j] = v], a short row being filled with NaN up to position [j]. *)
Fixpoint set_cell (j : nat) (v : pyval) (r : row) : row :=
  match j, r with
  | O, [] => [v]
  | O, _ :: r' => v :: r'
  | S j', [] => VNaN :: set_cell j' v []
  | S j', x :: r' => x :: set_cell j' v r'
  end.

(** [df[label] = cells]: the column is replaced when the label exists and
    added at the end when it does not. *)
Definition set_column (df : frame) (label : pystr) (cells : list pyval) : frame :=
  match index_of label (columns df) with
  | Some j =>
      {| columns := columns df;
         rows := map (fun rv : row * pyval => set_cell j (snd rv) (fst rv))
                     (combine (rows df) cells) |}
  | None =>
      {| columns := columns df ++ [label];
         rows := map (fun rv : row * pyval =>
                        set_cell (length (columns df)) (snd rv) (fst rv))
                     (combine (rows df) cells) |}
  end.

Section Preprocessing.
Context {ucd : UnicodeCase}.

(** One cell under [.str.lower().str.strip()]: a cell that is no text
    becomes NaN. *)
Definition normalized_cell (v : pyval) : pyval :=
  match v with
  | VStr s => VStr (strip (lower s))
  | _ => VNaN
  end.

(** [column.str.lower().str.strip()]: AttributeError when the column holds
    no text. *)
Definition str_lower_strip (cells : list pyval) : result (list pyval) :=
  if negb (existsb is_text cells)
     && negb (match cells with [] => true | _ => false end)
  then Raise
  else Ok (map normalized_cell cells).

(** [df[dst] = df[src].str.lower().str.strip()] *)
Definition add_clean_column (df : frame) (src dst : pystr) : result frame :=
  j <- col_index df src ;;
  cells <- str_lower_strip (column_of df j) ;;
  Ok (set_column df dst cells).

(** The guarded statement of [preprocess_datasets] for one table. *)
Definition preprocess_column (df : option frame) (src dst : pystr)
  : result (option frame) :=
  match df with
  | Some d =>
      if mem src (columns d)
      then d' <- add_clean_column d src dst ;; Ok (Some d')
      else Ok (Some d)
  | None => Ok None
  end.

(** [preprocess_datasets]: the tables are updated one after the other, and
    when a statement raises the tables are returned as they stand. *)
Definition preprocess_datasets
  (precautions_df symptoms_df faq_df augmented_df : option frame)
  : option frame * option frame * option frame * option frame :=
  match preprocess_column precautions_df (lit "Disease") (lit "Disease_clean") with
  | Raise => (precautions_df, symptoms_df, faq_df, augmented_df)
  | Ok precautions_df =>
  match preprocess_column symptoms_df (lit "Disease") (lit "Disease_clean") with
  | Raise => (precautions_df, symptoms_df, faq_df, augmented_df)
  | Ok symptoms_df =>
  match preprocess_column faq_df (lit "Disease") (lit "Disease_clean") with
  | Raise => (precautions_df, symptoms_df, faq_df, augmented_df)
  | Ok faq_df =>
  match preprocess_column augmented_df (lit "diseases") (lit "diseases_clean") with
  | Raise => (precautions_df, symptoms_df, faq_df, augmented_df)
  | Ok augmented_df =>
  match preprocess_column faq_df (lit "question") (lit "question_clean") with
  | Raise => (precautions_df, symptoms_df, faq_df, augmented_df)
  | Ok faq_df => (precautions_df, symptoms_df, faq_df, augmented_df)
  end end end end end.

End Preprocessing.

(** The labels that preprocessing writes. *)
Definition clean_labels : list pystr :=
  [lit "Disease_clean"; lit "diseases_clean"; lit "question_clean"].

(** [d'] is [d] with clean columns written: the same number of rows, the
    columns of [d] followed by new clean columns, and the same cell wherever
    the label is not a clean one. *)
Definition frame_extends (d d' : frame) : Prop :=
  length (rows d') = length (rows d) /\
  (exists extra, columns d' = columns d ++ extra /\
                 Forall (fun label => In label clean_labels) extra) /\
  forall i k label,
    nth_error (columns d') k = Some label -> ~ In label clean_labels ->
    cell (nth i (rows d') []) k = cell (nth i (rows d) []) k.

Definition table_extends (t t' : option frame) : Prop :=
  match t, t' with
  | None, None => True
  | Some d, Some d' => frame_extends d d'
  | _, _ => False
  end.

(** A table with further rows written below the ones it has. *)
Definition with_more_rows (df : frame) (more : list row) : frame :=
  {| columns := columns df; rows := rows df ++ more |}.

(** ** The query vector, position by position *)

(** Whether [symptom] puts a 1 at position [k] of the query vector. *)
Definition marks {ucd : UnicodeCase} (symptom_columns : list pystr) (k : nat)
  (symptom : pystr) : bool :=
  mem (symptom_clean_of symptom) symptom_columns &&
  match index_of (symptom_clean_of symptom) symptom_columns with
  | Some idx => idx =? k
  | None => false
  end.

(** ** Well-formed tables and sample data *)

Definition number_of (v : pyval) : Z :=
  match v with VNum z => z | _ => 0%Z end.

(** The vector of a row of the augmented matrix. *)
Definition row_vector (df : frame) (r : row) : list Z :=
  map (fun col =>
         match index_of col (columns df) with
         | Some j => number_of (cell r j)
         | None => 0%Z
         end)
      (symptom_columns_of df).

Definition binary_vector (v : list Z) : Prop :=
  Forall (fun z => z = 0%Z \/ z = 1%Z) v.

(** [M] is the matrix that [astype(float)] makes of the symptom columns of
    [df], and every entry of it is finite. *)
Definition finite_matrix {pf : PyFloat} (df : frame) (M : list (list F64.float))
  : Prop :=
  disease_matrix_of df (symptom_columns_of df) = Ok M /\
  forallb (forallb F64.is_finite) M = true.

(** The dot product of two vectors of integers, exact. *)
Definition dotp (x y : list Z) : Z :=
  fold_right Z.add 0%Z (map (fun p : Z * Z => (fst p * snd p)%Z) (combine x y)).

(** The rows [r1] and [r2] have the same cosine with the query [q], as real
    numbers: the dot products are not negative and their squares are in the
    ratio of the squared norms. *)
Definition same_cosine (q r1 r2 : list Z) : Prop :=
  (0 <= dotp q r1 /\ 0 <= dotp q r2 /\
   dotp q r1 * dotp q r1 * dotp r2 r2 = dotp q r2 * dotp q r2 * dotp r1 r1)%Z.

(** No row of [df] carries the name [disease_clean] under [label]. *)
Definition no_row_named (df : option frame) (label disease_clean : pystr) : Prop :=
  forall d j r,
    df = Some d -> index_of label (columns d) = Some j -> In r (rows d) ->
    cell r j <> VStr disease_clean.

Section Unknown.
Context {ucd : UnicodeCase}.

(** No question of the FAQ table contains the text [disease_clean]. *)
Definition no_question_contains (faq_df : option frame) (disease_clean : pystr)
  : Prop :=
  forall d j r q,
    faq_df = Some d -> index_of (lit "question_clean") (columns d) = Some j ->
    In r (rows d) -> cell r j = VStr q -> contains disease_clean q = false.

(** A disease name that is absent from every table: its normal form is no
    cell of a column of clean names and occurs in no clean question. *)
Definition unknown_disease (disease_name : pystr)
  (precautions_df symptoms_df faq_df augmented_df : option frame) : Prop :=
  let disease_clean := strip (lower disease_name) in
  no_row_named augmented_df (lit "diseases_clean") disease_clean /\
  no_row_named symptoms_df (lit "Disease_clean") disease_clean /\
  no_row_named precautions_df (lit "Disease_clean") disease_clean /\
  no_question_contains faq_df disease_clean.

End Unknown.

Definition sample_augmented : frame :=
  {| columns := [lit "diseases"; lit "fever"; lit "excessive_thirst";
                 lit "diseases_clean"];
     rows := [ [VStr (lit "Flu"); VNum 1; VNum 0; VStr (lit "flu")];
               [VStr (lit "Diabetes"); VNum 0; VNum 1; VStr (lit "diabetes")] ] |}.

Definition sample_faq : frame :=
  {| columns := [lit "question"; lit "answer"; lit "question_clean"];
     rows := [ [VStr (lit "What is flu"); VStr (lit "An infection");
                VStr (lit "what is flu")];
               [VStr (lit "What is asthma"); VStr (lit "A lung condition");
                VStr (lit "what is asthma")] ] |}.

Definition sample_precautions : frame :=
  {| columns := [lit "Disease"; lit "Precaution_1"; lit "Disease_clean"];
     rows := [ [VStr (lit "Flu"); VStr (lit "rest"); VStr (lit "flu")] ] |}.

Definition sample_symptoms : frame :=
  {| columns := [lit "Disease"; lit "Symptom_1"; lit "Disease_clean"];
     rows := [ [VStr (lit "Malaria"); VStr (lit " chills"); VStr (lit "malaria")] ] |}.

Definition faq_of (questions : list string) : frame :=
  {| columns := [lit "question"; lit "answer"];
     rows := map (fun q => [VStr (lit q); VStr (lit "answer")]) questions |}.

(** Two questions that share no word with the input "zzz". *)
Definition sample_faq_low : frame := faq_of ["abc"; "def"]%string.

(** For the input "flu shot": one partial match, then two full matches. *)
Definition sample_faq_tie : frame := faq_of ["flu care"; "flu shot"; "flu shot"]%string.

(** For the input "fever cough chill": a good match, then two better ones. *)
Definition sample_faq_exit : frame :=
  faq_of ["fever cough"; "fever cough chill"; "fever cough chill"]%string.

(** The rows of [sample_faq_tie] with their scores for "flu shot". *)
Definition sample_tie_scored : list ((nat * row) * option F64.float) :=
  [ ((0, [VStr (lit "flu care"); VStr (lit "answer")]), Some (F64.truediv 1 2));
    ((1, [VStr (lit "flu shot"); VStr (lit "answer")]), Some F64.one);
    ((2, [VStr (lit "flu shot"); VStr (lit "answer")]), Some F64.one) ].

(** A matrix whose first row has lost its disease name. *)
Definition sample_augmented_nameless : frame :=
  {| columns := [lit "diseases"; lit "fever"; lit "cough"; lit "diseases_clean"];
     rows := [ [VNaN; VNum 1; VNum 1; VNaN];
               [VStr (lit "Flu"); VNum 1; VNum 0; VStr (lit "flu")] ] |}.

(** An FAQ table that has lost its question column. *)
Definition sample_faq_headless : frame :=
  {| columns := [lit "answer"]; rows := [ [VStr (lit "A lung condition")] ] |}.

(** A matrix with a missing cell under a symptom column. *)
Definition sample_augmented_gap : frame :=
  {| columns := [lit "diseases"; lit "fever"; lit "cough"];
     rows := [ [VStr (lit "Flu"); VNum 1; VNum 1];
               [VStr (lit "Cold"); VNum 0; VNaN] ] |}.

(** A table as it is read from its file, before cleaning. *)
Definition raw_precautions : frame :=
  {| columns := [lit "Unnamed: 0"; lit "Disease"; lit "Precaution_1";
                 lit "Precaution_2"];
     rows := [ [VNum 0; VStr (lit " Malaria"); VStr (lit "use nets"); VNaN];
               [VNaN; VNaN; VNaN; VNaN];
               [VNum 2; VStr (lit "TYPHOID "); VStr (lit "clean water");
                VStr (lit "wash hands")] ] |}.


(** A matrix with eleven symptoms: the first disease has nine of them, all
    but "s4" and "s5", the second has "s1" only.  For the symptoms
    "s1, s2, s3, s4, s5" both rows have the cosine 1 / sqrt 5: the first
    3 / (sqrt 5 * sqrt 9), the second 1 / (sqrt 5 * sqrt 1). *)
Definition sample_augmented_tied : frame :=
  {| columns :=
       lit "diseases"
       :: map lit ["s1"; "s2"; "s3"; "s4"; "s5"; "s6"; "s7"; "s8"; "s9";
                   "s10"; "s11"]%string;
     rows := [ VStr (lit "Broad")
               :: repeat (VNum 1) 3 ++ repeat (VNum 0) 2 ++ repeat (VNum 1) 6;
               VStr (lit "Narrow") :: VNum 1 :: repeat (VNum 0) 10 ] |}.

(** The letter U+0131 (dotless i) inside an otherwise ASCII word. *)
Definition explain_dotless : pystr := lit "expla" ++ [305%N] ++ lit "n".

(** * Properties *)

(** ** Strings *)

Lemma is_space_range (c : char) :
  is_space c = true -> (c <= 32 \/ 133 <= c)%N.
Proof.
  unfold is_space.
  repeat rewrite orb_true_iff. repeat rewrite andb_true_iff.
  repeat rewrite N.leb_le. repeat rewrite N.eqb_eq. lia.
Qed.

Lemma not_space_printable (c : char) :
  (33 <= c <= 132)%N -> is_space c = false.
Proof.
  intros Hc. destruct (is_space c) eqn:E; [|reflexivity].
  apply is_space_range in E. lia.
Qed.

Lemma ascii_upper_cases (c : char) :
  ((97 <= c <= 122)%N /\ ascii_upper c = (c - 32)%N) \/
  (~ (97 <= c <= 122)%N /\ ascii_upper c = c).
Proof.
  unfold ascii_upper.
  destruct (N.leb_spec 97 c); destruct (N.leb_spec c 122); simpl;
    first [left; split; [lia | reflexivity] | right; split; [lia | reflexivity]].
Qed.

Lemma ascii_lower_upper (c : char) : ascii_lower (ascii_upper c) = ascii_lower c.
Proof.
  destruct (ascii_upper_cases c) as [[Hc ->] | [Hc ->]]; [|reflexivity].
  unfold ascii_lower.
  destruct (N.leb_spec 65 (c - 32)); destruct (N.leb_spec (c - 32) 90);
    destruct (N.leb_spec 65 c); destruct (N.leb_spec c 90); simpl; lia.
Qed.

Lemma is_ascii_upper (c : char) :
  is_ascii c = true -> is_ascii (ascii_upper c) = true.
Proof.
  unfold is_ascii. rewrite !N.ltb_lt.
  destruct (ascii_upper_cases c) as [[Hc ->] | [Hc ->]]; lia.
Qed.

Lemma is_space_upper (c : char) : is_space (ascii_upper c) = is_space c.
Proof.
  destruct (ascii_upper_cases c) as [[Hc ->] | [Hc ->]]; [|reflexivity].
  rewrite !not_space_printable by lia. reflexivity.
Qed.

Lemma char_eqb_upper (x c : char) :
  (x < 65)%N -> char_eqb x (ascii_upper c) = char_eqb x c.
Proof.
  intros Hx. unfold char_eqb.
  destruct (ascii_upper_cases c) as [[Hc ->] | [Hc ->]]; [|reflexivity].
  destruct (N.eqb_spec x (c - 32)); destruct (N.eqb_spec x c); try reflexivity; lia.
Qed.

Lemma has_char_upper (x : char) (s : pystr) :
  (x < 65)%N -> has_char x (map ascii_upper s) = has_char x s.
Proof.
  intros Hx. unfold has_char. induction s as [|c s IH]; simpl.
  - reflexivity.
  - rewrite IH, char_eqb_upper by assumption. reflexivity.
Qed.

Lemma forallb_is_ascii_upper (s : pystr) :
  forallb is_ascii s = true -> forallb is_ascii (map ascii_upper s) = true.
Proof.
  induction s as [|c s IH]; simpl; [reflexivity|].
  rewrite andb_true_iff. intros [Hc Hs].
  rewrite is_ascii_upper, IH by assumption. reflexivity.
Qed.

Section CaseFacts.
Context {ucd : UnicodeCase}.

Lemma upper_ascii (s : pystr) :
  forallb is_ascii s = true -> upper s = map ascii_upper s.
Proof. intros H. unfold upper. rewrite H. reflexivity. Qed.

Lemma lower_ascii (s : pystr) :
  forallb is_ascii s = true -> lower s = map ascii_lower s.
Proof. intros H. unfold lower. rewrite H. reflexivity. Qed.

Lemma lower_upper_ascii (s : pystr) :
  forallb is_ascii s = true -> lower (upper s) = lower s.
Proof.
  intros H. rewrite upper_ascii by assumption.
  rewrite !lower_ascii by (try apply forallb_is_ascii_upper; assumption).
  rewrite map_map. apply map_ext. intros c. apply ascii_lower_upper.
Qed.

End CaseFacts.

(** The number of words only depends on where the white space is. *)
Lemma split_from_map_length (f : char -> char) :
  (forall c, is_space (f c) = is_space c) ->
  forall s cur cur',
    (cur = [] <-> cur' = []) ->
    length (split_from cur' (map f s)) = length (split_from cur s).
Proof.
  intros Hf. induction s as [|c s IH]; intros cur cur' Hcur; simpl.
  - destruct cur, cur'; try reflexivity.
    + destruct Hcur as [Hc _]. discriminate (Hc eq_refl).
    + destruct Hcur as [_ Hc]. discriminate (Hc eq_refl).
  - rewrite Hf. destruct (is_space c).
    + destruct cur, cur'; simpl.
      * apply IH. tauto.
      * destruct Hcur as [Hc _]. discriminate (Hc eq_refl).
      * destruct Hcur as [_ Hc]. discriminate (Hc eq_refl).
      * f_equal. apply IH. tauto.
    + apply IH. split; discriminate.
Qed.

Lemma split_upper_length (s : pystr) :
  length (split (map ascii_upper s)) = length (split s).
Proof.
  unfold split. apply split_from_map_length.
  - apply is_space_upper.
  - tauto.
Qed.

(** ** Intent classifier *)

Example classify_symptom_list :
  classify_input_type (ucd := ucd_excerpt) (lit "fever, headache, cough") = Symptoms.
Proof. vm_compute. reflexivity. Qed.

Example classify_what_question :
  classify_input_type (ucd := ucd_excerpt) (lit "What are the symptoms of diabetes")
  = Question.
Proof. vm_compute. reflexivity. Qed.

Example classify_disease_name :
  classify_input_type (ucd := ucd_excerpt) (lit "heart disease") = Disease.
Proof. vm_compute. reflexivity. Qed.

Lemma question_mark_is_question {ucd : UnicodeCase} (s : pystr) :
  has_char qmark s = true -> classify_input_type s = Question.
Proof.
  intros H. unfold classify_input_type. destruct s as [|c s]; [reflexivity|].
  rewrite H. reflexivity.
Qed.

(** C7, as stated, fails: the word "explaın", written with the dotless i
    U+0131, is classified as a disease name, and its upper-case form
    "EXPLAIN" as a question. *)
Lemma classify_case_counterexample :
  classify_input_type (ucd := ucd_excerpt) explain_dotless
  <> classify_input_type (ucd := ucd_excerpt) (upper (ucd := ucd_excerpt) explain_dotless).
Proof. vm_compute. discriminate. Qed.

(** C7, amended: for every input string [s] made of ASCII characters,
    [classify_input_type(s.upper())] equals [classify_input_type(s)],
    whatever the case mappings beyond ASCII are. *)
Theorem classify_case_insensitive_ascii :
  forall (ucd : UnicodeCase) (s : pystr),
    forallb is_ascii s = true ->
    classify_input_type (upper s) = classify_input_type s.
Proof.
  intros ucd s Hs.
  assert (Hq : is_question (upper s) = is_question s).
  { unfold is_question. rewrite lower_upper_ascii by assumption. reflexivity. }
  rewrite upper_ascii in * by assumption.
  destruct s as [|c s]; [reflexivity|].
  unfold classify_input_type.
  change (map ascii_upper (c :: s)) with (ascii_upper c :: map ascii_upper s) at 1.
  cbv iota.
  change (ascii_upper c :: map ascii_upper s) with (map ascii_upper (c :: s)).
  rewrite Hq.
  rewrite !has_char_upper by (unfold qmark, comma; lia).
  rewrite !split_upper_length. reflexivity.
Qed.

Lemma classify_case_insensitive_ascii_witness :
  forallb is_ascii (lit "What are the symptoms of Diabetes") = true /\
  classify_input_type (ucd := ucd_excerpt)
    (upper (ucd := ucd_excerpt) (lit "What are the symptoms of Diabetes"))
  = classify_input_type (ucd := ucd_excerpt) (lit "What are the symptoms of Diabetes").
Proof.
  split.
  - reflexivity.
  - apply (classify_case_insensitive_ascii ucd_excerpt). reflexivity.
Defined.

(** C4, as stated, fails: "fever, cough?" has a comma, two words and matches
    no question pattern, and the question mark makes it a question. *)
Lemma comma_short_counterexample :
  has_char comma (lit "fever, cough?") = true /\
  length (split (lit "fever, cough?")) <= 5 /\
  is_question (ucd := ucd_excerpt) (lit "fever, cough?") = false /\
  classify_input_type (ucd := ucd_excerpt) (lit "fever, cough?") <> Symptoms.
Proof.
  split; [reflexivity|].
  split; [vm_compute; lia|].
  split; [reflexivity|].
  vm_compute. discriminate.
Qed.

(** C4, amended: every input that contains a comma, has at most 5 words,
    matches none of the question patterns and contains no question mark is
    classified as a symptom list. *)
Theorem comma_short_is_symptoms :
  forall (ucd : UnicodeCase) (s : pystr),
    has_char comma s = true ->
    length (split s) <= 5 ->
    is_question s = false ->
    has_char qmark s = false ->
    classify_input_type s = Symptoms.
Proof.
  intros ucd s Hcomma Hwords Hpat Hq.
  unfold classify_input_type.
  destruct s as [|c s]; [discriminate Hcomma|].
  rewrite Hpat, Hq, Hcomma. simpl.
  apply Nat.leb_le in Hwords. rewrite Hwords. reflexivity.
Qed.

Lemma comma_short_is_symptoms_witness :
  has_char comma (lit "fever, headache, cough") = true /\
  length (split (lit "fever, headache, cough")) <= 5 /\
  is_question (ucd := ucd_excerpt) (lit "fever, headache, cough") = false /\
  has_char qmark (lit "fever, headache, cough") = false /\
  classify_input_type (ucd := ucd_excerpt) (lit "fever, headache, cough") = Symptoms.
Proof.
  assert (H1 : has_char comma (lit "fever, headache, cough") = true) by reflexivity.
  assert (H2 : length (split (lit "fever, headache, cough")) <= 5)
    by (vm_compute; lia).
  assert (H3 : is_question (ucd := ucd_excerpt) (lit "fever, headache, cough") = false)
    by reflexivity.
  assert (H4 : has_char qmark (lit "fever, headache, cough") = false) by reflexivity.
  split; [exact H1|]. split; [exact H2|]. split; [exact H3|]. split; [exact H4|].
  exact (comma_short_is_symptoms ucd_excerpt _ H1 H2 H3 H4).
Defined.

Lemma lstrip_blank (s : pystr) : forallb is_space s = true -> lstrip s = [].
Proof.
  induction s as [|c s IH]; simpl; [reflexivity|].
  rewrite andb_true_iff. intros [Hc Hs]. rewrite Hc. apply IH, Hs.
Qed.

Lemma strip_blank (s : pystr) : forallb is_space s = true -> strip s = [].
Proof. intros H. unfold strip. rewrite lstrip_blank by assumption. reflexivity. Qed.

Lemma split_blank (s : pystr) : forallb is_space s = true -> split s = [].
Proof.
  unfold split. induction s as [|c s IH]; simpl; [reflexivity|].
  rewrite andb_true_iff. intros [Hc Hs]. rewrite Hc. apply IH, Hs.
Qed.

Lemma has_char_blank (x : char) (s : pystr) :
  (33 <= x <= 132)%N -> forallb is_space s = true -> has_char x s = false.
Proof.
  intros Hx. unfold has_char. induction s as [|c s IH]; simpl; [reflexivity|].
  rewrite andb_true_iff. intros [Hc Hs]. rewrite IH by assumption.
  unfold char_eqb. destruct (N.eqb_spec x c) as [->|]; [|reflexivity].
  rewrite not_space_printable in Hc by assumption. discriminate.
Qed.

Lemma ascii_lower_blank (s : pystr) :
  forallb is_space s = true -> map ascii_lower s = s.
Proof.
  induction s as [|c s IH]; simpl; [reflexivity|].
  rewrite andb_true_iff. intros [Hc Hs]. rewrite IH by assumption. f_equal.
  unfold ascii_lower.
  destruct (N.leb_spec 65 c); destruct (N.leb_spec c 90); simpl; try reflexivity.
  rewrite not_space_printable in Hc by lia. discriminate.
Qed.

(** A non-empty input of ASCII white space is not caught by the guard for
    the empty input: it has no word, and is classified as a disease name. *)
Lemma classify_blank_ascii {ucd : UnicodeCase} (s : pystr) :
  s <> [] -> forallb is_space s = true -> forallb is_ascii s = true ->
  classify_input_type s = Disease.
Proof.
  intros Hne Hsp Hasc. unfold classify_input_type.
  destruct s as [|c s]; [contradiction|].
  unfold is_question. rewrite lower_ascii by assumption.
  rewrite ascii_lower_blank by assumption.
  rewrite strip_blank by assumption.
  rewrite !has_char_blank by (try assumption; unfold qmark, comma; lia).
  rewrite split_blank by assumption. reflexivity.
Qed.

(** ** Response assembler: what each step leaves untouched *)

Ltac break_matches :=
  repeat match goal with
         | |- context [match ?x with _ => _ end] => destruct x
         end.

Section AssemblerFacts.
Context {ucd : UnicodeCase} {pc : PatternCompiler} {pf : PyFloat} {sk : Sklearn}.

Lemma fill_information_keeps (disease_name : pyval)
  (p s f a : option frame) (r : query_response) :
  let r' := fill_information disease_name p s f a r in
  r_type r' = r_type r /\ r_disease r' = r_disease r /\
  r_confidence r' = r_confidence r /\
  r_faq_question r' = r_faq_question r /\ r_faq_answer r' = r_faq_answer r.
Proof.
  unfold fill_information. break_matches; simpl; auto.
Qed.

Lemma faq_fallback_keeps (user_input : pystr) (f : option frame)
  (r : query_response) :
  let r' := faq_fallback user_input f r in
  r_type r' = r_type r /\ r_disease r' = r_disease r /\
  r_confidence r' = r_confidence r /\ r_symptoms r' = r_symptoms r /\
  r_precautions r' = r_precautions r /\ r_description r' = r_description r.
Proof.
  unfold faq_fallback. break_matches; simpl; auto 10.
Qed.

(** The question path either keeps intent, disease and confidence as they
    were, or escalates to the candidate of the shortcut. *)
Lemma question_path_cases (user_input : pystr) (p s f a : option frame)
  (r : query_response) :
  let r' := question_path user_input p s f a r in
  (r_type r' = r_type r /\ r_disease r' = r_disease r /\
   r_confidence r' = r_confidence r) \/
  (exists potential_disease,
      potential_disease_of user_input = Some potential_disease /\
      r_type r' = Some Disease /\
      r_disease r' = Some (VStr potential_disease) /\
      r_confidence r' = Rat fixed_confidence /\
      r_symptoms r' <> [] /\
      Ok (r_symptoms r') = get_disease_symptoms (VStr potential_disease) s a).
Proof.
  unfold question_path.
  destruct (potential_disease_of user_input) as [pd|];
    [|left; destruct (faq_fallback_keeps user_input f r) as (?&?&?&_); auto].
  destruct (contains (lit "symptom") (lower user_input)
            || contains (lit "sign") (lower user_input));
    [|left; destruct (faq_fallback_keeps user_input f r) as (?&?&?&_); auto].
  destruct (get_disease_symptoms (VStr pd) s a) as [[|sy sys]|] eqn:E.
  - left. destruct (faq_fallback_keeps user_input f r) as (?&?&?&_); auto.
  - right. exists pd. split; [reflexivity|].
    break_matches; simpl;
      (split; [reflexivity|]); (split; [reflexivity|]); (split; [reflexivity|]);
      (split; [discriminate | symmetry; exact E]).
  - left. auto.
Qed.

End AssemblerFacts.

(** C3, as stated, fails twice: a blank input is classified as a disease
    name, and the response to the empty input has no intent at all. *)
Lemma blank_input_counterexample :
  classify_input_type (ucd := ucd_excerpt) (lit " ") <> Question /\
  r_type (process_user_input (ucd := ucd_excerpt) (pc := plain_compiler)
    (pf := integer_text) (sk := reference_sklearn)
            [] None None None None) <> Some Question.
Proof. split; vm_compute; discriminate. Qed.

(** C3, amended: the empty input is classified as a question, and the
    response to the empty input is the initial one: no intent, no disease,
    confidence 0 and every other field none or empty. *)
Theorem empty_input_response :
  forall (ucd : UnicodeCase) (pc : PatternCompiler) (pf : PyFloat)
         (sk : Sklearn)
         (precautions_df symptoms_df faq_df augmented_df : option frame),
    classify_input_type [] = Question /\
    let response :=
      process_user_input [] precautions_df symptoms_df faq_df augmented_df in
    r_type response = None /\ r_disease response = None /\
    r_confidence response = Rat 0 /\
    r_symptoms response = [] /\ r_precautions response = [] /\
    r_description response = None /\
    r_faq_question response = None /\ r_faq_answer response = None.
Proof. intros. simpl. repeat split. Qed.

(** C2: on "what are the symptoms of diabetes?" the shortcut pattern matches
    from the keyword "symptoms", which comes first, and the candidate it
    extracts is "of diabetes".  Whatever the tables are, the response never
    resolves the disease "diabetes"; on a matrix that knows the symptoms of
    diabetes the intent stays a question with confidence 0. *)
Theorem shortcut_misses_disease :
  forall (ucd : UnicodeCase) (pc : PatternCompiler) (pf : PyFloat)
         (sk : Sklearn),
    let question := lit "what are the symptoms of diabetes?" in
    classify_input_type question = Question /\
    potential_disease_of question = Some (lit "of diabetes") /\
    (forall precautions_df symptoms_df faq_df augmented_df,
        r_disease (process_user_input question precautions_df symptoms_df
                                      faq_df augmented_df)
        <> Some (VStr (lit "diabetes"))) /\
    get_disease_symptoms (VStr (lit "diabetes")) None (Some sample_augmented)
    = Ok [lit "excessive thirst"] /\
    process_user_input question None None None (Some sample_augmented)
    = set_type (Some Question) initial_response.
Proof.
  intros ucd pc pf sk question.
  assert (Hc : classify_input_type question = Question) by (vm_compute; reflexivity).
  assert (Hp : potential_disease_of question = Some (lit "of diabetes"))
    by (vm_compute; reflexivity).
  split; [exact Hc|]. split; [exact Hp|]. split; [|split].
  - intros p s f a. unfold process_user_input.
    change question with (119%N :: tl question) at 1. cbv iota.
    rewrite Hc.
    destruct (question_path_cases question p s f a
                (set_type (Some Question) initial_response))
      as [(_ & Hd & _) | (pd & Hpd & _ & Hd & _)].
    + rewrite Hd. discriminate.
    + rewrite Hd. rewrite Hp in Hpd. injection Hpd as <-.
      vm_compute. discriminate.
  - vm_compute. reflexivity.
  - vm_compute. reflexivity.
Qed.

(** ** Disease knowledge aggregator *)

Lemma pystr_eqb_eq (a b : pystr) : PyStr.eqb a b = true <-> a = b.
Proof.
  revert b. induction a as [|x a IH]; intros [|y b]; simpl;
    try (split; [discriminate | discriminate]); [tauto|].
  rewrite andb_true_iff. unfold char_eqb. rewrite N.eqb_eq, IH.
  split; [intros [-> ->]; reflexivity | intros H; injection H; auto].
Qed.

Lemma pystr_eqb_refl (a : pystr) : PyStr.eqb a a = true.
Proof. apply pystr_eqb_eq. reflexivity. Qed.

Lemma val_eqb_str (v : pyval) (s : pystr) :
  val_eqb v (VStr s) = true -> v = VStr s.
Proof.
  destruct v; simpl; try discriminate.
  intros H. apply pystr_eqb_eq in H. congruence.
Qed.

Lemma filter_none (A : Type) (f : A -> bool) (l : list A) :
  (forall x, In x l -> f x = false) -> filter f l = [].
Proof.
  induction l as [|x l IH]; simpl; intros H; [reflexivity|].
  rewrite (H x) by auto. apply IH. auto.
Qed.

Lemma select_none (A : Type) (mask : list bool) (l : list A) :
  Forall (fun b => b = false) mask -> select mask l = [].
Proof.
  intros H. revert l. induction H as [|b mask Hb _ IH]; intros l.
  - destruct l; reflexivity.
  - subst b. destruct l; simpl; [reflexivity | apply IH].
Qed.

Lemma rows_where_eq_unknown (df : frame) (label disease_clean : pystr) :
  no_row_named (Some df) label disease_clean ->
  rows_where_eq df label (VStr disease_clean) = Ok [] \/
  rows_where_eq df label (VStr disease_clean) = Raise.
Proof.
  intros H. unfold rows_where_eq, col_index.
  destruct (index_of label (columns df)) as [j|] eqn:E; simpl; [left | right; reflexivity].
  f_equal. apply filter_none. intros r Hr.
  destruct (val_eqb (cell r j) (VStr disease_clean)) eqn:Ev; [|reflexivity].
  apply val_eqb_str in Ev. exfalso. exact (H df j r eq_refl E Hr Ev).
Qed.

Section AggregatorFacts.
Context {ucd : UnicodeCase} {pc : PatternCompiler} {pf : PyFloat} {sk : Sklearn}.

Lemma symptoms_unknown (name : pystr) (s a : option frame) :
  no_row_named a (lit "diseases_clean") (strip (lower name)) ->
  no_row_named s (lit "Disease_clean") (strip (lower name)) ->
  get_disease_symptoms (VStr name) s a = Ok [].
Proof.
  intros Ha Hs. unfold get_disease_symptoms.
  destruct (truthy (VStr name)); simpl; [|reflexivity].
  assert (Haug : match a with
                 | Some aug =>
                     if mem (lit "diseases_clean") (columns aug)
                     then try_except
                            (symptoms_from_augmented (strip (lower name)) aug) []
                     else []
                 | None => []
                 end = []).
  { destruct a as [aug|]; [|reflexivity].
    destruct (mem (lit "diseases_clean") (columns aug)); [|reflexivity].
    unfold symptoms_from_augmented.
    destruct (rows_where_eq_unknown (df := aug) Ha) as [-> | ->]; reflexivity. }
  rewrite Haug.
  destruct s as [sdf|]; [|reflexivity].
  destruct (mem (lit "Disease_clean") (columns sdf)); [|reflexivity].
  unfold symptoms_from_catalogue.
  destruct (rows_where_eq_unknown (df := sdf) Hs) as [-> | ->]; reflexivity.
Qed.

Lemma precautions_unknown (name : pystr) (p : option frame) :
  no_row_named p (lit "Disease_clean") (strip (lower name)) ->
  get_disease_precautions (VStr name) p = Ok [].
Proof.
  intros Hp. unfold get_disease_precautions.
  destruct p as [pdf|]; [|reflexivity].
  destruct (truthy (VStr name)); simpl; [|reflexivity].
  unfold precautions_from_table.
  destruct (mem (lit "Disease_clean") (columns pdf)); [|reflexivity].
  destruct (rows_where_eq_unknown (df := pdf) Hp) as [-> | ->]; reflexivity.
Qed.

Lemma description_unknown (name : pystr) (f : option frame) :
  plain_text_search pc ->
  existsb is_special (strip (lower name)) = false ->
  no_question_contains f (strip (lower name)) ->
  get_disease_description (VStr name) f = Ok None.
Proof.
  intros Hpc Hplain Hf. unfold get_disease_description.
  destruct f as [fdf|]; [|reflexivity].
  destruct (truthy (VStr name)); simpl; [|reflexivity].
  unfold description_from_faq.
  destruct (mem (lit "question_clean") (columns fdf)); [|reflexivity].
  unfold col_index.
  destruct (index_of (lit "question_clean") (columns fdf)) as [j|] eqn:Ej;
    simpl; [|reflexivity].
  unfold str_contains.
  match goal with |- context [if ?c then _ else _] => destruct c end;
    simpl; [reflexivity|].
  rewrite (Hpc _ Hplain). simpl.
  rewrite select_none; [reflexivity|].
  rewrite map_map. apply Forall_forall. intros b Hb.
  apply in_map_iff in Hb. destruct Hb as (r & <- & Hr).
  destruct (cell r j) as [q| |] eqn:Ec; try reflexivity.
  exact (Hf fdf j r q eq_refl Ej Hr Ec).
Qed.

End AggregatorFacts.

Ltac in_rows H :=
  simpl in H;
  repeat match type of H with
         | _ \/ _ => destruct H as [H | H]
         | False => destruct H
         end.

Ltac no_such_row :=
  let d := fresh "d" in let j := fresh "j" in let r := fresh "r" in
  let Hd := fresh "Hd" in let Hj := fresh "Hj" in let Hr := fresh "Hr" in
  intros d j r Hd Hj Hr; injection Hd as <-;
  vm_compute in Hj; try discriminate Hj; injection Hj as <-;
  in_rows Hr; subst r; vm_compute; discriminate.

(** C5, as stated, fails: the name "fl." is no cell of a column of clean
    names and occurs in no clean question, yet it gets a description, since
    the FAQ is searched with the name as a regular expression and "fl." is
    found in "what is flu". *)
Lemma unknown_name_counterexample :
  unknown_disease (ucd := ucd_excerpt) (lit "fl.")
    (Some sample_precautions) (Some sample_symptoms) (Some sample_faq)
    (Some sample_augmented) /\
  get_disease_description (ucd := ucd_excerpt) (pc := wildcard_compiler)
    (VStr (lit "fl.")) (Some sample_faq)
  = Ok (Some (VStr (lit "An infection"))).
Proof.
  split; [|vm_compute; reflexivity].
  unfold unknown_disease.
  split; [no_such_row|]. split; [no_such_row|]. split; [no_such_row|].
  intros d j r q Hd Hj Hr Hq. injection Hd as <-.
  vm_compute in Hj. injection Hj as <-.
  in_rows Hr; subst r; vm_compute in Hq; injection Hq as <-; vm_compute; reflexivity.
Qed.

(** C5, amended: for every disease name and all tables, present or absent,
    the three look-ups of the aggregator return without raising; and they
    return [[]], [[]] and [None] for a name that is absent from every table,
    provided the name has no character that a regular expression reads
    specially and the compiler finds such a text where it occurs. *)
Theorem aggregation_never_raises :
  forall (ucd : UnicodeCase) (pc : PatternCompiler) (disease_name : pystr)
         (precautions_df symptoms_df faq_df augmented_df : option frame),
  exists symptoms precautions description,
    get_disease_symptoms (VStr disease_name) symptoms_df augmented_df = Ok symptoms /\
    get_disease_precautions (VStr disease_name) precautions_df = Ok precautions /\
    get_disease_description (VStr disease_name) faq_df = Ok description /\
    (plain_text_search pc ->
     existsb is_special (strip (lower disease_name)) = false ->
     unknown_disease disease_name precautions_df symptoms_df faq_df augmented_df ->
     symptoms = [] /\ precautions = [] /\ description = None).
Proof.
  intros ucd pc name p s f a.
  assert (Hs : exists v, get_disease_symptoms (VStr name) s a = Ok v).
  { unfold get_disease_symptoms. destruct (truthy (VStr name)); simpl; eauto.
    break_matches; eauto. }
  assert (Hp : exists v, get_disease_precautions (VStr name) p = Ok v).
  { unfold get_disease_precautions. destruct p; eauto.
    destruct (truthy (VStr name)); simpl; eauto. }
  assert (Hd : exists v, get_disease_description (VStr name) f = Ok v).
  { unfold get_disease_description. destruct f; eauto.
    destruct (truthy (VStr name)); simpl; eauto. }
  destruct Hs as [sy Hs], Hp as [pr Hp], Hd as [de Hd].
  exists sy, pr, de. repeat (split; [assumption|]).
  intros Hpc Hplain (Ha & Hsy & Hpr & Hfa).
  rewrite symptoms_unknown in Hs by assumption.
  rewrite precautions_unknown in Hp by assumption.
  rewrite description_unknown in Hd by assumption.
  injection Hs as <-. injection Hp as <-. injection Hd as <-. auto.
Qed.

Lemma sample_unknown :
  unknown_disease (ucd := ucd_excerpt) (lit "xyzabc123")
    (Some sample_precautions) (Some sample_symptoms) (Some sample_faq)
    (Some sample_augmented).
Proof.
  unfold unknown_disease.
  split; [no_such_row|]. split; [no_such_row|]. split; [no_such_row|].
  intros d j r q Hd Hj Hr Hq. injection Hd as <-.
  vm_compute in Hj. injection Hj as <-.
  in_rows Hr; subst r; vm_compute in Hq; injection Hq as <-; vm_compute; reflexivity.
Qed.

Lemma plain_compiler_plain : plain_text_search plain_compiler.
Proof. intros pat H. simpl. rewrite H. reflexivity. Qed.

Lemma aggregation_never_raises_witness :
  unknown_disease (ucd := ucd_excerpt) (lit "xyzabc123")
    (Some sample_precautions) (Some sample_symptoms) (Some sample_faq)
    (Some sample_augmented) /\
  get_disease_symptoms (ucd := ucd_excerpt) (VStr (lit "xyzabc123"))
    (Some sample_symptoms) (Some sample_augmented) = Ok [] /\
  get_disease_precautions (ucd := ucd_excerpt) (VStr (lit "xyzabc123"))
    (Some sample_precautions) = Ok [] /\
  get_disease_description (ucd := ucd_excerpt) (pc := plain_compiler)
    (VStr (lit "xyzabc123")) (Some sample_faq) = Ok None.
Proof.
  split; [exact sample_unknown|].
  destruct (aggregation_never_raises ucd_excerpt plain_compiler (lit "xyzabc123")
              (Some sample_precautions) (Some sample_symptoms) (Some sample_faq)
              (Some sample_augmented))
    as (sy & pr & de & Hs & Hp & Hd & H).
  destruct (H plain_compiler_plain eq_refl sample_unknown) as (Es & Ep & Ed).
  rewrite Hs, Hp, Hd, Es, Ep, Ed. repeat split.
Defined.

Example known_disease_is_filled :
  get_disease_symptoms (ucd := ucd_excerpt) (VStr (lit " Malaria"))
    (Some sample_symptoms) (Some sample_augmented) = Ok [lit "chills"] /\
  get_disease_precautions (ucd := ucd_excerpt) (VStr (lit "FLU"))
    (Some sample_precautions) = Ok [lit "rest"] /\
  get_disease_description (ucd := ucd_excerpt) (pc := plain_compiler)
    (VStr (lit "Asthma")) (Some sample_faq) = Ok (Some (VStr (lit "A lung condition"))).
Proof. repeat split. Qed.

(** ** Floating-point numbers *)

Section FloatFacts.
Local Open Scope Z_scope.

Lemma ltb_key (a b : F64.float) :
  F64.is_nan a = false -> F64.is_nan b = false ->
  (F64.ltb a b = true <-> key_lt (float_key a) (float_key b)).
Proof.
  intros Ha Hb. unfold F64.ltb, SFltb.
  destruct a as [sa|sa| |sa ma ea]; try discriminate Ha;
  destruct b as [sb|sb| |sb mb eb]; try discriminate Hb;
    try (destruct sa); try (destruct sb); simpl;
    try (split; [discriminate | lia]);
    try (split; [lia | reflexivity]).
  - destruct (Z.compare_spec ea eb); try (split; [discriminate|lia]);
      try (split; [lia|reflexivity]).
    subst. change (Pos.compare_cont Eq ma mb) with (Pos.compare ma mb).
    simpl. destruct (Pos.compare_spec ma mb); simpl; split; try discriminate; try reflexivity; lia.
  - destruct (Z.compare_spec ea eb); try (split; [discriminate|lia]);
      try (split; [lia|reflexivity]).
    subst. change (Pos.compare_cont Eq ma mb) with (Pos.compare ma mb).
    destruct (Pos.compare_spec ma mb); split; try discriminate; try reflexivity; lia.
Qed.

Lemma leb_key (a b : F64.float) :
  F64.is_nan a = false -> F64.is_nan b = false ->
  (F64.leb a b = true <-> ~ key_lt (float_key b) (float_key a)).
Proof.
  intros Ha Hb. unfold F64.leb, SFleb.
  destruct a as [sa|sa| |sa ma ea]; try discriminate Ha;
  destruct b as [sb|sb| |sb mb eb]; try discriminate Hb;
    try (destruct sa); try (destruct sb); simpl;
    try (split; [discriminate | lia]);
    try (split; [lia | reflexivity]).
  - destruct (Z.compare_spec ea eb); try (split; [discriminate|lia]);
      try (split; [lia|reflexivity]).
    subst. change (Pos.compare_cont Eq ma mb) with (Pos.compare ma mb).
    simpl. destruct (Pos.compare_spec ma mb); simpl; split; try discriminate; try reflexivity; lia.
  - destruct (Z.compare_spec ea eb); try (split; [discriminate|lia]);
      try (split; [lia|reflexivity]).
    subst. change (Pos.compare_cont Eq ma mb) with (Pos.compare ma mb).
    destruct (Pos.compare_spec ma mb); split; try discriminate; try reflexivity; lia.
Qed.


Lemma digits2_pos_bounds (p : positive) :
  2 ^ (Zpos (digits2_pos p) - 1) <= Zpos p < 2 ^ Zpos (digits2_pos p).
Proof.
  induction p as [p IH|p IH|]; simpl digits2_pos.
  - rewrite Pos2Z.inj_succ.
    replace (Z.succ (Zpos (digits2_pos p)) - 1) with (Z.succ (Zpos (digits2_pos p) - 1)) by lia.
    rewrite !Z.pow_succ_r by lia. lia.
  - rewrite Pos2Z.inj_succ.
    replace (Z.succ (Zpos (digits2_pos p)) - 1) with (Z.succ (Zpos (digits2_pos p) - 1)) by lia.
    rewrite !Z.pow_succ_r by lia. lia.
  - simpl. lia.
Qed.

Lemma Zdigits2_bounds (m : Z) :
  0 < m -> 2 ^ (Zdigits2 m - 1) <= m < 2 ^ Zdigits2 m.
Proof.
  destruct m as [|p|p]; try lia. intros _. apply digits2_pos_bounds.
Qed.

Lemma Zdigits2_unique (m d : Z) :
  0 < m -> 2 ^ (d - 1) <= m < 2 ^ d -> Zdigits2 m = d.
Proof.
  intros Hm [Hlo Hhi]. pose proof (@Zdigits2_bounds m Hm) as [Blo Bhi].
  assert (Hd : 0 < Zdigits2 m) by (destruct m; simpl; lia).
  assert (Hd' : 0 < d).
  { destruct (Z.lt_trichotomy d 0) as [H|[H|H]]; [|subst|exact H].
    - rewrite Z.pow_neg_r in Hhi by lia. lia.
    - simpl in Hhi. lia. }
  destruct (Z.lt_trichotomy (Zdigits2 m) d) as [H|[H|H]]; [|exact H|].
  - assert (2 ^ Zdigits2 m <= 2 ^ (d - 1)) by (apply Z.pow_le_mono_r; lia). lia.
  - assert (2 ^ d <= 2 ^ (Zdigits2 m - 1)) by (apply Z.pow_le_mono_r; lia). lia.
Qed.

Lemma shr_1_m (mrs : shr_record) :
  0 <= shr_m mrs -> shr_m (shr_1 mrs) = shr_m mrs / 2.
Proof.
  destruct mrs as [m r s]. simpl. intros Hm.
  destruct m as [|[p|p|]|p]; try lia; simpl shr_m.
  - reflexivity.
  - rewrite (Pos2Z.inj_xI p). apply Z.div_unique with 1; lia.
  - rewrite (Pos2Z.inj_xO p). apply Z.div_unique with 0; lia.
  - reflexivity.
Qed.

Lemma iter_shr_m (p : positive) :
  forall mrs, 0 <= shr_m mrs ->
              shr_m (iter_pos shr_1 p mrs) = shr_m mrs / 2 ^ Zpos p.
Proof.
  induction p as [p IH|p IH|]; intros mrs Hm; simpl iter_pos.
  - assert (H1 : 0 <= shr_m (shr_1 mrs)).
    { rewrite shr_1_m by exact Hm. apply Z.div_pos; lia. }
    assert (H2 : 0 <= shr_m (iter_pos shr_1 p (shr_1 mrs))).
    { rewrite IH by exact H1. apply Z.div_pos; [exact H1|]. apply Z.pow_pos_nonneg; lia. }
    rewrite IH by exact H2. rewrite IH by exact H1. rewrite shr_1_m by exact Hm.
    rewrite !Z.div_div by (try apply Z.pow_pos_nonneg; lia).
    f_equal. rewrite (Pos2Z.inj_xI p).
    replace (2 * Zpos p + 1) with (1 + Zpos p + Zpos p) by lia.
    rewrite !Z.pow_add_r by lia. simpl (2 ^ 1). lia.
  - assert (H2 : 0 <= shr_m (iter_pos shr_1 p mrs)).
    { rewrite IH by exact Hm. apply Z.div_pos; [exact Hm|]. apply Z.pow_pos_nonneg; lia. }
    rewrite IH by exact H2. rewrite IH by exact Hm.
    rewrite !Z.div_div by (try apply Z.pow_pos_nonneg; lia).
    f_equal. rewrite (Pos2Z.inj_xO p).
    replace (2 * Zpos p) with (Zpos p + Zpos p) by lia.
    rewrite !Z.pow_add_r by lia. lia.
  - rewrite shr_1_m by exact Hm. reflexivity.
Qed.

Lemma shr_record_of_loc_m (m : Z) (l : location) :
  shr_m (shr_record_of_loc m l) = m.
Proof. destruct l as [|[| |]]; reflexivity. Qed.

(** What [shr] leaves of a mantissa that is not negative. *)
Lemma shr_m_spec (mrs : shr_record) (e n : Z) :
  0 <= shr_m mrs ->
  shr_m (fst (shr mrs e n)) = shr_m mrs / 2 ^ Z.max n 0 /\
  snd (shr mrs e n) = e + Z.max n 0.
Proof.
  intros Hm. destruct n as [|p|p]; simpl shr.
  - simpl. rewrite Z.div_1_r. split; [reflexivity | lia].
  - simpl fst. simpl snd. rewrite iter_shr_m by exact Hm.
    rewrite Z.max_l by lia. split; reflexivity.
  - simpl. rewrite Z.div_1_r. split; [reflexivity | lia].
Qed.

Lemma round_nearest_even_bounds (m : Z) (l : location) :
  m <= round_nearest_even m l <= m + 1.
Proof.
  destruct l as [|[| |]]; simpl; try lia. destruct (Z.even m); lia.
Qed.

Lemma binary_round_aux_nonneg (m e : Z) (l : location) :
  0 <= m -> nonneg (binary_round_aux 53 1024 false m e l).
Proof.
  intros Hm. unfold binary_round_aux, shr_fexp.
  set (n1 := fexp 53 1024 (Zdigits2 m + e) - e).
  assert (H0 : 0 <= shr_m (shr_record_of_loc m l))
    by (rewrite shr_record_of_loc_m; exact Hm).
  pose proof (@shr_m_spec _ e n1 H0) as [H1 _].
  destruct (shr (shr_record_of_loc m l) e n1) as [mrs' e'] eqn:E1.
  simpl in H1. rewrite shr_record_of_loc_m in H1.
  set (m2 := round_nearest_even (shr_m mrs') (loc_of_shr_record mrs')).
  assert (Hm2 : 0 <= m2).
  { pose proof (round_nearest_even_bounds (shr_m mrs') (loc_of_shr_record mrs')).
    assert (0 <= shr_m mrs').
    { rewrite H1. apply Z.div_pos; [exact Hm|]. apply Z.pow_pos_nonneg; lia. }
    unfold m2. lia. }
  set (n2 := fexp 53 1024 (Zdigits2 m2 + e') - e').
  assert (H0' : 0 <= shr_m (shr_record_of_loc m2 loc_Exact)) by exact Hm2.
  pose proof (@shr_m_spec _ e' n2 H0') as [H2 _].
  destruct (shr (shr_record_of_loc m2 loc_Exact) e' n2) as [mrs'' e''] eqn:E2.
  simpl in H2.
  assert (H3 : 0 <= shr_m mrs'').
  { rewrite H2. apply Z.div_pos; [exact Hm2|]. apply Z.pow_pos_nonneg; lia. }
  destruct (shr_m mrs'') as [|p|p]; try lia; simpl; auto.
  destruct (e'' <=? 971); exact I.
Qed.

Lemma binary_round_aux_at_least_one (m e : Z) (l : location) :
  0 < m -> 53 <= Zdigits2 m -> 1 <= Zdigits2 m + e ->
  at_least_one (binary_round_aux 53 1024 false m e l).
Proof.
  intros Hm Hd He. unfold binary_round_aux, shr_fexp.
  set (d := Zdigits2 m) in *.
  pose proof (@Zdigits2_bounds m Hm) as [Blo Bhi]. fold d in Blo, Bhi.
  assert (Hn1 : fexp 53 1024 (d + e) - e = d - 53) by (unfold fexp, emin; lia).
  rewrite Hn1.
  assert (H0 : 0 <= shr_m (shr_record_of_loc m l))
    by (rewrite shr_record_of_loc_m; lia).
  pose proof (@shr_m_spec _ e (d - 53) H0) as [H1 H1e].
  destruct (shr (shr_record_of_loc m l) e (d - 53)) as [mrs' e'] eqn:E1.
  simpl in H1, H1e. rewrite shr_record_of_loc_m in H1.
  rewrite Z.max_l in H1, H1e by lia.
  assert (Hpow : 2 ^ (d - 1) = 2 ^ 52 * 2 ^ (d - 53)).
  { rewrite <- Z.pow_add_r by lia. f_equal. lia. }
  assert (Hpow' : 2 ^ d = 2 ^ 53 * 2 ^ (d - 53)).
  { rewrite <- Z.pow_add_r by lia. f_equal. lia. }
  assert (Hp : 0 < 2 ^ (d - 53)) by (apply Z.pow_pos_nonneg; lia).
  assert (Hm1 : 2 ^ 52 <= shr_m mrs' < 2 ^ 53).
  { rewrite H1. split.
    - apply Z.div_le_lower_bound; [exact Hp|]. rewrite Z.mul_comm. lia.
    - apply Z.div_lt_upper_bound; [exact Hp|]. rewrite Z.mul_comm. lia. }
  set (m2 := round_nearest_even (shr_m mrs') (loc_of_shr_record mrs')).
  assert (Hm2 : 2 ^ 52 <= m2 <= 2 ^ 53).
  { pose proof (round_nearest_even_bounds (shr_m mrs') (loc_of_shr_record mrs')).
    unfold m2. lia. }
  assert (He' : -52 <= e') by lia.
  destruct (Z.eq_dec m2 (2 ^ 53)) as [Htop|Htop].
  - rewrite Htop.
    replace (Zdigits2 (2 ^ 53)) with 54 by reflexivity.
    assert (Hn2 : fexp 53 1024 (54 + e') - e' = 1) by (unfold fexp, emin; lia).
    rewrite Hn2. simpl.
    destruct (e' + 1 <=? 971); unfold at_least_one; [|exact I].
    split; [intros H; discriminate H | lia].
  - assert (Hd2 : Zdigits2 m2 = 53).
    { apply Zdigits2_unique; [lia|]. simpl (53 - 1). lia. }
    rewrite Hd2.
    assert (Hn2 : fexp 53 1024 (53 + e') - e' = 0) by (unfold fexp, emin; lia).
    rewrite Hn2.
    assert (Hpos : 0 < 2 ^ 52) by reflexivity.
    destruct m2 as [|p|p]; try lia.
    unfold shr, shr_record_of_loc, fst, snd, shr_m.
    destruct (e' <=? 1024 - 53); unfold at_least_one; [|exact I].
    split; [apply Hm2 | exact He'].
Qed.

Lemma nonneg_not_nan (x : F64.float) : nonneg x -> F64.is_nan x = false.
Proof. destruct x as [s|[|]| |[|] m e]; simpl; try contradiction; reflexivity. Qed.

Lemma iter_xO_value (m d : positive) :
  Zpos (Pos.iter xO m d) = Zpos m * 2 ^ Zpos d.
Proof.
  induction d as [|d IH] using Pos.peano_ind.
  - simpl. lia.
  - rewrite Pos.iter_succ, (Pos2Z.inj_xO (Pos.iter xO m d)), IH.
    rewrite Pos2Z.inj_succ, Z.pow_succ_r by lia. lia.
Qed.

Lemma shl_align_value (m : positive) (e e' : Z) :
  e' <= e -> Zpos (fst (shl_align m e e')) = Zpos m * 2 ^ (e - e').
Proof.
  intros He. unfold shl_align.
  destruct (e' - e) as [|d|d] eqn:Ed; simpl fst; try lia.
  - replace (e - e') with 0 by lia. simpl. lia.
  - rewrite iter_xO_value. f_equal. f_equal. lia.
Qed.

Lemma binary_round_nonneg (m : positive) (e : Z) :
  nonneg (binary_round 53 1024 false m e).
Proof.
  unfold binary_round.
  destruct (shl_align m e (fexp 53 1024 (Zpos (digits2_pos m) + e))) as [mz ez].
  apply binary_round_aux_nonneg. lia.
Qed.

Lemma add_nonneg (x y : F64.float) :
  nonneg x -> nonneg y -> nonneg (F64.add x y).
Proof.
  destruct x as [sx|[|]| |[|] mx ex]; simpl; try contradiction;
    destruct y as [sy|[|]| |[|] my ey]; simpl; try contradiction; intros _ _;
    try exact I.
  - destruct sx, sy; exact I.
  - unfold F64.add, SFadd, cond_Zopp, binary_normalize.
    destruct (Zpos (fst (shl_align mx ex (Z.min ex ey))) +
              Zpos (fst (shl_align my ey (Z.min ex ey)))) as [|p|p] eqn:E;
      try lia.
    apply binary_round_nonneg.
Qed.

Lemma truediv_nonneg (a b : N) : b <> 0%N -> nonneg (F64.truediv a b).
Proof.
  intros Hb. destruct b as [|b]; [contradiction|].
  destruct a as [|a]; [exact I|].
  unfold F64.truediv, F64.exact, F64.div, SFdiv, SFdiv_core_binary.
  match goal with
  | |- context [Z.div_eucl ?n ?d] =>
      pose proof (Z_div_mod n d eq_refl) as Hdiv;
      assert (Hn : 0 <= n);
      [|destruct (Z.div_eucl n d) as [q r]]
  end.
  - match goal with
    | |- 0 <= match ?s with _ => _ end => destruct s
    end; try lia. rewrite Z.shiftl_mul_pow2 by lia.
    apply Z.mul_nonneg_nonneg; [lia|]. apply Z.pow_nonneg. lia.
  - simpl xorb. apply binary_round_aux_nonneg.
    destruct Hdiv as [Hq Hr]. nia.
Qed.

Lemma truediv_self (n : N) : n <> 0%N -> F64.truediv n n = F64.one.
Proof.
  intros Hn. destruct n as [|p]; [contradiction|].
  unfold F64.truediv, F64.exact, F64.div, SFdiv, SFdiv_core_binary.
  replace (Zdigits2 (Zpos p) + 0 - (Zdigits2 (Zpos p) + 0)) with 0 by lia.
  change (fexp F64.prec F64.emax 0) with (-53).
  change (Z.min (-53) (0 - 0)) with (-53).
  change (0 - 0 - -53) with 53.
  cbv iota beta.
  rewrite Z.shiftl_mul_pow2 by lia.
  assert (E : Z.div_eucl (Zpos p * 2 ^ 53) (Zpos p) = (2 ^ 53, 0)).
  { pose proof (Z_div_mod (Zpos p * 2 ^ 53) (Zpos p) eq_refl) as H.
    destruct (Z.div_eucl (Zpos p * 2 ^ 53) (Zpos p)) as [q r].
    destruct H as [Hq Hr].
    assert (q = 2 ^ 53) by nia. subst q. f_equal. lia. }
  rewrite E.
  assert (L : new_location (Zpos p) 0 = loc_Exact).
  { unfold new_location. destruct (Z.even (Zpos p)); reflexivity. }
  rewrite L. reflexivity.
Qed.

Lemma add_two_tenths_at_least_one (x : F64.float) :
  at_least_one x -> at_least_one (F64.add x (F64.decimal 2 10)).
Proof.
  change (F64.decimal 2 10) with (S754_finite false 7205759403792794 (-55)).
  destruct x as [sx|[|]| |[|] mx ex]; unfold at_least_one at 1;
    try contradiction; [intros _; exact I|].
  intros [Hm He].
  unfold F64.add, SFadd, cond_Zopp, binary_normalize.
  rewrite Z.min_r by lia.
  pose proof (@shl_align_value mx ex (-55)) as Hx.
  specialize (Hx ltac:(lia)).
  pose proof (@shl_align_value 7205759403792794 (-55) (-55)) as Hy.
  specialize (Hy ltac:(lia)).
  replace (-55 - -55) with 0 in Hy by lia. change (2 ^ 0) with 1 in Hy.
  change (Zpos (fst (shl_align mx ex (-55)))
          + Zpos (fst (shl_align 7205759403792794 (-55) (-55))))
    with (Zpos (fst (shl_align mx ex (-55))
                + fst (shl_align 7205759403792794 (-55) (-55)))).
  set (p := (fst (shl_align mx ex (-55))
             + fst (shl_align 7205759403792794 (-55) (-55)))%positive).
  assert (Hp3 : 2 ^ 3 <= 2 ^ (ex - -55)) by (apply Z.pow_le_mono_r; lia).
  assert (Hbig : 2 ^ 55 <= Zpos p).
  { unfold p. rewrite Pos2Z.inj_add, Hx, Hy.
    change (2 ^ 55) with (2 ^ 52 * 2 ^ 3).
    assert (2 ^ 52 * 2 ^ 3 <= Zpos mx * 2 ^ (ex - -55)).
    { apply Z.mul_le_mono_nonneg; lia. }
    lia. }
  clearbody p. clear Hx Hy.
  unfold binary_round.
  pose proof (digits2_pos_bounds p) as [_ Bhi].
  assert (Hd : 56 <= Zpos (digits2_pos p)).
  { destruct (Z.le_gt_cases 56 (Zpos (digits2_pos p))) as [H|H]; [exact H|].
    assert (2 ^ Zpos (digits2_pos p) <= 2 ^ 55) by (apply Z.pow_le_mono_r; lia).
    lia. }
  change F64.prec with 53. change F64.emax with 1024.
  assert (Hal : shl_align p (-55) (fexp 53 1024 (Zpos (digits2_pos p) + -55))
                = (p, -55)).
  { unfold shl_align.
    destruct (fexp 53 1024 (Zpos (digits2_pos p) + -55) - -55) eqn:En;
      try reflexivity.
    unfold fexp, emin in En. lia. }
  rewrite Hal.
  apply binary_round_aux_at_least_one; simpl Zdigits2; lia.
Qed.

Lemma at_least_one_above_threshold (x : F64.float) :
  at_least_one x -> F64.ltb (F64.decimal 4 10) x = true.
Proof.
  change (F64.decimal 4 10) with (S754_finite false 7205759403792794 (-54)).
  destruct x as [sx|[|]| |[|] mx ex]; unfold at_least_one;
    try contradiction; [intros _; reflexivity|].
  intros [_ He]. unfold F64.ltb, SFltb, SFcompare.
  assert (E : (-54 ?= ex) = Lt) by (apply Z.compare_lt_iff; lia).
  rewrite E. reflexivity.
Qed.

(** The order laws that the loops rest on. *)

Lemma ltb_not_nan (a b : F64.float) :
  F64.ltb a b = true -> F64.is_nan a = false /\ F64.is_nan b = false.
Proof.
  destruct a as [sa|sa| |sa ma ea], b as [sb|sb| |sb mb eb];
    try discriminate; intros _; split; reflexivity.
Qed.

Lemma leb_not_nan (a b : F64.float) :
  F64.leb a b = true -> F64.is_nan a = false /\ F64.is_nan b = false.
Proof.
  destruct a as [sa|sa| |sa ma ea], b as [sb|sb| |sb mb eb];
    try discriminate; intros _; split; reflexivity.
Qed.

Ltac float_keys :=
  repeat match goal with
         | x : F64.float |- _ =>
             let c := fresh "c" in let e := fresh "e" in let m := fresh "m" in
             destruct (float_key x) as [[c e] m]; clear x
         end;
  unfold key_lt in *; lia.

Lemma ltb_trans (a b c : F64.float) :
  F64.ltb a b = true -> F64.ltb b c = true -> F64.ltb a c = true.
Proof.
  intros Hab Hbc.
  destruct (ltb_not_nan _ _ Hab) as [Ha Hb], (ltb_not_nan _ _ Hbc) as [_ Hc].
  apply ltb_key in Hab; [|assumption..]. apply ltb_key in Hbc; [|assumption..].
  apply ltb_key; [assumption..|]. clear Ha Hb Hc. float_keys.
Qed.

Lemma leb_ltb_trans (a b c : F64.float) :
  F64.leb a b = true -> F64.ltb b c = true -> F64.ltb a c = true.
Proof.
  intros Hab Hbc.
  destruct (leb_not_nan _ _ Hab) as [Ha Hb], (ltb_not_nan _ _ Hbc) as [_ Hc].
  apply leb_key in Hab; [|assumption..]. apply ltb_key in Hbc; [|assumption..].
  apply ltb_key; [assumption..|]. clear Ha Hb Hc. float_keys.
Qed.

Lemma ltb_leb_trans (a b c : F64.float) :
  F64.ltb a b = true -> F64.leb b c = true -> F64.ltb a c = true.
Proof.
  intros Hab Hbc.
  destruct (ltb_not_nan _ _ Hab) as [Ha Hb], (leb_not_nan _ _ Hbc) as [_ Hc].
  apply ltb_key in Hab; [|assumption..]. apply leb_key in Hbc; [|assumption..].
  apply ltb_key; [assumption..|]. clear Ha Hb Hc. float_keys.
Qed.

Lemma leb_trans (a b c : F64.float) :
  F64.leb a b = true -> F64.leb b c = true -> F64.leb a c = true.
Proof.
  intros Hab Hbc.
  destruct (leb_not_nan _ _ Hab) as [Ha Hb], (leb_not_nan _ _ Hbc) as [_ Hc].
  apply leb_key in Hab; [|assumption..]. apply leb_key in Hbc; [|assumption..].
  apply leb_key; [assumption..|]. clear Ha Hb Hc. float_keys.
Qed.

Lemma ltb_leb (a b : F64.float) : F64.ltb a b = true -> F64.leb a b = true.
Proof.
  intros Hab. destruct (ltb_not_nan _ _ Hab) as [Ha Hb].
  apply ltb_key in Hab; [|assumption..].
  apply leb_key; [assumption..|]. clear Ha Hb. float_keys.
Qed.

(** [a <= b] excludes [b < a]. *)
Lemma leb_not_ltb (a b : F64.float) : F64.leb a b = true -> F64.ltb b a = false.
Proof.
  intros Hab. destruct (leb_not_nan _ _ Hab) as [Ha Hb].
  destruct (F64.ltb b a) eqn:E; [|reflexivity].
  apply leb_key in Hab; [|assumption..]. apply ltb_key in E; [|assumption..].
  contradiction.
Qed.

(** Two numbers are comparable: when [b < a] fails, [a <= b] holds. *)
Lemma not_ltb_leb (a b : F64.float) :
  F64.is_nan a = false -> F64.is_nan b = false ->
  F64.ltb b a = false -> F64.leb a b = true.
Proof.
  intros Ha Hb E. apply leb_key; [assumption..|].
  intros H. apply ltb_key in H; [|assumption..]. congruence.
Qed.

Lemma leb_refl (a : F64.float) : F64.is_nan a = false -> F64.leb a a = true.
Proof.
  intros Ha. apply leb_key; [assumption..|].
  destruct (float_key a) as [[c e] m]. unfold key_lt. lia.
Qed.

End FloatFacts.

(** ** FAQ retriever *)

Section Scan.
Variable A : Type.
Implicit Types (scored : list (A * option F64.float)) (best_match : option A).

(** Rows that stay below [M] and below the early exit leave the best score
    below [M] and do not stop the loop. *)
Lemma faq_scan_below (M : F64.float) scored rest best_match
      (best_score : F64.float) :
  F64.ltb best_score M = true ->
  (forall x s, In (x, Some s) scored ->
               F64.ltb s M = true /\ F64.leb s early_exit = true) ->
  exists best_match' best_score',
    faq_scan (scored ++ rest) best_match best_score
    = faq_scan rest best_match' best_score' /\
    F64.ltb best_score' M = true.
Proof.
  revert best_match best_score.
  induction scored as [|[x [s|]] scored IH]; intros bm b Hb Hpre; simpl.
  - eauto.
  - destruct (Hpre x s (or_introl eq_refl)) as [HsM Hse].
    apply leb_not_ltb in Hse.
    destruct (F64.ltb b s); [rewrite Hse|]; apply IH; auto;
      intros x' s' Hin; apply (Hpre x' s'); right; exact Hin.
  - apply IH; auto. intros x' s' Hin; apply (Hpre x' s'); right; exact Hin.
Qed.

(** Rows that do not beat the best score leave it in place. *)
Lemma faq_scan_keeps scored best_match (best_score : F64.float) :
  (forall x s, In (x, Some s) scored -> F64.leb s best_score = true) ->
  faq_scan scored best_match best_score = (best_match, best_score).
Proof.
  induction scored as [|[x [s|]] scored IH]; intros Hpost; simpl.
  - reflexivity.
  - assert (Hs : F64.ltb best_score s = false)
      by (apply leb_not_ltb, (Hpost x); left; reflexivity).
    rewrite Hs. apply IH. intros; eapply Hpost; right; eassumption.
  - apply IH. intros; eapply Hpost; right; eassumption.
Qed.

(** The decision of the loop when a row [r] carries the highest score. *)
Lemma faq_decide_earliest (M : F64.float) scored rest (r : A) :
  F64.ltb threshold M = true ->
  (forall x s, In (x, Some s) scored ->
               F64.ltb s M = true /\ F64.leb s early_exit = true) ->
  (forall x s, In (x, Some s) rest -> F64.leb s M = true) ->
  faq_decide (scored ++ (r, Some M) :: rest) = Some r.
Proof.
  intros HM Hpre Hpost. unfold faq_decide.
  assert (H0 : F64.ltb F64.zero M = true).
  { apply ltb_trans with threshold; [reflexivity | exact HM]. }
  destruct (@faq_scan_below M scored ((r, Some M) :: rest) None F64.zero H0 Hpre)
    as (bm & b & -> & Hb).
  simpl. rewrite Hb.
  destruct (F64.ltb early_exit M).
  - rewrite HM. reflexivity.
  - rewrite faq_scan_keeps by assumption.
    rewrite HM. reflexivity.
Qed.

End Scan.

Lemma nth_error_combine_seq (A : Type) (l : list A) :
  forall a n i k x,
    nth_error (combine (seq a n) l) i = Some (k, x) ->
    k = a + i /\ nth_error l i = Some x.
Proof.
  induction l as [|y l IH]; intros a n i k x H.
  - destruct (seq a n); destruct i; discriminate H.
  - destruct n as [|n]; [destruct i; discriminate H|].
    simpl in H. destruct i as [|i]; simpl in H.
    + injection H as <- <-. split; [lia | reflexivity].
    + apply IH in H. destruct H as [-> H]. split; [lia | exact H].
Qed.

Lemma nth_error_map_some (A B : Type) (f : A -> B) (l : list A) i y :
  nth_error (map f l) i = Some y ->
  exists x, nth_error l i = Some x /\ f x = y.
Proof.
  revert i. induction l as [|a l IH]; intros [|i] H; simpl in H; try discriminate H.
  - injection H as <-. exists a. split; reflexivity.
  - apply IH in H. exact H.
Qed.

Lemma Ok_inj (A : Type) (a b : A) : Ok a = Ok b -> a = b.
Proof. intros H. injection H. auto. Qed.

Section RetrieverFacts.
Context {ucd : UnicodeCase}.

(** The scored rows are the rows of the table, in table order, each with its
    position. *)
Lemma faq_scored_positions (question : pystr) (df : frame) scored i k r sc :
  faq_scored question df = Ok scored ->
  nth_error scored i = Some ((k, r), sc) ->
  k = i /\ nth_error (rows df) i = Some r.
Proof.
  unfold faq_scored. intros H Hi.
  destruct (rows df) as [|r0 rs] eqn:Er.
  - injection H as <-. destruct i; discriminate Hi.
  - destruct (col_index df (lit "question")) as [j|]; unfold bind in H;
      [|discriminate H].
    apply Ok_inj in H. subst scored.
    apply nth_error_map_some in Hi. destruct Hi as ([k' r'] & E & Hi).
    injection Hi as -> -> _.
    apply nth_error_combine_seq in E. exact E.
Qed.

Lemma faq_scored_not_empty (question : pystr) (df : frame) scored :
  faq_scored question df = Ok scored -> scored <> [] -> frame_empty df = false.
Proof.
  unfold faq_scored, frame_empty, col_index. intros H Hne.
  destruct (rows df) as [|r0 rs]; [injection H as <-; contradiction|].
  destruct (columns df) as [|c cs]; [discriminate H | reflexivity].
Qed.

End RetrieverFacts.

(** Rounding separates scores that are equal as decimals: 0.3 + 3/5 is
    below 0.9. *)
Example rounded_sum_below_early_exit :
  F64.ltb (F64.add (F64.decimal 3 10) (F64.truediv 3 5)) early_exit = true.
Proof. reflexivity. Qed.

(** C9, as stated, fails: for the input "zzz" both rows of the table attain
    the highest score, 0, and no row is returned. *)
Lemma faq_tie_counterexample :
  faq_scored (ucd := ucd_excerpt) (lit "zzz") sample_faq_low
  = Ok [ ((0, [VStr (lit "abc"); VStr (lit "answer")]), Some F64.zero);
         ((1, [VStr (lit "def"); VStr (lit "answer")]), Some F64.zero) ] /\
  find_question_answer (ucd := ucd_excerpt) (lit "zzz") (Some sample_faq_low)
  = Ok None.
Proof. split; vm_compute; reflexivity. Qed.

(** The early exit: for the input "fever cough chill" the rows at positions
    1 and 2 attain the highest score, and the row at position 0, whose lower
    score is above 0.9, is returned. *)
Example faq_early_exit_forfeits :
  exists low high,
    map snd (try_except (faq_scored (ucd := ucd_excerpt) (lit "fever cough chill")
                                    sample_faq_exit) [])
    = [Some low; Some high; Some high] /\
    F64.ltb low high = true /\ F64.ltb early_exit low = true /\
    option_map fst
      (try_except (find_question_answer_at (ucd := ucd_excerpt)
                     (lit "fever cough chill") (Some sample_faq_exit)) None)
    = Some 0.
Proof.
  eexists. eexists. split; [vm_compute; reflexivity|].
  split; [|split]; vm_compute; reflexivity.
Qed.

(** C9, amended: when several FAQ rows attain the same highest score [M],
    as the floats the loop computes, [M] is above the threshold 0.4 and no
    row before the earliest of them scores above 0.9,
    [find_question_answer] returns the earliest such row: the row at
    position [i], every earlier row scoring strictly less. *)
Theorem faq_tie_earliest :
  forall (ucd : UnicodeCase) (question : pystr) (faq_df : frame)
         scored (i : nat) (r : nat * row) (M : F64.float),
    faq_scored question faq_df = Ok scored ->
    nth_error scored i = Some (r, Some M) ->
    (forall j x s, nth_error scored j = Some (x, Some s) ->
                   F64.leb s M = true) ->
    (forall j x s, j < i -> nth_error scored j = Some (x, Some s) ->
                   F64.ltb s M = true /\ F64.leb s early_exit = true) ->
    F64.ltb threshold M = true ->
    find_question_answer question (Some faq_df) = Ok (Some (snd r)) /\
    find_question_answer_at question (Some faq_df) = Ok (Some r) /\
    fst r = i /\ nth_error (rows faq_df) i = Some (snd r).
Proof.
  intros ucd question df scored i r M Hsc Hi Hmax Hpre HM.
  assert (Hat : find_question_answer_at question (Some df) = Ok (Some r)).
  { unfold find_question_answer_at.
    rewrite (faq_scored_not_empty _ _ Hsc)
      by (intros ->; destruct i; discriminate Hi).
    rewrite Hsc. simpl. f_equal.
    destruct (nth_error_split _ _ Hi) as (pre & post & -> & Hlen).
    apply faq_decide_earliest; [exact HM | |].
    - intros x s Hin. apply In_nth_error in Hin. destruct Hin as [j Hj].
      assert (Hji : j < i).
      { rewrite <- Hlen. apply nth_error_Some. congruence. }
      apply (Hpre j x s Hji). rewrite nth_error_app1 by lia. exact Hj.
    - intros x s Hin. apply In_nth_error in Hin. destruct Hin as [j Hj].
      apply (Hmax (length pre + S j) x s).
      rewrite nth_error_app2 by lia.
      replace (length pre + S j - length pre) with (S j) by lia. exact Hj. }
  split; [|split; [exact Hat|]].
  - unfold find_question_answer. rewrite Hat. reflexivity.
  - destruct r as [k r]. simpl.
    apply (faq_scored_positions _ _ _ Hsc Hi).
Qed.

Ltac scored_cases j H :=
  repeat (destruct j as [|j]; simpl in H;
          [injection H as <- <-; vm_compute; reflexivity|]);
  destruct j; discriminate H.

Lemma faq_tie_earliest_witness :
  faq_scored (ucd := ucd_excerpt) (lit "flu shot") sample_faq_tie
  = Ok sample_tie_scored /\
  find_question_answer (ucd := ucd_excerpt) (lit "flu shot") (Some sample_faq_tie)
  = Ok (Some [VStr (lit "flu shot"); VStr (lit "answer")]) /\
  find_question_answer_at (ucd := ucd_excerpt) (lit "flu shot") (Some sample_faq_tie)
  = Ok (Some (1, [VStr (lit "flu shot"); VStr (lit "answer")])).
Proof.
  assert (Hsc : faq_scored (ucd := ucd_excerpt) (lit "flu shot") sample_faq_tie
                = Ok sample_tie_scored) by (vm_compute; reflexivity).
  assert (Hi : nth_error sample_tie_scored 1
               = Some ((1, [VStr (lit "flu shot"); VStr (lit "answer")]),
                       Some F64.one)) by reflexivity.
  assert (Hmax : forall j x s, nth_error sample_tie_scored j = Some (x, Some s) ->
                               F64.leb s F64.one = true).
  { intros j x s H. scored_cases j H. }
  assert (Hpre : forall j x s, j < 1 ->
                   nth_error sample_tie_scored j = Some (x, Some s) ->
                   F64.ltb s F64.one = true /\ F64.leb s early_exit = true).
  { intros j x s Hj H. destruct j as [|j]; [|lia].
    simpl in H. injection H as <- <-.
    split; vm_compute; reflexivity. }
  assert (HM : F64.ltb threshold F64.one = true) by reflexivity.
  destruct (faq_tie_earliest ucd_excerpt (lit "flu shot") sample_faq_tie
              Hsc Hi Hmax Hpre HM) as (H1 & H2 & _).
  split; [exact Hsc|]. split; [exact H1 | exact H2].
Defined.

(** ** [np.argmax] *)

Lemma not_leb_ltb (a b : F64.float) :
  F64.is_nan a = false -> F64.is_nan b = false ->
  F64.leb a b = false -> F64.ltb b a = true.
Proof.
  intros Ha Hb E. apply ltb_key; [assumption..|].
  destruct (F64.leb a b) eqn:E'; [discriminate|]. clear E.
  assert (H : ~ ~ key_lt (float_key b) (float_key a)).
  { intros H. apply leb_key in H; [|assumption..]. congruence. }
  destruct (float_key a) as [[c1 e1] m1], (float_key b) as [[c2 e2] m2].
  unfold key_lt in *. lia.
Qed.

Section Argmax.
Let val (l : list F64.float) (k : nat) : F64.float := nth k l F64.zero.

Lemma argmax_from_spec (l : list F64.float) :
  forall (pre : list F64.float) (best_i : nat) (best : F64.float),
    Forall (fun s => F64.is_nan s = false) (pre ++ l) ->
    best_i < length pre ->
    best = nth best_i pre F64.zero ->
    (forall k, k < length pre -> F64.leb (val pre k) (val pre best_i) = true) ->
    (forall k, k < best_i -> F64.ltb (val pre k) (val pre best_i) = true) ->
    let m := argmax_from best_i best (length pre) l in
    m < length (pre ++ l) /\
    (forall k, k < length (pre ++ l) ->
               F64.leb (val (pre ++ l) k) (val (pre ++ l) m) = true) /\
    (forall k, k < m -> F64.ltb (val (pre ++ l) k) (val (pre ++ l) m) = true).
Proof.
  induction l as [|s l IH]; intros pre best_i best Hnan Hbi Hbest Hle Hlt.
  - simpl. rewrite app_nil_r. auto.
  - assert (Hs : F64.is_nan s = false).
    { rewrite Forall_forall in Hnan. apply Hnan.
      apply in_or_app. right. left. reflexivity. }
    assert (Hb : F64.is_nan best = false).
    { rewrite Forall_forall in Hnan. apply Hnan.
      apply in_or_app. left. subst best. apply nth_In. exact Hbi. }
    assert (Hlen : length (pre ++ [s]) = S (length pre))
      by (rewrite length_app; simpl; lia).
    assert (Hnew : nth (length pre) (pre ++ [s]) F64.zero = s)
      by (rewrite app_nth2, Nat.sub_diag by lia; reflexivity).
    assert (Hold : forall k, k < length pre -> val (pre ++ [s]) k = val pre k).
    { intros k Hk. unfold val. rewrite app_nth1 by exact Hk. reflexivity. }
    assert (Hfull : (pre ++ [s]) ++ l = pre ++ s :: l)
      by (rewrite <- app_assoc; reflexivity).
    cbv zeta. simpl argmax_from. rewrite <- Hlen, <- Hfull.
    destruct (F64.leb s best) eqn:E.
    + apply IH.
      * rewrite Hfull. exact Hnan.
      * lia.
      * rewrite app_nth1 by exact Hbi. exact Hbest.
      * intros k Hk. rewrite (Hold best_i) by exact Hbi.
        assert (Hk' : k < length pre \/ k = length pre) by lia.
        destruct Hk' as [Hk' | ->].
        -- rewrite Hold by exact Hk'. apply Hle. exact Hk'.
        -- unfold val. rewrite Hnew, <- Hbest. exact E.
      * intros k Hk. rewrite (Hold best_i) by exact Hbi.
        rewrite Hold by lia. apply Hlt. exact Hk.
    + rewrite Hs. apply (@not_leb_ltb _ _ Hs Hb) in E.
      apply IH.
      * rewrite Hfull. exact Hnan.
      * lia.
      * symmetry. exact Hnew.
      * intros k Hk. unfold val at 2. rewrite Hnew.
        assert (Hk' : k < length pre \/ k = length pre) by lia.
        destruct Hk' as [Hk' | ->].
        -- rewrite Hold by exact Hk'. specialize (Hle k Hk').
           unfold val in Hle at 2. rewrite <- Hbest in Hle.
           apply ltb_leb. apply (@leb_ltb_trans _ _ _ Hle E).
        -- unfold val. rewrite Hnew. apply leb_refl. exact Hs.
      * intros k Hk. unfold val at 2. rewrite Hnew.
        rewrite Hold by exact Hk. specialize (Hle k Hk).
        unfold val in Hle at 2. rewrite <- Hbest in Hle.
        apply (@leb_ltb_trans _ _ _ Hle E).
Qed.

(** On scores without a NaN, [argmax] gives a position of the greatest
    score, and every earlier position holds a strictly smaller score. *)
Lemma argmax_spec (l : list F64.float) :
  l <> [] -> Forall (fun s => F64.is_nan s = false) l ->
  argmax l < length l /\
  (forall k, k < length l -> F64.leb (val l k) (val l (argmax l)) = true) /\
  (forall k, k < argmax l -> F64.ltb (val l k) (val l (argmax l)) = true).
Proof.
  intros Hne Hnan. destruct l as [|s l]; [contradiction|].
  assert (Hs : F64.is_nan s = false) by (inversion Hnan; assumption).
  unfold argmax. rewrite Hs.
  change (argmax_from 0 s 1 l) with (argmax_from 0 s (length [s]) l).
  change (s :: l) with ([s] ++ l).
  apply argmax_from_spec.
  - exact Hnan.
  - simpl. lia.
  - reflexivity.
  - intros k Hk. simpl in Hk. assert (k = 0) by lia. subst k.
    apply leb_refl. exact Hs.
  - intros k Hk. lia.
Qed.

Lemma argmax_from_zero (l : list F64.float) (best_i i : nat) (best : F64.float) :
  F64.is_zero best = true -> Forall (fun s => F64.is_zero s = true) l ->
  argmax_from best_i best i l = best_i.
Proof.
  intros Hb Hl. revert i. induction Hl as [|s l Hs _ IH]; intros i; simpl;
    [reflexivity|].
  destruct s; try discriminate Hs. destruct best; try discriminate Hb.
  simpl. apply IH.
Qed.

(** When every score is a zero the first position is the greatest. *)
Lemma argmax_zero (l : list F64.float) :
  Forall (fun s => F64.is_zero s = true) l -> argmax l = 0.
Proof.
  destruct l as [|s l]; intros H; [reflexivity|].
  inversion H as [|s' l' Hs Hl]; subst. unfold argmax.
  destruct s; try discriminate Hs. simpl.
  apply argmax_from_zero; [reflexivity | exact Hl].
Qed.

End Argmax.

(** ** Symptom matcher *)

Lemma mem_In (x : pystr) (l : list pystr) : mem x l = true <-> In x l.
Proof.
  unfold mem. rewrite existsb_exists. split.
  - intros (y & Hy & E). apply pystr_eqb_eq in E. subst y. exact Hy.
  - intros H. exists x. split; [exact H | apply pystr_eqb_refl].
Qed.

Lemma index_of_In (x : pystr) (l : list pystr) :
  In x l -> exists j, index_of x l = Some j.
Proof.
  induction l as [|y l IH]; simpl; [contradiction|].
  intros H. destruct (PyStr.eqb x y) eqn:E; [eauto|].
  destruct H as [-> | H]; [rewrite pystr_eqb_refl in E; discriminate|].
  destruct (IH H) as [j ->]. simpl. eauto.
Qed.

Lemma nth_map_lt (A B : Type) (f : A -> B) (l : list A) (k : nat) (d : B) (d' : A) :
  k < length l -> nth k (map f l) d = f (nth k l d').
Proof.
  intros Hk. rewrite (nth_indep _ d (f d')) by (rewrite length_map; exact Hk).
  apply map_nth.
Qed.

Lemma sequence_ok_inv (A : Type) (l : list (result A)) (M : list A) :
  sequence l = Ok M -> Forall2 (fun c a => c = Ok a) l M.
Proof.
  revert M. induction l as [|c l IH]; intros M H; simpl in H.
  - injection H as <-. constructor.
  - destruct c as [a|]; [|discriminate H]. unfold bind in H.
    destruct (sequence l) as [rest|]; [|discriminate H].
    injection H as <-. constructor; [reflexivity | apply IH; reflexivity].
Qed.

Lemma Forall2_nth_left (A B : Type) (R : A -> B -> Prop) (l : list A) (M : list B) :
  Forall2 R l M ->
  forall i x, nth_error l i = Some x -> exists y, nth_error M i = Some y /\ R x y.
Proof.
  induction 1 as [|a b l M Hab _ IH]; intros i x Hi.
  - destruct i; discriminate Hi.
  - destruct i as [|i]; simpl in Hi.
    + injection Hi as <-. exists b. split; [reflexivity | exact Hab].
    + apply IH. exact Hi.
Qed.

Lemma Forall2_length_eq (A B : Type) (R : A -> B -> Prop) (l : list A) (M : list B) :
  Forall2 R l M -> length l = length M.
Proof. induction 1; simpl; congruence. Qed.

Lemma Forall2_in_right (A B : Type) (R : A -> B -> Prop) (l : list A) (M : list B) :
  Forall2 R l M -> forall y, In y M -> exists x, In x l /\ R x y.
Proof.
  induction 1 as [|a b l M Hab _ IH]; intros y Hy; [contradiction|].
  destruct Hy as [<- | Hy].
  - exists a. split; [left; reflexivity | exact Hab].
  - destruct (IH y Hy) as (x & Hx & Hr). exists x. split; [right|]; assumption.
Qed.

Lemma set_one_length (idx : nat) (v : list Z) : length (set_one idx v) = length v.
Proof.
  revert idx. induction v as [|z v IH]; intros [|idx]; simpl; auto.
Qed.

Lemma set_one_nth (idx k : nat) (v : list Z) :
  nth k (set_one idx v) 0%Z
  = if (idx =? k) && (k <? length v) then 1%Z else nth k v 0%Z.
Proof.
  revert idx k. induction v as [|z v IH]; intros idx k.
  - destruct idx, k; simpl; rewrite ?andb_false_r; reflexivity.
  - destruct idx as [|idx], k as [|k]; simpl; try reflexivity.
    rewrite IH. reflexivity.
Qed.

Section MatcherFacts.
Context {ucd : UnicodeCase}.

Lemma mark_length cols v symptom : length (mark cols v symptom) = length v.
Proof.
  unfold mark. break_matches; try reflexivity. apply set_one_length.
Qed.

Lemma fold_mark_length cols l v : length (fold_left (mark cols) l v) = length v.
Proof.
  revert v. induction l as [|s l IH]; intros v; simpl; [reflexivity|].
  rewrite IH. apply mark_length.
Qed.

Lemma mark_nth cols v symptom k :
  nth k (mark cols v symptom) 0%Z
  = if marks cols k symptom && (k <? length v) then 1%Z else nth k v 0%Z.
Proof.
  unfold mark, marks.
  destruct (mem (symptom_clean_of symptom) cols); [|reflexivity].
  destruct (index_of (symptom_clean_of symptom) cols) as [idx|]; [|reflexivity].
  simpl. apply set_one_nth.
Qed.

Lemma fold_mark_nth cols l v k :
  nth k (fold_left (mark cols) l v) 0%Z
  = if existsb (marks cols k) l && (k <? length v) then 1%Z else nth k v 0%Z.
Proof.
  revert v. induction l as [|s l IH]; intros v; simpl; [reflexivity|].
  rewrite IH, mark_length, mark_nth.
  destruct (marks cols k s), (existsb (marks cols k) l), (k <? length v);
    reflexivity.
Qed.

Lemma query_vector_length cols l : length (query_vector_of cols l) = length cols.
Proof.
  unfold query_vector_of.
  rewrite fold_mark_length. apply repeat_length.
Qed.

Lemma query_vector_nth cols l k :
  nth k (query_vector_of cols l) 0%Z
  = if existsb (marks cols k) l && (k <? length cols) then 1%Z else 0%Z.
Proof.
  unfold query_vector_of.
  rewrite fold_mark_nth, repeat_length.
  replace (nth k (repeat 0%Z (length cols)) 0%Z) with 0%Z; [reflexivity|].
  symmetry. apply nth_repeat.
Qed.

End MatcherFacts.

Lemma existsb_same_elements (A : Type) (f : A -> bool) (l1 l2 : list A) :
  (forall x, In x l1 <-> In x l2) -> existsb f l1 = existsb f l2.
Proof.
  intros H. apply eq_true_iff_eq. rewrite !existsb_exists.
  split; intros (x & Hx & Hf); exists x; split; try apply H; assumption.
Qed.

Section MatcherTheorems.
Context {ucd : UnicodeCase} {pf : PyFloat} {sk : Sklearn}.

(** The query vector records which columns are named, not how often or in
    which order. *)
Lemma query_vector_same_elements cols (l1 l2 : list pystr) :
  (forall x, In x l1 <-> In x l2) ->
  query_vector_of cols l1 = query_vector_of cols l2.
Proof.
  intros H. apply (nth_ext _ _ 0%Z 0%Z).
  - rewrite !query_vector_length. reflexivity.
  - intros k _. rewrite !query_vector_nth.
    rewrite (@existsb_same_elements _ (marks cols k) l1 l2 H). reflexivity.
Qed.

Lemma query_vector_unmatched cols (l : list pystr) :
  (forall symptom, In symptom l -> mem (symptom_clean_of symptom) cols = false) ->
  query_vector_of cols l = repeat 0%Z (length cols).
Proof.
  intros H. unfold query_vector_of. generalize (repeat 0%Z (length cols)).
  induction l as [|s l IH]; intros v; simpl; [reflexivity|].
  unfold mark at 2. rewrite (H s) by (left; reflexivity).
  apply IH. intros x Hx. apply H. right. exact Hx.
Qed.

Lemma set_one_binary (idx : nat) (v : list Z) :
  binary_vector v -> binary_vector (set_one idx v).
Proof.
  unfold binary_vector. intros H. revert idx.
  induction H as [|z v Hz Hv IH]; intros [|idx]; simpl; constructor; auto.
Qed.

Lemma query_vector_binary (cols l : list pystr) :
  binary_vector (query_vector_of cols l).
Proof.
  unfold query_vector_of.
  assert (H : binary_vector (repeat 0%Z (length cols))).
  { apply Forall_forall. intros z Hz. apply repeat_spec in Hz. auto. }
  revert H. generalize (repeat 0%Z (length cols)).
  induction l as [|s l IH]; intros v Hv; simpl; [exact Hv|].
  apply IH. unfold mark. break_matches; try assumption.
  apply set_one_binary. exact Hv.
Qed.

Lemma query_vector_finite (v : list Z) :
  binary_vector v -> forallb F64.is_finite (map F64.of_Z v) = true.
Proof.
  intros H. apply forallb_forall. intros x Hx.
  apply in_map_iff in Hx. destruct Hx as (z & <- & Hz).
  unfold binary_vector in H. rewrite Forall_forall in H.
  destruct (H z Hz) as [-> | ->]; reflexivity.
Qed.

(** The matrix that [astype(float)] makes has a row for each row of the
    table and an entry for each symptom column. *)
Lemma disease_matrix_shape (df : frame) (cols : list pystr)
      (M : list (list F64.float)) :
  disease_matrix_of df cols = Ok M ->
  length M = length (rows df) /\
  forall y, In y M -> length y = length cols.
Proof.
  unfold disease_matrix_of. intros H. apply sequence_ok_inv in H. split.
  - rewrite <- (Forall2_length_eq H). apply length_map.
  - intros y Hy. destruct (Forall2_in_right H y Hy) as (c & Hc & E).
    apply in_map_iff in Hc. destruct Hc as (r & <- & _).
    apply sequence_ok_inv in E.
    rewrite <- (Forall2_length_eq E). apply length_map.
Qed.

(** The [try] block of the matcher on a matrix of finite numbers, step by
    step. *)
Lemma predict_body_finite (symptoms_list : list pystr) (df : frame)
      (M : list (list F64.float)) :
  finite_matrix df M -> symptom_columns_of df <> [] -> rows df <> [] ->
  let scores :=
    pairwise_cosine
      (map F64.of_Z (query_vector_of (symptom_columns_of df) symptoms_list)) M in
  predict_body symptoms_list df
  = (best_disease <- row_get df (nth (argmax scores) (rows df) [])
                             (lit "diseases") ;;
     Ok (Some (best_disease, nth (argmax scores) scores F64.zero,
               nth (argmax scores) M []))) /\
  length scores = length (rows df).
Proof.
  intros [HM Hfin] Hc Hr scores.
  destruct (disease_matrix_shape _ _ HM) as [HlenM Hwidth].
  assert (Hls : length scores = length (rows df)).
  { unfold scores. rewrite pairwise_cosine_length. exact HlenM. }
  split; [|exact Hls].
  unfold predict_body. rewrite HM. unfold bind at 1.
  unfold cosine_similarity.
  rewrite (query_vector_finite (query_vector_binary _ _)), Hfin.
  cbv iota beta delta [andb].
  pose proof (query_vector_length (symptom_columns_of df) symptoms_list) as Hlq.
  assert (Hw : forallb (fun y : list F64.float =>
                          length y =?
                          length (map F64.of_Z
                                    (query_vector_of (symptom_columns_of df)
                                                     symptoms_list))) M = true).
  { apply forallb_forall. intros y Hy. rewrite length_map, Hlq.
    apply Nat.eqb_eq. apply Hwidth. exact Hy. }
  destruct (map F64.of_Z (query_vector_of (symptom_columns_of df) symptoms_list))
    as [|q0 qs] eqn:Eq.
  { apply (f_equal (@length _)) in Eq. rewrite length_map, Hlq in Eq.
    destruct (symptom_columns_of df); [contradiction | discriminate Eq]. }
  destruct M as [|y0 M'].
  { simpl in HlenM. destruct (rows df); [contradiction | discriminate HlenM]. }
  rewrite Hw. unfold bind at 1. fold scores.
  destruct scores as [|s0 ss] eqn:Es.
  { simpl in Hls. destruct (rows df); [contradiction | discriminate Hls]. }
  reflexivity.
Qed.

End MatcherTheorems.

(** C10: the symptom matcher only sees which symptoms are listed: two lists
    with the same elements, such as a list, its permutations and its copies
    with repeated symptoms, give the same disease, score and vector. *)
Theorem matcher_ignores_order_and_repetition :
  forall (ucd : UnicodeCase) (pf : PyFloat) (sk : Sklearn) (augmented_df : option frame)
         (symptoms_list symptoms_list' : list pystr),
    (forall symptom, In symptom symptoms_list <-> In symptom symptoms_list') ->
    predict_disease_from_symptoms symptoms_list augmented_df
    = predict_disease_from_symptoms symptoms_list' augmented_df.
Proof.
  intros ucd pf sk [df|] l l' H; [|reflexivity].
  unfold predict_disease_from_symptoms, predict_body.
  rewrite (@query_vector_same_elements ucd (symptom_columns_of df) l l' H).
  reflexivity.
Qed.

Lemma matcher_ignores_order_and_repetition_witness :
  (forall symptom,
      In symptom [lit "fever"; lit "excessive thirst"] <->
      In symptom [lit "excessive thirst"; lit "fever"; lit "excessive thirst"]) /\
  predict_disease_from_symptoms (ucd := ucd_excerpt) (pf := integer_text)
    (sk := reference_sklearn)
    [lit "fever"; lit "excessive thirst"] (Some sample_augmented)
  = predict_disease_from_symptoms (ucd := ucd_excerpt) (pf := integer_text)
    (sk := reference_sklearn)
      [lit "excessive thirst"; lit "fever"; lit "excessive thirst"]
      (Some sample_augmented).
Proof.
  assert (H : forall symptom,
             In symptom [lit "fever"; lit "excessive thirst"] <->
             In symptom [lit "excessive thirst"; lit "fever"; lit "excessive thirst"]).
  { intros symptom. simpl. tauto. }
  split; [exact H|].
  exact (matcher_ignores_order_and_repetition ucd_excerpt integer_text
           reference_sklearn (Some sample_augmented)
           [lit "fever"; lit "excessive thirst"]
           [lit "excessive thirst"; lit "fever"; lit "excessive thirst"] H).
Defined.

(** C6, as stated, fails: for the symptoms "s1, s2, s3, s4, s5" the two rows
    of the table have the same cosine with the query vector, 1 / sqrt 5, so
    the first of them, "Broad", has the maximum; the scores computed in
    floating point differ in their last bit, the three rounded products of
    the first row adding up to 0.44721359549995787 and the one product of
    the second being 0.4472135954999579, and the matcher returns the second
    row, "Narrow". *)
Lemma tied_rows_counterexample :
  let symptoms_list := map lit ["s1"; "s2"; "s3"; "s4"; "s5"]%string in
  let query_vector :=
    query_vector_of (ucd := ucd_excerpt)
                    (symptom_columns_of sample_augmented_tied) symptoms_list in
  let vector := fun k =>
    row_vector sample_augmented_tied (nth k (rows sample_augmented_tied) []) in
  let score0 := S754_finite false 8056283928194520 (-54) in
  let score1 := S754_finite false 8056283928194521 (-54) in
  same_cosine query_vector (vector 0) (vector 1) /\
  pairwise_cosine (Sklearn := reference_sklearn)
    (map F64.of_Z query_vector) (map (map F64.of_Z) [vector 0; vector 1])
  = [score0; score1] /\
  F64.ltb score0 score1 = true /\
  predict_disease_from_symptoms (ucd := ucd_excerpt) (pf := integer_text)
    (sk := reference_sklearn) symptoms_list (Some sample_augmented_tied)
  = Some (VStr (lit "Narrow"), score1, map F64.of_Z (vector 1)).
Proof.
  split; [vm_compute; repeat split; discriminate|].
  split; [vm_compute; reflexivity|].
  split; vm_compute; reflexivity.
Qed.

(** C6, amended: on a matrix with a "diseases" column, at least one row and
    one symptom column, whose symptom cells [astype(float)] turns into
    finite numbers, the matcher returns the row at the first position where
    the score that [cosine_similarity] computes is greatest, no score being
    NaN: its disease, its score and its vector. *)
Theorem matcher_returns_first_maximum :
  forall (ucd : UnicodeCase) (pf : PyFloat) (sk : Sklearn)
         (symptoms_list : list pystr) (augmented_df : frame)
         (disease_matrix : list (list F64.float)),
    finite_matrix augmented_df disease_matrix ->
    In (lit "diseases") (columns augmented_df) ->
    rows augmented_df <> [] ->
    symptom_columns_of augmented_df <> [] ->
    let query_vector :=
      query_vector_of (symptom_columns_of augmented_df) symptoms_list in
    let scores := pairwise_cosine (map F64.of_Z query_vector) disease_matrix in
    let score := fun k => nth k scores F64.zero in
    Forall (fun s => F64.is_nan s = false) scores ->
    exists (i : nat) (disease : pyval),
      i < length (rows augmented_df) /\
      row_get augmented_df (nth i (rows augmented_df) []) (lit "diseases")
      = Ok disease /\
      predict_disease_from_symptoms symptoms_list (Some augmented_df)
      = Some (disease, score i, nth i disease_matrix []) /\
      (forall k, k < length (rows augmented_df) ->
                 F64.leb (score k) (score i) = true) /\
      (forall k, k < i -> F64.ltb (score k) (score i) = true).
Proof.
  intros ucd pf sk l df M HM Hdis Hrows Hcols query_vector scores score Hnan.
  destruct (@predict_body_finite ucd pf sk l df M HM Hcols Hrows) as [Hbody Hlen].
  fold query_vector in Hbody, Hlen. fold scores in Hbody, Hlen.
  assert (Hne : scores <> []).
  { intros E. rewrite E in Hlen. simpl in Hlen.
    destruct (rows df); [contradiction | discriminate Hlen]. }
  destruct (argmax_spec Hne Hnan) as (Hi & Hmax & Hfirst).
  rewrite Hlen in Hi.
  destruct (index_of_In _ _ Hdis) as [j Hj].
  exists (argmax scores), (cell (nth (argmax scores) (rows df) []) j).
  assert (Hget : row_get df (nth (argmax scores) (rows df) []) (lit "diseases")
                 = Ok (cell (nth (argmax scores) (rows df) []) j)).
  { unfold row_get, col_index. rewrite Hj. reflexivity. }
  split; [exact Hi|]. split; [exact Hget|]. split; [|split].
  - unfold predict_disease_from_symptoms. rewrite Hbody, Hget. reflexivity.
  - intros k Hk. apply Hmax. rewrite Hlen. exact Hk.
  - intros k Hk. apply Hfirst. exact Hk.
Qed.

Lemma sample_augmented_finite :
  finite_matrix (pf := integer_text) sample_augmented
    [ [F64.one; F64.zero]; [F64.zero; F64.one] ].
Proof. split; vm_compute; reflexivity. Qed.

Lemma matcher_returns_first_maximum_witness :
  let symptoms_list := [lit "Excessive thirst"; lit "cough"] in
  let disease_matrix := [ [F64.one; F64.zero]; [F64.zero; F64.one] ] in
  let query_vector :=
    query_vector_of (ucd := ucd_excerpt) (symptom_columns_of sample_augmented)
                    symptoms_list in
  let scores :=
    pairwise_cosine (Sklearn := reference_sklearn)
                    (map F64.of_Z query_vector) disease_matrix in
  let score := fun k => nth k scores F64.zero in
  exists (i : nat) (disease : pyval),
    i < length (rows sample_augmented) /\
    row_get sample_augmented (nth i (rows sample_augmented) []) (lit "diseases")
    = Ok disease /\
    predict_disease_from_symptoms (ucd := ucd_excerpt) (pf := integer_text)
      (sk := reference_sklearn) symptoms_list (Some sample_augmented)
    = Some (disease, score i, nth i disease_matrix []) /\
    (forall k, k < length (rows sample_augmented) ->
               F64.leb (score k) (score i) = true) /\
    (forall k, k < i -> F64.ltb (score k) (score i) = true).
Proof.
  apply (@matcher_returns_first_maximum ucd_excerpt integer_text
           reference_sklearn [lit "Excessive thirst"; lit "cough"]
           sample_augmented [ [F64.one; F64.zero]; [F64.zero; F64.one] ]).
  - exact sample_augmented_finite.
  - left. reflexivity.
  - discriminate.
  - discriminate.
  - vm_compute. repeat constructor.
Defined.

Example matcher_picks_diabetes :
  predict_disease_from_symptoms (ucd := ucd_excerpt) (pf := integer_text)
    (sk := reference_sklearn)
    [lit "Excessive thirst"; lit "cough"] (Some sample_augmented)
  = Some (VStr (lit "Diabetes"), F64.one, [F64.zero; F64.one]).
Proof. vm_compute. reflexivity. Qed.

(** C1, as stated, fails: "xyz" is no column of the sample matrix, the query
    vector is all zeros, and the matcher returns the first row, "Flu". *)
Lemma unmatched_symptoms_counterexample :
  query_vector_of (ucd := ucd_excerpt) (symptom_columns_of sample_augmented)
                  [lit "xyz"] = [0%Z; 0%Z] /\
  predict_disease_from_symptoms (ucd := ucd_excerpt) (pf := integer_text)
    (sk := reference_sklearn) [lit "xyz"]
    (Some sample_augmented)
  = Some (VStr (lit "Flu"), F64.zero, [F64.one; F64.zero]) /\
  predict_disease_from_symptoms (ucd := ucd_excerpt) (pf := integer_text)
    (sk := reference_sklearn) [lit "xyz"]
    (Some sample_augmented) <> None.
Proof.
  split; [reflexivity|]. split; [vm_compute; reflexivity|].
  vm_compute. discriminate.
Qed.

(** C1, amended: without a matrix the matcher returns no result; when no
    input symptom is a column of a matrix that has a "diseases" column, a
    row and a symptom column, whose symptom cells [astype(float)] turns into
    finite numbers and whose rows [cosine_similarity] all scores 0 against
    the all-zero query vector, the matcher returns the first row of the
    table, with a similarity that is 0. *)
Theorem matcher_without_match :
  forall (ucd : UnicodeCase) (pf : PyFloat) (sk : Sklearn)
         (symptoms_list : list pystr),
    predict_disease_from_symptoms symptoms_list None = None /\
    forall (augmented_df : frame) (disease_matrix : list (list F64.float)),
      finite_matrix augmented_df disease_matrix ->
      In (lit "diseases") (columns augmented_df) ->
      rows augmented_df <> [] ->
      symptom_columns_of augmented_df <> [] ->
      (forall symptom, In symptom symptoms_list ->
         mem (symptom_clean_of symptom) (symptom_columns_of augmented_df) = false) ->
      Forall (fun s => F64.is_zero s = true)
             (pairwise_cosine
                (map F64.of_Z
                     (repeat 0%Z (length (symptom_columns_of augmented_df))))
                disease_matrix) ->
      let first := nth 0 (rows augmented_df) [] in
      exists (disease : pyval) (score : F64.float),
        row_get augmented_df first (lit "diseases") = Ok disease /\
        predict_disease_from_symptoms symptoms_list (Some augmented_df)
        = Some (disease, score, nth 0 disease_matrix []) /\
        F64.is_zero score = true.
Proof.
  intros ucd pf sk l. split; [reflexivity|].
  intros df M HM Hdis Hrows Hcols Hun Hzero first.
  destruct (@predict_body_finite ucd pf sk l df M HM Hcols Hrows) as [Hbody Hlen].
  rewrite (query_vector_unmatched _ _ Hun) in Hbody, Hlen.
  set (scores := pairwise_cosine
                   (map F64.of_Z (repeat 0%Z (length (symptom_columns_of df)))) M)
    in *.
  rewrite (argmax_zero Hzero) in Hbody.
  destruct (index_of_In _ _ Hdis) as [j Hj].
  exists (cell first j), (nth 0 scores F64.zero).
  assert (Hget : row_get df first (lit "diseases") = Ok (cell first j)).
  { unfold row_get, col_index. rewrite Hj. reflexivity. }
  split; [exact Hget|]. split.
  - unfold predict_disease_from_symptoms. rewrite Hbody.
    fold first. rewrite Hget. reflexivity.
  - rewrite Forall_forall in Hzero. apply Hzero. apply nth_In.
    rewrite Hlen. destruct (rows df); [contradiction | simpl; lia].
Qed.

Lemma matcher_without_match_witness :
  predict_disease_from_symptoms (ucd := ucd_excerpt) (pf := integer_text)
    (sk := reference_sklearn) [lit "xyz"] None = None /\
  let first := nth 0 (rows sample_augmented) [] in
  exists (disease : pyval) (score : F64.float),
    row_get sample_augmented first (lit "diseases") = Ok disease /\
    predict_disease_from_symptoms (ucd := ucd_excerpt) (pf := integer_text)
      (sk := reference_sklearn) [lit "xyz"] (Some sample_augmented)
    = Some (disease, score, [F64.one; F64.zero]) /\
    F64.is_zero score = true.
Proof.
  destruct (matcher_without_match ucd_excerpt integer_text reference_sklearn
              [lit "xyz"]) as [Hnone Hsome].
  split; [exact Hnone|].
  apply (Hsome sample_augmented [ [F64.one; F64.zero]; [F64.zero; F64.one] ]).
  - exact sample_augmented_finite.
  - left. reflexivity.
  - discriminate.
  - discriminate.
  - intros symptom Hin. in_rows Hin. subst symptom. reflexivity.
  - vm_compute. repeat constructor.
Defined.

(** ** Confidence *)

Section Confidence.
Context {ucd : UnicodeCase} {pc : PatternCompiler} {pf : PyFloat} {sk : Sklearn}.

Lemma process_nonempty (user_input : pystr) (p s f a : option frame) :
  user_input <> [] ->
  process_user_input user_input p s f a
  = let response := set_type (Some (classify_input_type user_input))
                             initial_response in
    match classify_input_type user_input with
    | Question => question_path user_input p s f a response
    | Symptoms => symptoms_path user_input p s f a response
    | Disease => disease_path user_input p s f a response
    end.
Proof.
  intros Hne. destruct user_input; [contradiction | reflexivity].
Qed.

End Confidence.



(** * Further properties of the resolver *)

(** ** Disease knowledge aggregator, continued *)

Lemma keep_some_length (A : Type) (l : list (option A)) :
  length (keep_some l) <= length l.
Proof.
  induction l as [|[a|] l IH]; simpl; lia.
Qed.

Lemma keep_some_In (A : Type) (l : list (option A)) (a : A) :
  In a (keep_some l) -> In (Some a) l.
Proof.
  induction l as [|[b|] l IH]; simpl; [tauto | | auto].
  intros [-> | H]; auto.
Qed.

(** What is kept from a slot is never empty and never the placeholder. *)
Lemma slot_text_kept (v : pyval) (t : pystr) :
  slot_text v = Some t -> t <> [] /\ t <> lit "nan".
Proof.
  unfold slot_text. destruct (notna v); [|discriminate].
  destruct (strip (py_str v)) as [|c u] eqn:E; [discriminate|].
  destruct (PyStr.eqb (c :: u) (lit "nan")) eqn:En; [discriminate|].
  intros H. injection H as <-. split; [discriminate|].
  intros Hn. rewrite Hn, pystr_eqb_refl in En. discriminate.
Qed.

Section AggregatorMore.
Context {ucd : UnicodeCase} {pc : PatternCompiler} {pf : PyFloat} {sk : Sklearn}.

Lemma symptoms_str_ok (name : pystr) (s a : option frame) :
  exists l, get_disease_symptoms (VStr name) s a = Ok l.
Proof.
  unfold get_disease_symptoms. destruct (truthy (VStr name)); simpl; eauto.
  break_matches; eauto.
Qed.

Lemma precautions_str_ok (name : pystr) (p : option frame) :
  exists l, get_disease_precautions (VStr name) p = Ok l.
Proof.
  unfold get_disease_precautions. destruct p; eauto.
  destruct (truthy (VStr name)); simpl; eauto.
Qed.

Lemma description_str_ok (name : pystr) (f : option frame) :
  exists d, get_disease_description (VStr name) f = Ok d.
Proof.
  unfold get_disease_description. destruct f; eauto.
  destruct (truthy (VStr name)); simpl; eauto.
Qed.

Lemma precautions_from_table_bound (disease_clean : pystr) (pdf : frame) :
  let l := try_except (precautions_from_table disease_clean pdf) [] in
  length l <= 4 /\ Forall (fun t => t <> [] /\ t <> lit "nan") l.
Proof.
  unfold precautions_from_table.
  destruct (mem (lit "Disease_clean") (columns pdf));
    [|simpl; split; [lia | constructor]].
  destruct (rows_where_eq pdf (lit "Disease_clean") (VStr disease_clean))
    as [[|first rest]|]; unfold bind, try_except;
    try (simpl; split; [lia | constructor]).
  split.
  - etransitivity; [apply keep_some_length|]. rewrite length_map. simpl. lia.
  - apply Forall_forall. intros t Ht. apply keep_some_In in Ht.
    apply in_map_iff in Ht. destruct Ht as (col & Hs & _).
    destruct (index_of col (columns pdf)); [|discriminate Hs].
    exact (slot_text_kept _ Hs).
Qed.

Lemma symptoms_from_catalogue_kept (disease_clean : pystr) (sdf : frame) :
  Forall (fun t => t <> [] /\ t <> lit "nan")
         (try_except (symptoms_from_catalogue disease_clean sdf) []).
Proof.
  unfold symptoms_from_catalogue.
  destruct (rows_where_eq sdf (lit "Disease_clean") (VStr disease_clean))
    as [[|first rest]|]; unfold bind, try_except; try constructor.
  apply Forall_forall. intros t Ht. apply keep_some_In in Ht.
  apply in_map_iff in Ht. destruct Ht as ([j col] & Hs & _).
  cbv beta iota delta [fst snd] in Hs.
  destruct (startswith (lit "Symptom_") col); [|discriminate Hs].
  exact (slot_text_kept _ Hs).
Qed.

End AggregatorMore.

(** X1: the three look-ups see a disease name only through its normal form:
    two non-empty names with the same lowered, stripped text give the same
    symptoms, precautions and description. *)
Theorem lookups_by_normal_form :
  forall (ucd : UnicodeCase) (pc : PatternCompiler) (name name' : pystr)
         (precautions_df symptoms_df faq_df augmented_df : option frame),
    name <> [] -> name' <> [] ->
    strip (lower name) = strip (lower name') ->
    get_disease_symptoms (VStr name) symptoms_df augmented_df
    = get_disease_symptoms (VStr name') symptoms_df augmented_df /\
    get_disease_precautions (VStr name) precautions_df
    = get_disease_precautions (VStr name') precautions_df /\
    get_disease_description (VStr name) faq_df
    = get_disease_description (VStr name') faq_df.
Proof.
  intros ucd pc name name' p s f a Hn Hn' E.
  destruct name as [|c u]; [contradiction|].
  destruct name' as [|c' u']; [contradiction|].
  unfold get_disease_symptoms, get_disease_precautions, get_disease_description.
  simpl truthy. simpl negb. cbv iota. simpl as_str. unfold bind.
  rewrite E. repeat split.
Qed.

Lemma lookups_by_normal_form_witness :
  get_disease_symptoms (ucd := ucd_excerpt) (VStr (lit " DIABETES"))
    (Some sample_symptoms) (Some sample_augmented)
  = get_disease_symptoms (ucd := ucd_excerpt) (VStr (lit "diabetes"))
      (Some sample_symptoms) (Some sample_augmented) /\
  get_disease_precautions (ucd := ucd_excerpt) (VStr (lit " DIABETES"))
    (Some sample_precautions)
  = get_disease_precautions (ucd := ucd_excerpt) (VStr (lit "diabetes"))
      (Some sample_precautions) /\
  get_disease_description (ucd := ucd_excerpt) (pc := plain_compiler)
    (VStr (lit " DIABETES")) (Some sample_faq)
  = get_disease_description (ucd := ucd_excerpt) (pc := plain_compiler)
      (VStr (lit "diabetes")) (Some sample_faq).
Proof.
  apply (lookups_by_normal_form ucd_excerpt plain_compiler).
  - discriminate.
  - discriminate.
  - reflexivity.
Defined.

(** X2: the precautions of a disease are at most four, none of them empty
    and none the placeholder "nan", for every name and every table. *)
Theorem precautions_at_most_four :
  forall (ucd : UnicodeCase) (disease_name : pystr) (precautions_df : option frame),
  exists precautions,
    get_disease_precautions (VStr disease_name) precautions_df = Ok precautions /\
    length precautions <= 4 /\
    Forall (fun t => t <> [] /\ t <> lit "nan") precautions.
Proof.
  intros ucd name p. unfold get_disease_precautions.
  destruct p as [pdf|];
    [|exists []; split; [reflexivity | split; [simpl; lia | constructor]]].
  destruct (truthy (VStr name)); simpl;
    [|exists []; split; [reflexivity | split; [simpl; lia | constructor]]].
  eexists. split; [reflexivity|]. apply precautions_from_table_bound.
Qed.

(** X3: the symptom catalogue is only a fallback: when the augmented matrix
    alone gives symptoms for a name, the catalogue does not change them. *)
Theorem matrix_symptoms_take_precedence :
  forall (ucd : UnicodeCase) (disease_name : pystr) (augmented_df : option frame)
         (symptoms : list pystr),
    symptoms <> [] ->
    get_disease_symptoms (VStr disease_name) None augmented_df = Ok symptoms ->
    forall symptoms_df,
      get_disease_symptoms (VStr disease_name) symptoms_df augmented_df = Ok symptoms.
Proof.
  intros ucd name a l Hne H sdf. unfold get_disease_symptoms in *.
  destruct (truthy (VStr name)); simpl in *;
    [|injection H as <-; contradiction].
  match goal with
  | H : match ?m with _ => _ end = _ |- _ => destruct m as [|x m']
  end.
  - injection H as <-. contradiction.
  - exact H.
Qed.

Lemma matrix_symptoms_take_precedence_witness :
  get_disease_symptoms (ucd := ucd_excerpt) (VStr (lit "Diabetes"))
    (Some sample_symptoms) (Some sample_augmented)
  = Ok [lit "excessive thirst"].
Proof.
  apply (matrix_symptoms_take_precedence ucd_excerpt (lit "Diabetes")
           (Some sample_augmented)).
  - discriminate.
  - reflexivity.
Defined.

(** X4: without the augmented matrix the symptoms come from the catalogue,
    and none of them is empty or the placeholder "nan". *)
Theorem catalogue_symptoms_are_text :
  forall (ucd : UnicodeCase) (disease_name : pystr) (symptoms_df : option frame),
  exists symptoms,
    get_disease_symptoms (VStr disease_name) symptoms_df None = Ok symptoms /\
    Forall (fun t => t <> [] /\ t <> lit "nan") symptoms.
Proof.
  intros ucd name s. unfold get_disease_symptoms.
  destruct (truthy (VStr name)); simpl; [|exists []; split; [reflexivity | constructor]].
  destruct s as [sdf|]; [|exists []; split; [reflexivity | constructor]].
  destruct (mem (lit "Disease_clean") (columns sdf));
    [|exists []; split; [reflexivity | constructor]].
  eexists. split; [reflexivity|]. apply symptoms_from_catalogue_kept.
Qed.

(** ** Response assembler, continued *)

Lemma precautions_bound_any {ucd : UnicodeCase} (d : pyval) (p : option frame)
  (l : list pystr) :
  get_disease_precautions d p = Ok l -> length l <= 4.
Proof.
  unfold get_disease_precautions. destruct p as [pdf|];
    [|intros H; injection H as <-; simpl; lia].
  destruct (truthy d); simpl; [|intros H; injection H as <-; simpl; lia].
  destruct (as_str d) as [name|]; simpl; [|discriminate].
  intros H. injection H as <-. apply precautions_from_table_bound.
Qed.

Section AssemblerMore.
Context {ucd : UnicodeCase} {pc : PatternCompiler} {pf : PyFloat} {sk : Sklearn}.

(** For a name that is a string the three look-ups all return, and the
    response takes their results. *)
Lemma fill_information_str (name : pystr) (p s f a : option frame)
  (r : query_response) :
  exists symptoms precautions description,
    get_disease_symptoms (VStr name) s a = Ok symptoms /\
    get_disease_precautions (VStr name) p = Ok precautions /\
    get_disease_description (VStr name) f = Ok description /\
    fill_information (VStr name) p s f a r
    = set_description description
        (set_precautions precautions (set_symptoms symptoms r)).
Proof.
  destruct (symptoms_str_ok name s a) as [sy Hs].
  destruct (precautions_str_ok name p) as [pr Hp].
  destruct (description_str_ok name f) as [de Hd].
  exists sy, pr, de. repeat (split; [assumption|]).
  unfold fill_information. rewrite Hs, Hp, Hd. reflexivity.
Qed.

(** The question path either is the FAQ fallback, or escalates and leaves
    the FAQ fields alone. *)
Lemma question_path_shape (user_input : pystr) (p s f a : option frame)
  (r : query_response) :
  let r' := question_path user_input p s f a r in
  r' = faq_fallback user_input f r \/
  (r_type r' = Some Disease /\ r_symptoms r' <> [] /\
   r_faq_question r' = r_faq_question r /\ r_faq_answer r' = r_faq_answer r /\
   exists d, get_disease_precautions d p = Ok (r_precautions r')).
Proof.
  unfold question_path.
  destruct (potential_disease_of user_input) as [pd|]; [|left; reflexivity].
  destruct (contains (lit "symptom") (lower user_input)
            || contains (lit "sign") (lower user_input)); [|left; reflexivity].
  destruct (symptoms_str_ok pd s a) as [[|sy sys] ->]; [left; reflexivity|].
  right.
  destruct (precautions_str_ok pd p) as [pr Hp].
  destruct (description_str_ok pd f) as [de Hd].
  rewrite Hp, Hd. simpl.
  repeat (split; [first [reflexivity | discriminate]|]).
  exists (VStr pd). exact Hp.
Qed.

Lemma fill_information_precautions (d : pyval) (p s f a : option frame)
  (r : query_response) :
  let r' := fill_information d p s f a r in
  r_precautions r' = r_precautions r \/
  get_disease_precautions d p = Ok (r_precautions r').
Proof.
  unfold fill_information.
  destruct (get_disease_symptoms d s a); [|left; reflexivity].
  destruct (get_disease_precautions d p) as [pr|]; [|left; reflexivity].
  right. destruct (get_disease_description d f); reflexivity.
Qed.

End AssemblerMore.

(** X5: an input classified as a disease name is taken as the name as it
    was typed, with confidence 0.95, and the response carries exactly what
    the three look-ups return for it; no look-up can make it fail. *)
Theorem disease_path_response :
  forall (ucd : UnicodeCase) (pc : PatternCompiler) (pf : PyFloat)
         (sk : Sklearn) (user_input : pystr)
         (precautions_df symptoms_df faq_df augmented_df : option frame),
    classify_input_type user_input = Disease ->
    exists symptoms precautions description,
      get_disease_symptoms (VStr user_input) symptoms_df augmented_df = Ok symptoms /\
      get_disease_precautions (VStr user_input) precautions_df = Ok precautions /\
      get_disease_description (VStr user_input) faq_df = Ok description /\
      process_user_input user_input precautions_df symptoms_df faq_df augmented_df
      = {| r_type := Some Disease; r_disease := Some (VStr user_input);
           r_confidence := Rat fixed_confidence; r_symptoms := symptoms;
           r_precautions := precautions; r_description := description;
           r_faq_question := None; r_faq_answer := None |}.
Proof.
  intros ucd pc pf sk ui p s f a Hc.
  assert (Hne : ui <> []) by (intros ->; discriminate Hc).
  rewrite process_nonempty by exact Hne. rewrite Hc. cbv zeta.
  unfold disease_path.
  match goal with
  | |- context [fill_information _ _ _ _ _ ?r] =>
      destruct (fill_information_str ui p s f a r)
        as (sy & pr & de & Hs & Hp & Hd & ->)
  end.
  exists sy, pr, de. repeat (split; [assumption|]). reflexivity.
Qed.

Lemma disease_path_response_witness :
  classify_input_type (ucd := ucd_excerpt) (lit "Flu") = Disease /\
  process_user_input (ucd := ucd_excerpt) (pc := plain_compiler)
    (pf := integer_text) (sk := reference_sklearn) (lit "Flu")
    (Some sample_precautions) (Some sample_symptoms) (Some sample_faq)
    (Some sample_augmented)
  = {| r_type := Some Disease; r_disease := Some (VStr (lit "Flu"));
       r_confidence := Rat fixed_confidence; r_symptoms := [lit "fever"];
       r_precautions := [lit "rest"];
       r_description := Some (VStr (lit "An infection"));
       r_faq_question := None; r_faq_answer := None |}.
Proof.
  assert (Hc : classify_input_type (ucd := ucd_excerpt) (lit "Flu") = Disease)
    by reflexivity.
  split; [exact Hc|].
  destruct (disease_path_response ucd_excerpt plain_compiler integer_text
           reference_sklearn (lit "Flu")
              (Some sample_precautions) (Some sample_symptoms) (Some sample_faq)
              (Some sample_augmented) Hc)
    as (sy & pr & de & Hs & Hp & Hd & ->).
  vm_compute in Hs, Hp, Hd.
  injection Hs as <-. injection Hp as <-. injection Hd as <-.
  vm_compute. reflexivity.
Defined.

(** X6: a name classified as a disease that has no character which a
    regular expression reads specially and is absent from every table (its
    normal form is no cell of a column of clean names and occurs in no clean
    question) gives the response with that name, confidence 0.95, no
    symptoms, no precautions and no description, for every compiler that
    finds a plain text where it occurs. *)
Theorem unknown_disease_response :
  forall (ucd : UnicodeCase) (pc : PatternCompiler) (pf : PyFloat)
         (sk : Sklearn) (user_input : pystr)
         (precautions_df symptoms_df faq_df augmented_df : option frame),
    plain_text_search pc ->
    classify_input_type user_input = Disease ->
    existsb is_special (strip (lower user_input)) = false ->
    unknown_disease user_input precautions_df symptoms_df faq_df augmented_df ->
    process_user_input user_input precautions_df symptoms_df faq_df augmented_df
    = {| r_type := Some Disease; r_disease := Some (VStr user_input);
         r_confidence := Rat fixed_confidence; r_symptoms := [];
         r_precautions := []; r_description := None;
         r_faq_question := None; r_faq_answer := None |}.
Proof.
  intros ucd pc pf sk ui p s f a Hpc Hc Hplain (Ha & Hs & Hp & Hf).
  assert (Hne : ui <> []) by (intros ->; discriminate Hc).
  rewrite process_nonempty by exact Hne. rewrite Hc. cbv zeta.
  unfold disease_path, fill_information.
  rewrite symptoms_unknown, precautions_unknown, description_unknown
    by assumption.
  reflexivity.
Qed.

Lemma unknown_disease_response_witness :
  process_user_input (ucd := ucd_excerpt) (pc := plain_compiler)
    (pf := integer_text) (sk := reference_sklearn) (lit "xyzabc123")
    (Some sample_precautions) (Some sample_symptoms) (Some sample_faq)
    (Some sample_augmented)
  = {| r_type := Some Disease; r_disease := Some (VStr (lit "xyzabc123"));
       r_confidence := Rat fixed_confidence; r_symptoms := [];
       r_precautions := []; r_description := None;
       r_faq_question := None; r_faq_answer := None |}.
Proof.
  apply (@unknown_disease_response ucd_excerpt plain_compiler integer_text
           reference_sklearn).
  - exact plain_compiler_plain.
  - reflexivity.
  - reflexivity.
  - exact sample_unknown.
Defined.

(** X7: every non-empty input gets an intent: the one the classifier gives,
    or, for a question that the shortcut resolves, a disease with a
    non-empty list of symptoms. *)
Theorem response_intent :
  forall (ucd : UnicodeCase) (pc : PatternCompiler) (pf : PyFloat)
         (sk : Sklearn) (user_input : pystr)
         (precautions_df symptoms_df faq_df augmented_df : option frame),
    user_input <> [] ->
    let response :=
      process_user_input user_input precautions_df symptoms_df faq_df
                         augmented_df in
    r_type response = Some (classify_input_type user_input) \/
    (classify_input_type user_input = Question /\
     r_type response = Some Disease /\ r_symptoms response <> []).
Proof.
  intros ucd pc pf sk ui p s f a Hne response. subst response.
  rewrite process_nonempty by exact Hne. cbv zeta.
  destruct (classify_input_type ui) eqn:Hc.
  - match goal with
    | |- context [question_path _ _ _ _ _ ?r] =>
        destruct (question_path_shape ui p s f a r) as [-> | (Ht & Hs & _)]
    end.
    + left. apply faq_fallback_keeps.
    + right. auto.
  - left. unfold symptoms_path.
    destruct (predict_disease_from_symptoms (map strip (split_on comma ui)) a)
      as [[[d sc] v]|]; [|reflexivity].
    apply fill_information_keeps.
  - left. unfold disease_path. apply fill_information_keeps.
Qed.

Lemma response_intent_witness :
  let response :=
    process_user_input (ucd := ucd_excerpt) (pc := plain_compiler)
      (pf := integer_text) (sk := reference_sklearn)
      (lit "signs of flu?") None None None (Some sample_augmented) in
  r_type response = Some (classify_input_type (ucd := ucd_excerpt) (lit "signs of flu?")) \/
  (classify_input_type (ucd := ucd_excerpt) (lit "signs of flu?") = Question /\
   r_type response = Some Disease /\ r_symptoms response <> []).
Proof.
  apply (response_intent ucd_excerpt plain_compiler integer_text
           reference_sklearn). discriminate.
Defined.

Example shortcut_escalates_after_of :
  process_user_input (ucd := ucd_excerpt) (pc := plain_compiler)
    (pf := integer_text) (sk := reference_sklearn)
    (lit "symptom of flu?") None None None (Some sample_augmented)
  = {| r_type := Some Disease; r_disease := Some (VStr (lit "flu"));
       r_confidence := Rat fixed_confidence; r_symptoms := [lit "fever"];
       r_precautions := []; r_description := None;
       r_faq_question := None; r_faq_answer := None |}.
Proof. vm_compute. reflexivity. Qed.

(** X8: a response whose intent is a question resolves no disease: no
    disease name, confidence 0, no symptoms, no precautions and no
    description. *)
Theorem question_response_has_no_disease :
  forall (ucd : UnicodeCase) (pc : PatternCompiler) (pf : PyFloat)
         (sk : Sklearn) (user_input : pystr)
         (precautions_df symptoms_df faq_df augmented_df : option frame),
    let response :=
      process_user_input user_input precautions_df symptoms_df faq_df
                         augmented_df in
    r_type response = Some Question ->
    r_disease response = None /\ r_confidence response = Rat 0 /\
    r_symptoms response = [] /\ r_precautions response = [] /\
    r_description response = None.
Proof.
  intros ucd pc pf sk ui p s f a response. subst response.
  destruct ui as [|c u]; [discriminate|].
  rewrite process_nonempty by discriminate. cbv zeta.
  set (ui := c :: u).
  destruct (classify_input_type ui).
  - match goal with
    | |- context [question_path _ _ _ _ _ ?r] =>
        destruct (question_path_shape ui p s f a r) as [-> | (Ht & _)];
          [destruct (faq_fallback_keeps ui f r) as (_ & Hd & Hc & Hs & Hp & He)|]
    end.
    + intros _. rewrite Hd, Hc, Hs, Hp, He. repeat split.
    + rewrite Ht. discriminate.
  - unfold symptoms_path.
    destruct (predict_disease_from_symptoms (map strip (split_on comma ui)) a)
      as [[[d sc] v]|]; [|discriminate].
    match goal with
    | |- context [fill_information ?d ?p ?s ?f ?a ?r] =>
        destruct (fill_information_keeps d p s f a r) as (Ht & _)
    end.
    rewrite Ht. discriminate.
  - unfold disease_path.
    match goal with
    | |- context [fill_information ?d ?p ?s ?f ?a ?r] =>
        destruct (fill_information_keeps d p s f a r) as (Ht & _)
    end.
    rewrite Ht. discriminate.
Qed.

Lemma question_response_has_no_disease_witness :
  let response :=
    process_user_input (ucd := ucd_excerpt) (pc := plain_compiler)
      (pf := integer_text) (sk := reference_sklearn)
      (lit "what is flu") (Some sample_precautions) (Some sample_symptoms)
      (Some sample_faq) (Some sample_augmented) in
  r_type response = Some Question /\
  r_faq_answer response = Some (VStr (lit "An infection")) /\
  r_disease response = None /\ r_confidence response = Rat 0 /\
  r_symptoms response = [] /\ r_precautions response = [] /\
  r_description response = None.
Proof.
  intros response.
  assert (Ht : r_type response = Some Question) by (vm_compute; reflexivity).
  split; [exact Ht|]. split; [vm_compute; reflexivity|].
  exact (question_response_has_no_disease ucd_excerpt plain_compiler integer_text
           reference_sklearn
           (lit "what is flu") (Some sample_precautions) (Some sample_symptoms)
           (Some sample_faq) (Some sample_augmented) Ht).
Defined.

(** X9: the FAQ fields are only filled on the question path: a response
    whose intent is not a question has neither an FAQ question nor an FAQ
    answer. *)
Theorem faq_fields_only_for_questions :
  forall (ucd : UnicodeCase) (pc : PatternCompiler) (pf : PyFloat)
         (sk : Sklearn) (user_input : pystr)
         (precautions_df symptoms_df faq_df augmented_df : option frame),
    let response :=
      process_user_input user_input precautions_df symptoms_df faq_df
                         augmented_df in
    r_type response <> Some Question ->
    r_faq_question response = None /\ r_faq_answer response = None.
Proof.
  intros ucd pc pf sk ui p s f a response. subst response.
  destruct ui as [|c u]; [split; reflexivity|].
  rewrite process_nonempty by discriminate. cbv zeta.
  set (ui := c :: u).
  destruct (classify_input_type ui).
  - match goal with
    | |- context [question_path _ _ _ _ _ ?r] =>
        destruct (question_path_shape ui p s f a r)
          as [-> | (_ & _ & Hq & Ha & _)];
          [destruct (faq_fallback_keeps ui f r) as (Ht & _)|]
    end.
    + rewrite Ht. intros H. exfalso. apply H. reflexivity.
    + intros _. rewrite Hq, Ha. split; reflexivity.
  - intros _. unfold symptoms_path.
    destruct (predict_disease_from_symptoms (map strip (split_on comma ui)) a)
      as [[[d sc] v]|]; [|split; reflexivity].
    match goal with
    | |- context [fill_information ?d ?p ?s ?f ?a ?r] =>
        destruct (fill_information_keeps d p s f a r) as (_ & _ & _ & Hq & Ha)
    end.
    rewrite Hq, Ha. split; reflexivity.
  - intros _. unfold disease_path.
    match goal with
    | |- context [fill_information ?d ?p ?s ?f ?a ?r] =>
        destruct (fill_information_keeps d p s f a r) as (_ & _ & _ & Hq & Ha)
    end.
    rewrite Hq, Ha. split; reflexivity.
Qed.

Lemma faq_fields_only_for_questions_witness :
  let response :=
    process_user_input (ucd := ucd_excerpt) (pc := plain_compiler)
      (pf := integer_text) (sk := reference_sklearn)
      (lit "fever, cough") (Some sample_precautions) (Some sample_symptoms)
      (Some sample_faq) (Some sample_augmented) in
  r_type response <> Some Question /\
  r_faq_question response = None /\ r_faq_answer response = None.
Proof.
  intros response.
  assert (Ht : r_type response <> Some Question) by (vm_compute; discriminate).
  split; [exact Ht|].
  exact (faq_fields_only_for_questions ucd_excerpt plain_compiler integer_text
           reference_sklearn
           (lit "fever, cough") (Some sample_precautions) (Some sample_symptoms)
           (Some sample_faq) (Some sample_augmented) Ht).
Defined.

Lemma symptoms_without_tables {ucd : UnicodeCase} (v : pyval) :
  get_disease_symptoms v None None = Ok [] \/
  get_disease_symptoms v None None = Raise.
Proof.
  unfold get_disease_symptoms. destruct (truthy v); simpl; [|auto].
  destruct (as_str v); simpl; auto.
Qed.

(** X10: with every table absent no input fails and nothing is looked up:
    the response has no symptoms, precautions, description or FAQ entry, and
    a disease only when the input itself is classified as a disease name. *)
Theorem response_without_tables :
  forall (ucd : UnicodeCase) (pc : PatternCompiler) (pf : PyFloat)
         (sk : Sklearn) (user_input : pystr),
    let response := process_user_input user_input None None None None in
    r_symptoms response = [] /\ r_precautions response = [] /\
    r_description response = None /\
    r_faq_question response = None /\ r_faq_answer response = None /\
    (r_disease response = None /\ r_confidence response = Rat 0 \/
     classify_input_type user_input = Disease /\
     r_type response = Some Disease /\
     r_disease response = Some (VStr user_input) /\
     r_confidence response = Rat fixed_confidence).
Proof.
  intros ucd pc pf sk ui response. subst response.
  destruct ui as [|c u]; [simpl; auto 10|].
  rewrite process_nonempty by discriminate. cbv zeta.
  set (ui := c :: u).
  destruct (classify_input_type ui) eqn:Hc.
  - unfold question_path.
    assert (Hf : forall r, faq_fallback ui None r = r) by reflexivity.
    destruct (potential_disease_of ui) as [pd|]; [|rewrite Hf; simpl; auto 10].
    destruct (contains (lit "symptom") (lower ui) || contains (lit "sign") (lower ui));
      [|rewrite Hf; simpl; auto 10].
    destruct (symptoms_without_tables (VStr pd)) as [-> | ->];
      [rewrite Hf|]; simpl; auto 10.
  - unfold symptoms_path. simpl. auto 10.
  - unfold disease_path, fill_information.
    destruct (symptoms_without_tables (VStr ui)) as [-> | ->]; simpl; auto 10.
Qed.

(** X11: when the row that the matcher picks has no usable disease name
    (the cell is NaN), the look-ups fail on it and the failure is caught: the
    response keeps that cell as disease and the score as confidence, and has
    no symptoms, precautions or description. *)
Theorem nameless_row_response :
  forall (ucd : UnicodeCase) (pc : PatternCompiler) (pf : PyFloat)
         (sk : Sklearn) (user_input : pystr)
         (precautions_df symptoms_df faq_df augmented_df : option frame)
         (score : F64.float) (vector : list F64.float),
    classify_input_type user_input = Symptoms ->
    predict_disease_from_symptoms (map strip (split_on comma user_input))
                                  augmented_df
    = Some (VNaN, score, vector) ->
    process_user_input user_input precautions_df symptoms_df faq_df augmented_df
    = {| r_type := Some Symptoms; r_disease := Some VNaN;
         r_confidence := Cos score; r_symptoms := [];
         r_precautions := []; r_description := None;
         r_faq_question := None; r_faq_answer := None |}.
Proof.
  intros ucd pc pf sk ui p s f a sc v Hc Hp.
  assert (Hne : ui <> []) by (intros ->; discriminate Hc).
  rewrite process_nonempty by exact Hne. rewrite Hc. cbv zeta.
  unfold symptoms_path. rewrite Hp. reflexivity.
Qed.

Lemma nameless_row_response_witness :
  process_user_input (ucd := ucd_excerpt) (pc := plain_compiler)
    (pf := integer_text) (sk := reference_sklearn)
    (lit "fever, cough") (Some sample_precautions) (Some sample_symptoms)
    (Some sample_faq) (Some sample_augmented_nameless)
  = {| r_type := Some Symptoms; r_disease := Some VNaN;
       r_confidence := Cos (S754_finite false 9007199254740990 (-53));
       r_symptoms := []; r_precautions := []; r_description := None;
       r_faq_question := None; r_faq_answer := None |}.
Proof.
  apply (@nameless_row_response ucd_excerpt plain_compiler integer_text
           reference_sklearn (lit "fever, cough")
           (Some sample_precautions) (Some sample_symptoms) (Some sample_faq)
           (Some sample_augmented_nameless)
           (S754_finite false 9007199254740990 (-53)) [F64.one; F64.one]).
  - reflexivity.
  - vm_compute. reflexivity.
Defined.

(** X12: no response lists more than four precautions. *)
Theorem response_precautions_at_most_four :
  forall (ucd : UnicodeCase) (pc : PatternCompiler) (pf : PyFloat)
         (sk : Sklearn) (user_input : pystr)
         (precautions_df symptoms_df faq_df augmented_df : option frame),
    length (r_precautions
              (process_user_input user_input precautions_df symptoms_df faq_df
                                  augmented_df)) <= 4.
Proof.
  intros ucd pc pf sk ui p s f a.
  destruct ui as [|c u]; [simpl; lia|].
  rewrite process_nonempty by discriminate. cbv zeta.
  set (ui := c :: u).
  assert (Hfill : forall d r, length (r_precautions r) <= 4 ->
            length (r_precautions (fill_information d p s f a r)) <= 4).
  { intros d r Hr.
    destruct (fill_information_precautions d p s f a r) as [-> | H];
      [exact Hr | exact (precautions_bound_any _ _ H)]. }
  destruct (classify_input_type ui).
  - match goal with
    | |- context [question_path _ _ _ _ _ ?r] =>
        destruct (question_path_shape ui p s f a r)
          as [-> | (_ & _ & _ & _ & d & Hd)];
          [destruct (faq_fallback_keeps ui f r) as (_ & _ & _ & _ & Hp & _)|]
    end.
    + rewrite Hp. simpl. lia.
    + exact (precautions_bound_any _ _ Hd).
  - unfold symptoms_path.
    destruct (predict_disease_from_symptoms (map strip (split_on comma ui)) a)
      as [[[d sc] v]|]; [|simpl; lia].
    apply Hfill. simpl. lia.
  - unfold disease_path. apply Hfill. simpl. lia.
Qed.

(** ** FAQ retriever, continued *)

Section ScanInvariant.
Variable A : Type.
Implicit Types (pre rest : list (A * option F64.float)) (bm : option A)
         (b : F64.float).

(** No score of the list is a NaN. *)
Let numbers rest : Prop :=
  forall x s, In (x, Some s) rest -> F64.is_nan s = false.

(** While the loop runs: the best score is not above the early exit, no row
    seen so far beats it, and the best match is the first row that holds
    it. *)
Let scan_state pre bm b : Prop :=
  F64.is_nan b = false /\
  F64.leb b early_exit = true /\
  (forall x s, In (x, Some s) pre -> F64.leb s b = true) /\
  match bm with
  | None => b = F64.zero
  | Some r =>
      exists i, nth_error pre i = Some (r, Some b) /\
                forall j x s, j < i -> nth_error pre j = Some (x, Some s) ->
                              F64.ltb s b = true
  end.

(** When the loop is over. *)
Let scan_result pre bm b : Prop :=
  F64.is_nan b = false /\
  (F64.leb b early_exit = true ->
   forall x s, In (x, Some s) pre -> F64.leb s b = true) /\
  match bm with
  | None => b = F64.zero
  | Some r =>
      exists i, nth_error pre i = Some (r, Some b) /\
                forall j x s, j < i -> nth_error pre j = Some (x, Some s) ->
                              F64.ltb s b = true /\ F64.leb s early_exit = true
  end.

Lemma scan_state_skip pre bm b (row : A * option F64.float) :
  scan_state pre bm b ->
  (forall s, snd row = Some s -> F64.leb s b = true) ->
  scan_state (pre ++ [row]) bm b.
Proof.
  intros (Hn & Hb & Hle & Hbm) Hrow. split; [exact Hn|]. split; [exact Hb|].
  split.
  - intros x s Hin. apply in_app_or in Hin. destruct Hin as [Hin | [E | []]].
    + exact (Hle x s Hin).
    + apply Hrow. rewrite E. reflexivity.
  - destruct bm as [r|]; [|exact Hbm].
    destruct Hbm as (i & Hi & Hlt).
    assert (Hlen : i < length pre) by (apply nth_error_Some; congruence).
    exists i. split; [rewrite nth_error_app1 by exact Hlen; exact Hi|].
    intros j x s Hj Hnth. rewrite nth_error_app1 in Hnth by lia.
    exact (Hlt j x s Hj Hnth).
Qed.

Lemma scan_state_update pre bm b (x : A) (s : F64.float) :
  scan_state pre bm b -> F64.ltb b s = true -> F64.leb s early_exit = true ->
  scan_state (pre ++ [(x, Some s)]) (Some x) s.
Proof.
  intros (Hn & Hb & Hle & _) Hs Hse.
  destruct (ltb_not_nan _ _ Hs) as [_ Hns].
  split; [exact Hns|]. split; [exact Hse|]. split.
  - intros x' s' Hin. apply in_app_or in Hin. destruct Hin as [Hin | [E | []]].
    + apply ltb_leb. exact (@leb_ltb_trans _ _ _ (Hle x' s' Hin) Hs).
    + injection E as _ Es. subst s'. apply leb_refl. exact Hns.
  - exists (length pre). split.
    + rewrite nth_error_app2, Nat.sub_diag by lia. reflexivity.
    + intros j x' s' Hj Hnth. rewrite nth_error_app1 in Hnth by exact Hj.
      apply nth_error_In in Hnth.
      exact (@leb_ltb_trans _ _ _ (Hle x' s' Hnth) Hs).
Qed.

Lemma faq_scan_invariant rest :
  forall pre bm b,
    numbers rest ->
    scan_state pre bm b ->
    scan_result (pre ++ rest) (fst (faq_scan rest bm b)) (snd (faq_scan rest bm b)).
Proof.
  induction rest as [|[x [s|]] rest IH]; intros pre bm b Hnum Hst.
  - simpl. rewrite app_nil_r. destruct Hst as (Hn & Hb & Hle & Hbm).
    split; [exact Hn|]. split; [intros _; exact Hle|].
    destruct bm as [r|]; [|exact Hbm].
    destruct Hbm as (i & Hi & Hlt). exists i. split; [exact Hi|].
    intros j x s Hj Hnth. split; [exact (Hlt j x s Hj Hnth)|].
    apply ltb_leb. exact (@ltb_leb_trans _ _ _ (Hlt j x s Hj Hnth) Hb).
  - assert (Hns : F64.is_nan s = false) by (apply (Hnum x); left; reflexivity).
    assert (Hnum' : numbers rest)
      by (intros x' s' Hin; apply (Hnum x'); right; exact Hin).
    replace (pre ++ (x, Some s) :: rest) with ((pre ++ [(x, Some s)]) ++ rest)
      by (rewrite <- app_assoc; reflexivity).
    simpl faq_scan. destruct (F64.ltb b s) eqn:Eb.
    + destruct (F64.ltb early_exit s) eqn:Ee.
      * simpl. destruct Hst as (Hn & Hb & Hle & _).
        split; [exact Hns|]. split.
        -- intros Hcontra. apply leb_not_ltb in Hcontra. congruence.
        -- exists (length pre). split.
           ++ rewrite <- app_assoc. simpl.
              rewrite nth_error_app2, Nat.sub_diag by lia. reflexivity.
           ++ intros j x' s' Hj Hnth. rewrite <- app_assoc in Hnth.
              rewrite nth_error_app1 in Hnth by exact Hj.
              apply nth_error_In in Hnth. specialize (Hle x' s' Hnth). split.
              ** exact (@leb_ltb_trans _ _ _ Hle Eb).
              ** exact (@leb_trans _ _ _ Hle Hb).
      * apply IH; [exact Hnum'|].
        apply (@scan_state_update pre bm b x s Hst Eb).
        apply not_ltb_leb; [exact Hns | reflexivity | exact Ee].
    + apply IH; [exact Hnum'|]. apply scan_state_skip; [exact Hst|].
      simpl. intros s' E. injection E as <-.
      apply not_ltb_leb; [exact Hns | apply Hst | exact Eb].
  - assert (Hnum' : numbers rest)
      by (intros x' s' Hin; apply (Hnum x'); right; exact Hin).
    replace (pre ++ (x, None) :: rest) with ((pre ++ [(x, None)]) ++ rest)
      by (rewrite <- app_assoc; reflexivity).
    simpl faq_scan. apply IH; [exact Hnum'|].
    apply scan_state_skip; [exact Hst|].
    simpl. discriminate.
Qed.

Lemma scan_state_initial : scan_state [] None F64.zero.
Proof.
  split; [reflexivity|]. split; [reflexivity|].
  split; [intros x s []|reflexivity].
Qed.

(** What the decision of the loop says about the scored rows. *)
Lemma faq_decide_some (scored : list (A * option F64.float)) (r : A) :
  numbers scored ->
  faq_decide scored = Some r ->
  exists i M,
    nth_error scored i = Some (r, Some M) /\ F64.ltb threshold M = true /\
    (forall j x s, j < i -> nth_error scored j = Some (x, Some s) ->
                   F64.ltb s M = true /\ F64.leb s early_exit = true) /\
    (F64.leb M early_exit = true ->
     forall x s, In (x, Some s) scored -> F64.leb s M = true).
Proof.
  intros Hnum. unfold faq_decide.
  pose proof (@faq_scan_invariant scored [] None F64.zero Hnum
                scan_state_initial) as Hres.
  simpl in Hres.
  destruct (faq_scan scored None F64.zero) as [bm b]. simpl in Hres.
  destruct (F64.ltb threshold b) eqn:Et; [|discriminate].
  intros ->. destruct Hres as (_ & Hall & i & Hi & Hlt).
  exists i, b. auto.
Qed.

Lemma faq_decide_none (scored : list (A * option F64.float)) :
  numbers scored ->
  (faq_decide scored = None <->
   forall x s, In (x, Some s) scored -> F64.leb s threshold = true).
Proof.
  intros Hnum. unfold faq_decide.
  pose proof (@faq_scan_invariant scored [] None F64.zero Hnum
                scan_state_initial) as Hres.
  simpl in Hres.
  destruct (faq_scan scored None F64.zero) as [bm b]. simpl in Hres.
  destruct Hres as (Hn & Hall & Hbm).
  destruct (F64.ltb threshold b) eqn:Et.
  - destruct bm as [r|].
    + split; [discriminate|]. intros Hle. exfalso.
      destruct Hbm as (i & Hi & _). apply nth_error_In in Hi.
      specialize (Hle r b Hi). apply leb_not_ltb in Hle. congruence.
    + subst b. discriminate Et.
  - assert (Hbt : F64.leb b threshold = true)
      by (apply not_ltb_leb; [exact Hn | reflexivity | exact Et]).
    split; [|reflexivity]. intros _ x s Hin.
    assert (Hbe : F64.leb b early_exit = true)
      by (apply (@leb_trans _ threshold _ Hbt); reflexivity).
    exact (@leb_trans _ _ _ (Hall Hbe x s Hin) Hbt).
Qed.

End ScanInvariant.

Lemma nth_error_combine_seq_some (A : Type) (l : list A) :
  forall a n i x,
    length l <= n -> nth_error l i = Some x ->
    nth_error (combine (seq a n) l) i = Some (a + i, x).
Proof.
  induction l as [|y l IH]; intros a n i x Hn Hi; [destruct i; discriminate Hi|].
  destruct n as [|n]; [simpl in Hn; lia|].
  destruct i as [|i]; simpl in *.
  - injection Hi as <-. f_equal. f_equal. lia.
  - rewrite (IH (S a) n i x) by (try lia; exact Hi). f_equal. f_equal. lia.
Qed.

Lemma filter_all (A : Type) (f : A -> bool) (l : list A) :
  (forall x, In x l -> f x = true) -> filter f l = l.
Proof.
  induction l as [|x l IH]; intros H; simpl; [reflexivity|].
  rewrite (H x) by (left; reflexivity). f_equal. apply IH.
  intros; apply H; right; assumption.
Qed.

(** The scores of the loop are numbers that are not negative. *)

Lemma term_boosts_invariant (P : F64.float -> Prop) (test : pystr -> bool)
      (terms : list pystr) :
  (forall x, P x -> P (F64.add x (F64.decimal 2 10))) ->
  forall score, P score ->
    P (fold_left (fun sc term =>
                    if test term then F64.add sc (F64.decimal 2 10) else sc)
                 terms score).
Proof.
  intros Hstep. induction terms as [|t terms IH]; intros score Hs; simpl.
  - exact Hs.
  - apply IH. destruct (test t); [apply Hstep|]; exact Hs.
Qed.

Lemma faq_row_score_nonneg (is_symptom_question : bool)
  (question_words disease_terms : list pystr) (faq_question : pystr) :
  nonneg (faq_row_score is_symptom_question question_words disease_terms
                        faq_question).
Proof.
  unfold faq_row_score. apply term_boosts_invariant.
  - intros x Hx. apply add_nonneg; [exact Hx | exact I].
  - assert (H0 : nonneg (if is_symptom_question &&
                            (contains (lit "symptom") faq_question
                             || contains (lit "sign") faq_question)
                         then F64.add F64.zero (F64.decimal 3 10)
                         else F64.zero)).
    { destruct (_ && _); exact I. }
    destruct question_words as [|w ws]; [exact H0|].
    destruct (dedup (split faq_question)) as [|v vs]; [exact H0|].
    apply add_nonneg; [exact H0|].
    apply truediv_nonneg. simpl length. lia.
Qed.

(** A question of the table that has the very words of the input scores at
    least 1. *)
Lemma faq_row_score_verbatim (is_symptom_question : bool)
  (question_words disease_terms : list pystr) (faq_question : pystr) :
  question_words = dedup (split faq_question) -> question_words <> [] ->
  at_least_one (faq_row_score is_symptom_question question_words disease_terms
                              faq_question).
Proof.
  intros Hw Hne. unfold faq_row_score. rewrite <- Hw.
  apply term_boosts_invariant; [exact add_two_tenths_at_least_one|].
  destruct question_words as [|w ws]; [contradiction|].
  rewrite filter_all by (intros x Hx; apply mem_In; exact Hx).
  rewrite truediv_self by (simpl length; lia).
  destruct (is_symptom_question &&
            (contains (lit "symptom") faq_question
             || contains (lit "sign") faq_question));
    vm_compute; split; intros H; discriminate H.
Qed.

Lemma faq_scored_numbers {ucd : UnicodeCase} (question : pystr) (df : frame)
      scored :
  faq_scored question df = Ok scored ->
  forall x s, In (x, Some s) scored -> F64.is_nan s = false.
Proof.
  unfold faq_scored. intros H x s Hin.
  destruct (rows df) as [|r0 rs]; [apply Ok_inj in H; subst; destruct Hin|].
  destruct (col_index df (lit "question")) as [j|]; unfold bind in H;
    [|discriminate H].
  apply Ok_inj in H. subst scored.
  apply in_map_iff in Hin. destruct Hin as (ir & E & _).
  injection E as _ E.
  destruct (faq_question_of (cell (snd ir) j)); [discriminate E|].
  injection E as <-. apply nonneg_not_nan, faq_row_score_nonneg.
Qed.

Lemma split_nonempty (s : pystr) : split s <> [] -> s <> [].
Proof. intros H ->. apply H. reflexivity. Qed.

Lemma dedup_nonempty (l : list pystr) : l <> [] -> dedup l <> [].
Proof.
  induction l as [|x l IH]; [contradiction|]. intros _. simpl.
  destruct (mem x l) eqn:E; [|discriminate].
  apply IH. intros ->. discriminate E.
Qed.

(** X13: whatever row [find_question_answer] returns scores above the
    threshold 0.4 and strictly above every earlier row, none of which is
    above 0.9; and unless its own score is above 0.9, no row of the table
    scores higher.  The scores are the floats that the loop computes. *)
Theorem faq_answer_is_sound :
  forall (ucd : UnicodeCase) (question : pystr) (faq_df : frame)
         scored (r : nat * row),
    faq_scored question faq_df = Ok scored ->
    find_question_answer_at question (Some faq_df) = Ok (Some r) ->
    exists M,
      nth_error scored (fst r) = Some (r, Some M) /\
      nth_error (rows faq_df) (fst r) = Some (snd r) /\
      F64.ltb threshold M = true /\
      (forall j x s, j < fst r -> nth_error scored j = Some (x, Some s) ->
                     F64.ltb s M = true /\ F64.leb s early_exit = true) /\
      (F64.leb M early_exit = true ->
       forall x s, In (x, Some s) scored -> F64.leb s M = true).
Proof.
  intros ucd question df scored r Hsc Hf.
  unfold find_question_answer_at in Hf.
  destruct (frame_empty df); [discriminate Hf|].
  rewrite Hsc in Hf. simpl in Hf. apply Ok_inj in Hf.
  destruct (faq_decide_some (faq_scored_numbers _ _ Hsc) Hf)
    as (i & M & Hi & HM & Hpre & Hall).
  destruct r as [k r].
  destruct (faq_scored_positions _ _ _ Hsc Hi) as [-> Hrow].
  exists M. simpl. auto.
Qed.

Lemma faq_answer_is_sound_witness :
  exists M,
    nth_error (try_except (faq_scored (ucd := ucd_excerpt)
                             (lit "fever cough chill") sample_faq_exit) []) 0
    = Some ((0, [VStr (lit "fever cough"); VStr (lit "answer")]), Some M) /\
    F64.ltb threshold M = true.
Proof.
  assert (Hs : faq_scored (ucd := ucd_excerpt) (lit "fever cough chill")
                 sample_faq_exit
               = Ok (try_except (faq_scored (ucd := ucd_excerpt)
                                   (lit "fever cough chill") sample_faq_exit) []))
    by (vm_compute; reflexivity).
  assert (Hf : find_question_answer_at (ucd := ucd_excerpt)
                 (lit "fever cough chill") (Some sample_faq_exit)
               = Ok (Some (0, [VStr (lit "fever cough"); VStr (lit "answer")])))
    by (vm_compute; reflexivity).
  destruct (faq_answer_is_sound ucd_excerpt (lit "fever cough chill")
              sample_faq_exit Hs Hf) as (M & H1 & _ & H2 & _).
  exists M. split; [exact H1 | exact H2].
Defined.

(** X14: [find_question_answer] finds no row exactly when no row scores
    above the threshold: a score of exactly 0.4 is not enough. *)
Theorem faq_no_answer_iff :
  forall (ucd : UnicodeCase) (question : pystr) (faq_df : frame) scored,
    faq_scored question faq_df = Ok scored ->
    (find_question_answer question (Some faq_df) = Ok None <->
     forall x s, In (x, Some s) scored -> F64.leb s threshold = true).
Proof.
  intros ucd question df scored Hsc.
  unfold find_question_answer, find_question_answer_at.
  destruct (frame_empty df) eqn:Ee.
  - simpl. split; [intros _|reflexivity].
    assert (scored = []).
    { unfold faq_scored, frame_empty, col_index in *.
      destruct (rows df) as [|r0 rs]; [apply Ok_inj in Hsc; auto|].
      destruct (columns df) as [|c cs]; [discriminate Hsc | discriminate Ee]. }
    subst scored. intros x s [].
  - rewrite Hsc. simpl.
    rewrite <- (faq_decide_none (faq_scored_numbers _ _ Hsc)).
    destruct (faq_decide scored); simpl; split; intros H;
      first [reflexivity | discriminate H].
Qed.

Lemma faq_no_answer_iff_witness :
  find_question_answer (ucd := ucd_excerpt) (lit "zzz") (Some sample_faq_low)
  = Ok None <->
  forall x s,
    In (x, Some s)
       (try_except (faq_scored (ucd := ucd_excerpt) (lit "zzz") sample_faq_low) []) ->
    F64.leb s threshold = true.
Proof.
  apply (faq_no_answer_iff ucd_excerpt (lit "zzz") sample_faq_low).
  vm_compute. reflexivity.
Defined.

(** X15: a question that stands in the FAQ table word for word, up to case
    and surrounding white space, always gets an answer. *)
Theorem verbatim_question_is_answered :
  forall (ucd : UnicodeCase) (question : pystr) (faq_df : frame)
         (j : nat) (r : row) (q : pystr),
    index_of (lit "question") (columns faq_df) = Some j ->
    In r (rows faq_df) ->
    cell r j = VStr q ->
    lower q = strip (lower question) ->
    split (strip (lower question)) <> [] ->
    exists answer_row,
      find_question_answer question (Some faq_df) = Ok (Some answer_row).
Proof.
  intros ucd question df j r q Hj Hr Hc Hq Hw.
  assert (Hrows : rows df <> []) by (intros E; rewrite E in Hr; destruct Hr).
  assert (Hsc : exists scored,
             faq_scored question df = Ok scored /\
             exists i s, In ((i, r), Some s) scored /\ at_least_one s).
  { unfold faq_scored, col_index. rewrite Hj.
    destruct (rows df) as [|r0 rs] eqn:Er; [contradiction|].
    rewrite <- Er in *. unfold bind. eexists. split; [reflexivity|].
    destruct (In_nth_error _ _ Hr) as [i Hi].
    exists i. eexists. split.
    - apply in_map_iff. exists (i, r). split.
      + unfold faq_question_of. simpl snd. rewrite Hc. simpl notna. cbv iota.
        simpl py_str. rewrite Hq.
        destruct (strip (lower question)) as [|c u] eqn:Es;
          [exfalso; apply Hw; reflexivity|].
        rewrite <- Es. reflexivity.
      + apply (nth_error_In _ i).
        rewrite (nth_error_combine_seq_some _ 0 i (x := r))
          by first [exact Hi | apply Nat.le_refl].
        reflexivity.
    - apply faq_row_score_verbatim; [reflexivity|].
      apply dedup_nonempty. exact Hw. }
  destruct Hsc as (scored & Hsc & i & s & Hin & Hs).
  assert (He : frame_empty df = false).
  { apply (faq_scored_not_empty _ _ Hsc). intros E. rewrite E in Hin. destruct Hin. }
  unfold find_question_answer, find_question_answer_at.
  rewrite He, Hsc. simpl.
  destruct (faq_decide scored) as [row|] eqn:Ed; [simpl; eauto|].
  exfalso. rewrite (faq_decide_none (faq_scored_numbers _ _ Hsc)) in Ed.
  specialize (Ed _ _ Hin). apply leb_not_ltb in Ed.
  pose proof (@at_least_one_above_threshold s Hs) as Hlt.
  unfold threshold in Ed. congruence.
Qed.

Lemma verbatim_question_is_answered_witness :
  exists answer_row,
    find_question_answer (ucd := ucd_excerpt) (lit " What is ASTHMA ")
                         (Some sample_faq)
    = Ok (Some answer_row).
Proof.
  apply (@verbatim_question_is_answered ucd_excerpt (lit " What is ASTHMA ")
           sample_faq 0
           [VStr (lit "What is asthma"); VStr (lit "A lung condition");
            VStr (lit "what is asthma")]
           (lit "What is asthma")).
  - reflexivity.
  - right. left. reflexivity.
  - reflexivity.
  - reflexivity.
  - vm_compute. discriminate.
Defined.

(** X16: an FAQ table that has rows but no "question" column makes the
    search raise a KeyError; the assembler catches it, and every question
    that the shortcut does not turn into a disease with symptoms keeps the
    bare response of a question. *)
Theorem faq_without_question_column :
  forall (ucd : UnicodeCase) (pc : PatternCompiler) (pf : PyFloat)
         (sk : Sklearn) (user_input : pystr)
         (precautions_df symptoms_df augmented_df : option frame) (faq_df : frame),
    user_input <> [] ->
    classify_input_type user_input = Question ->
    rows faq_df <> [] -> columns faq_df <> [] ->
    index_of (lit "question") (columns faq_df) = None ->
    let response :=
      process_user_input user_input precautions_df symptoms_df (Some faq_df)
                         augmented_df in
    find_question_answer user_input (Some faq_df) = Raise /\
    (response = set_type (Some Question) initial_response \/
     r_type response = Some Disease /\ r_symptoms response <> []).
Proof.
  intros ucd pc pf sk ui p s a df Hne Hc Hr Hcols Hq response.
  assert (Hf : find_question_answer ui (Some df) = Raise).
  { assert (He : frame_empty df = false).
    { unfold frame_empty. destruct (columns df); [contradiction|].
      destruct (rows df); [contradiction | reflexivity]. }
    unfold find_question_answer, find_question_answer_at. rewrite He.
    unfold faq_scored, col_index. rewrite Hq.
    destruct (rows df); [contradiction | reflexivity]. }
  split; [exact Hf|]. subst response.
  rewrite process_nonempty by exact Hne. rewrite Hc. cbv zeta.
  match goal with
  | |- context [question_path _ _ _ _ _ ?r] =>
      destruct (question_path_shape ui p s (Some df) a r) as [E | (Ht & Hs & _)]
  end.
  - left. rewrite E. unfold faq_fallback. rewrite Hf. reflexivity.
  - right. split; assumption.
Qed.

Lemma faq_without_question_column_witness :
  let response :=
    process_user_input (ucd := ucd_excerpt) (pc := plain_compiler)
      (pf := integer_text) (sk := reference_sklearn)
      (lit "what is the cause of flu") None None (Some sample_faq_headless)
      None in
  find_question_answer (ucd := ucd_excerpt) (lit "what is the cause of flu")
                       (Some sample_faq_headless) = Raise /\
  (response = set_type (Some Question) initial_response \/
   r_type response = Some Disease /\ r_symptoms response <> []).
Proof.
  apply (@faq_without_question_column ucd_excerpt plain_compiler integer_text
           reference_sklearn
           (lit "what is the cause of flu") None None None sample_faq_headless).
  - discriminate.
  - reflexivity.
  - discriminate.
  - discriminate.
  - reflexivity.
Defined.

(** ** Symptom matcher, continued *)

Section MatcherMore.
Context {ucd : UnicodeCase} {pf : PyFloat} {sk : Sklearn}.

Lemma marks_unmatched (cols : list pystr) (k : nat) (symptom : pystr) :
  mem (symptom_clean_of symptom) cols = false -> marks cols k symptom = false.
Proof. intros H. unfold marks. rewrite H. reflexivity. Qed.

Lemma query_vector_by_marks (cols l l' : list pystr) :
  (forall k, existsb (marks cols k) l = existsb (marks cols k) l') ->
  query_vector_of cols l = query_vector_of cols l'.
Proof.
  intros H. apply (nth_ext _ _ 0%Z 0%Z).
  - rewrite !query_vector_length. reflexivity.
  - intros k _. rewrite !query_vector_nth, H. reflexivity.
Qed.

Lemma predict_by_query_vector (l l' : list pystr) (df : frame) :
  query_vector_of (symptom_columns_of df) l
  = query_vector_of (symptom_columns_of df) l' ->
  predict_disease_from_symptoms l (Some df)
  = predict_disease_from_symptoms l' (Some df).
Proof.
  intros H. unfold predict_disease_from_symptoms, predict_body.
  rewrite H. reflexivity.
Qed.

Lemma symptom_clean_upper (symptom : pystr) :
  forallb is_ascii symptom = true ->
  symptom_clean_of (upper symptom) = symptom_clean_of symptom.
Proof.
  intros H. unfold symptom_clean_of. rewrite lower_upper_ascii by exact H.
  reflexivity.
Qed.

End MatcherMore.

(** X17: a symptom that is no column of the matrix is dropped silently:
    wherever it stands in the list, the result is the one without it. *)
Theorem unknown_symptom_is_dropped :
  forall (ucd : UnicodeCase) (pf : PyFloat) (sk : Sklearn) (augmented_df : frame)
         (before after : list pystr) (symptom : pystr),
    mem (symptom_clean_of symptom) (symptom_columns_of augmented_df) = false ->
    predict_disease_from_symptoms (before ++ symptom :: after) (Some augmented_df)
    = predict_disease_from_symptoms (before ++ after) (Some augmented_df).
Proof.
  intros ucd pf sk df l1 l2 u Hu. apply predict_by_query_vector.
  apply query_vector_by_marks. intros k.
  rewrite !existsb_app. simpl. rewrite (marks_unmatched _ k _ Hu). reflexivity.
Qed.

Lemma unknown_symptom_is_dropped_witness :
  predict_disease_from_symptoms (ucd := ucd_excerpt) (pf := integer_text)
    (sk := reference_sklearn)
    ([lit "fever"] ++ lit "itchy elbow" :: [lit "excessive thirst"])
    (Some sample_augmented)
  = predict_disease_from_symptoms (ucd := ucd_excerpt) (pf := integer_text)
    (sk := reference_sklearn)
      ([lit "fever"] ++ [lit "excessive thirst"]) (Some sample_augmented).
Proof.
  apply (@unknown_symptom_is_dropped ucd_excerpt integer_text reference_sklearn
           sample_augmented).
  reflexivity.
Defined.

(** X18: symptoms are matched without regard to ASCII case: writing every
    symptom of an ASCII list in upper case gives the same result. *)
Theorem symptoms_match_any_case :
  forall (ucd : UnicodeCase) (pf : PyFloat) (sk : Sklearn) (augmented_df : option frame)
         (symptoms_list : list pystr),
    Forall (fun symptom => forallb is_ascii symptom = true) symptoms_list ->
    predict_disease_from_symptoms (map upper symptoms_list) augmented_df
    = predict_disease_from_symptoms symptoms_list augmented_df.
Proof.
  intros ucd pf sk [df|] l Hl; [|reflexivity].
  apply predict_by_query_vector. apply query_vector_by_marks. intros k.
  induction Hl as [|s l Hs _ IH]; [reflexivity|].
  simpl. rewrite IH. unfold marks at 1 3.
  rewrite symptom_clean_upper by exact Hs. reflexivity.
Qed.

Lemma symptoms_match_any_case_witness :
  predict_disease_from_symptoms (ucd := ucd_excerpt) (pf := integer_text)
    (sk := reference_sklearn)
    (map (upper (ucd := ucd_excerpt)) [lit "Excessive Thirst"; lit "cough"])
    (Some sample_augmented)
  = predict_disease_from_symptoms (ucd := ucd_excerpt) (pf := integer_text)
    (sk := reference_sklearn)
      [lit "Excessive Thirst"; lit "cough"] (Some sample_augmented).
Proof.
  apply (symptoms_match_any_case ucd_excerpt integer_text reference_sklearn
           (Some sample_augmented)).
  repeat constructor.
Defined.

Lemma not_all_finite (M : list (list F64.float)) (y : list F64.float)
      (x : F64.float) :
  In y M -> In x y -> F64.is_finite x = false ->
  forallb (forallb F64.is_finite) M = false.
Proof.
  intros Hy Hx Hnf.
  destruct (forallb (forallb F64.is_finite) M) eqn:E; [|reflexivity].
  rewrite forallb_forall in E. specialize (E y Hy).
  rewrite forallb_forall in E. specialize (E x Hx). congruence.
Qed.

(** X19: one cell under a symptom column that is missing (NaN), or that is
    a text in which [float()] reads no number, is enough for the matcher to
    give no result, whatever the symptoms are. *)
Theorem malformed_matrix_gives_no_result :
  forall (ucd : UnicodeCase) (pf : PyFloat) (sk : Sklearn)
         (symptoms_list : list pystr) (augmented_df : frame)
         (r : row) (col : pystr) (j : nat),
    In r (rows augmented_df) ->
    In col (symptom_columns_of augmented_df) ->
    index_of col (columns augmented_df) = Some j ->
    (cell r j = VNaN \/
     exists text, cell r j = VStr text /\ float_of_text text = None) ->
    predict_disease_from_symptoms symptoms_list (Some augmented_df) = None.
Proof.
  intros ucd pf sk l df r col j Hr Hcol Hj Hcell.
  unfold predict_disease_from_symptoms, predict_body.
  destruct (disease_matrix_of df (symptom_columns_of df)) as [M|] eqn:EM;
    [|reflexivity].
  unfold bind at 1.
  assert (Hbad : exists y, In y M /\ In S754_nan y).
  { unfold disease_matrix_of in EM. apply sequence_ok_inv in EM.
    apply In_nth_error in Hr. destruct Hr as [i Hi].
    assert (Hrow : exists rowc, nth_error
               (map (fun r0 => sequence
                       (map (fun col0 => j0 <- col_index df col0 ;;
                                         astype_float (cell r0 j0))
                            (symptom_columns_of df))) (rows df)) i = Some rowc /\
               rowc = sequence
                        (map (fun col0 => j0 <- col_index df col0 ;;
                                          astype_float (cell r j0))
                             (symptom_columns_of df))).
    { eexists. split; [|reflexivity]. rewrite nth_error_map, Hi. reflexivity. }
    destruct Hrow as (rowc & Hn & Erow).
    destruct (Forall2_nth_left EM i Hn) as (y & Hy & Hok).
    exists y. split; [exact (nth_error_In _ _ Hy)|].
    rewrite Erow in Hok. apply sequence_ok_inv in Hok.
    apply In_nth_error in Hcol. destruct Hcol as [k Hk].
    assert (Hc : nth_error
               (map (fun col0 => j0 <- col_index df col0 ;;
                                 astype_float (cell r j0))
                    (symptom_columns_of df)) k
             = Some (astype_float (cell r j))).
    { rewrite nth_error_map, Hk. simpl. unfold col_index. rewrite Hj.
      reflexivity. }
    destruct (Forall2_nth_left Hok k Hc) as (z & Hz & Hcz).
    destruct Hcell as [E | (text & E & Et)]; rewrite E in Hcz; simpl in Hcz.
    - apply Ok_inj in Hcz. subst z. exact (nth_error_In _ _ Hz).
    - rewrite Et in Hcz. discriminate Hcz. }
  destruct Hbad as (y & Hy & Hnan).
  unfold cosine_similarity.
  rewrite (@not_all_finite M y S754_nan Hy Hnan eq_refl), andb_false_r.
  reflexivity.
Qed.

Lemma malformed_matrix_gives_no_result_witness :
  predict_disease_from_symptoms (ucd := ucd_excerpt) (pf := integer_text)
    (sk := reference_sklearn) [lit "fever"; lit "cough"]
    (Some sample_augmented_gap) = None.
Proof.
  apply (@malformed_matrix_gives_no_result ucd_excerpt integer_text
           reference_sklearn [lit "fever"; lit "cough"]
           sample_augmented_gap
           [VStr (lit "Cold"); VNum 0; VNaN] (lit "cough") 2).
  - right. left. reflexivity.
  - right. left. reflexivity.
  - reflexivity.
  - left. reflexivity.
Defined.

(** ** Intent classifier, continued *)

Lemma lstrip_app_blank (ws s : pystr) :
  forallb is_space ws = true -> lstrip (ws ++ s) = lstrip s.
Proof.
  induction ws as [|c ws IH]; simpl; [reflexivity|].
  rewrite andb_true_iff. intros [Hc Hws]. rewrite Hc. apply IH, Hws.
Qed.

Lemma lstrip_app (s t : pystr) :
  lstrip (s ++ t) = if forallb is_space s then lstrip t else lstrip s ++ t.
Proof.
  induction s as [|c s IH]; simpl; [reflexivity|].
  destruct (is_space c); simpl; [exact IH | reflexivity].
Qed.

Lemma forallb_rev (A : Type) (f : A -> bool) (l : list A) :
  forallb f (rev l) = forallb f l.
Proof.
  induction l as [|x l IH]; simpl; [reflexivity|].
  rewrite forallb_app, IH. simpl. rewrite andb_true_r. apply andb_comm.
Qed.

Lemma rstrip_app_blank (s ws : pystr) :
  forallb is_space ws = true -> rstrip (s ++ ws) = rstrip s.
Proof.
  intros H. unfold rstrip. rewrite rev_app_distr.
  rewrite lstrip_app_blank by (rewrite forallb_rev; exact H). reflexivity.
Qed.

(** White space around a text does not change what [strip] keeps. *)
Lemma strip_padded (ws1 s ws2 : pystr) :
  forallb is_space ws1 = true -> forallb is_space ws2 = true ->
  strip (ws1 ++ s ++ ws2) = strip s.
Proof.
  intros H1 H2. unfold strip. rewrite lstrip_app_blank by exact H1.
  rewrite lstrip_app. destruct (forallb is_space s) eqn:Es.
  - rewrite (lstrip_blank _ H2), (lstrip_blank _ Es). reflexivity.
  - apply rstrip_app_blank. exact H2.
Qed.

Lemma split_from_blank (cur ws : pystr) :
  forallb is_space ws = true ->
  split_from cur ws = match cur with [] => [] | _ => [rev cur] end.
Proof.
  revert cur. induction ws as [|c ws IH]; intros cur; simpl; [reflexivity|].
  rewrite andb_true_iff. intros [Hc Hws]. rewrite Hc.
  destruct cur; rewrite (IH [] Hws); reflexivity.
Qed.

Lemma split_from_app_blank (s ws cur : pystr) :
  forallb is_space ws = true ->
  split_from cur (s ++ ws) = split_from cur s.
Proof.
  intros H. revert cur. induction s as [|c s IH]; intros cur; simpl.
  - apply split_from_blank. exact H.
  - destruct (is_space c); [destruct cur|]; rewrite ?IH; reflexivity.
Qed.

(** White space around a text does not change its words. *)
Lemma split_padded (ws1 s ws2 : pystr) :
  forallb is_space ws1 = true -> forallb is_space ws2 = true ->
  split (ws1 ++ s ++ ws2) = split s.
Proof.
  intros H1 H2. unfold split.
  induction ws1 as [|c ws IH]; simpl.
  - apply split_from_app_blank. exact H2.
  - simpl in H1. apply andb_true_iff in H1. destruct H1 as [Hc Hws].
    rewrite Hc. apply IH. exact Hws.
Qed.

Lemma has_char_padded (x : char) (ws1 s ws2 : pystr) :
  (33 <= x <= 132)%N ->
  forallb is_space ws1 = true -> forallb is_space ws2 = true ->
  has_char x (ws1 ++ s ++ ws2) = has_char x s.
Proof.
  intros Hx H1 H2. unfold has_char. rewrite !existsb_app.
  fold (has_char x ws1). fold (has_char x ws2).
  rewrite !has_char_blank by assumption. rewrite orb_false_r. reflexivity.
Qed.

Lemma classify_unfold {ucd : UnicodeCase} (s : pystr) :
  s <> [] ->
  classify_input_type s
  = if has_char qmark s || is_question s then Question
    else if has_char comma s && ((length (split s) <=? 5) && negb (is_question s))
         then Symptoms
         else if negb (is_question s) && (length (split s) <=? 3)
              then Disease else Question.
Proof. destruct s; [contradiction | reflexivity]. Qed.

(** X22: ASCII white space before and after a non-empty ASCII input does
    not change its intent. *)
Theorem classify_ignores_padding :
  forall (ucd : UnicodeCase) (before user_input after : pystr),
    user_input <> [] ->
    forallb is_ascii user_input = true ->
    forallb (fun c => is_space c && is_ascii c) before = true ->
    forallb (fun c => is_space c && is_ascii c) after = true ->
    classify_input_type (before ++ user_input ++ after)
    = classify_input_type user_input.
Proof.
  intros ucd ws1 s ws2 Hne Hs H1 H2.
  assert (Hsplit : forall ws, forallb (fun c => is_space c && is_ascii c) ws = true ->
                     forallb is_space ws = true /\ forallb is_ascii ws = true).
  { intros ws H. rewrite !forallb_forall in *.
    split; intros c Hc; specialize (H c Hc); apply andb_true_iff in H; tauto. }
  destruct (Hsplit _ H1) as [Hsp1 Has1]. destruct (Hsplit _ H2) as [Hsp2 Has2].
  assert (Hpad : ws1 ++ s ++ ws2 <> []).
  { destruct ws1; [destruct s; [contradiction | discriminate] | discriminate]. }
  rewrite !classify_unfold by assumption.
  assert (Hq : is_question (ws1 ++ s ++ ws2) = is_question s).
  { unfold is_question.
    rewrite !lower_ascii
      by (rewrite ?forallb_app, ?Has1, ?Hs, ?Has2; reflexivity).
    rewrite !map_app.
    rewrite (ascii_lower_blank _ Hsp1), (ascii_lower_blank _ Hsp2).
    rewrite strip_padded by assumption. reflexivity. }
  rewrite Hq, split_padded by assumption.
  rewrite !has_char_padded by (try assumption; unfold qmark, comma; lia).
  reflexivity.
Qed.

Lemma classify_ignores_padding_witness :
  classify_input_type (ucd := ucd_excerpt)
    (lit "  " ++ lit "fever, cough" ++ lit " ")
  = classify_input_type (ucd := ucd_excerpt) (lit "fever, cough").
Proof.
  apply (@classify_ignores_padding ucd_excerpt (lit "  ") (lit "fever, cough")
           (lit " ")).
  - discriminate.
  - reflexivity.
  - reflexivity.
  - reflexivity.
Defined.

(** X23: the decision table of the classifier.  An input is a symptom list
    exactly when it has a comma, at most five words, no question mark and no
    question pattern; it is a disease name exactly when it is not empty and
    has at most three words, no comma, no question mark and no question
    pattern; every other input is a question. *)
Theorem classify_decision_table :
  forall (ucd : UnicodeCase) (user_input : pystr),
    (classify_input_type user_input = Symptoms <->
     has_char comma user_input = true /\ length (split user_input) <= 5 /\
     has_char qmark user_input = false /\ is_question user_input = false) /\
    (classify_input_type user_input = Disease <->
     user_input <> [] /\ length (split user_input) <= 3 /\
     has_char comma user_input = false /\
     has_char qmark user_input = false /\ is_question user_input = false).
Proof.
  intros ucd s. destruct s as [|c u].
  - split; split; try discriminate.
    + intros (H & _). discriminate H.
    + intros (H & _). contradiction.
  - set (s := c :: u). rewrite classify_unfold by discriminate.
    rewrite <- !Nat.leb_le.
    assert (Himp : (length (split s) <=? 3) = true ->
                   (length (split s) <=? 5) = true)
      by (rewrite !Nat.leb_le; lia).
    assert (Hs : s <> []) by discriminate.
    destruct (has_char qmark s), (is_question s), (has_char comma s),
      (length (split s) <=? 5), (length (split s) <=? 3); simpl;
      intuition (try discriminate; try congruence).
Qed.

(** ** Cleaning and preprocessing *)

Lemma cell_set_cell_same (j : nat) (v : pyval) (r : row) :
  cell (set_cell j v r) j = v.
Proof.
  revert r. induction j as [|j IH]; intros [|x r]; simpl; try reflexivity;
    apply IH.
Qed.

Lemma cell_set_cell_other (j k : nat) (v : pyval) (r : row) :
  k <> j -> cell (set_cell j v r) k = cell r k.
Proof.
  unfold cell. revert k r. induction j as [|j IH]; intros k r Hk.
  - destruct k as [|k]; [contradiction|]. destruct r; simpl; [destruct k|]; reflexivity.
  - destruct k as [|k], r as [|x r]; simpl; try reflexivity.
    + rewrite IH by lia. destruct k; reflexivity.
    + apply IH. lia.
Qed.

Lemma index_of_app_new (x : pystr) (l : list pystr) :
  index_of x l = None -> index_of x (l ++ [x]) = Some (length l).
Proof.
  induction l as [|y l IH]; simpl; intros H.
  - rewrite pystr_eqb_refl. reflexivity.
  - destruct (PyStr.eqb x y); [discriminate H|].
    destruct (index_of x l); [discriminate H|].
    rewrite IH by reflexivity. reflexivity.
Qed.

Lemma index_of_app_old (x y : pystr) (l : list pystr) (j : nat) :
  index_of y l = Some j -> index_of y (l ++ [x]) = Some j.
Proof.
  revert j. induction l as [|z l IH]; simpl; intros j H; [discriminate H|].
  destruct (PyStr.eqb y z); [exact H|].
  destruct (index_of y l) as [k|]; [|discriminate H].
  rewrite (IH k eq_refl). exact H.
Qed.

Lemma index_of_Some_In (x : pystr) (l : list pystr) (j : nat) :
  index_of x l = Some j -> In x l.
Proof.
  revert j. induction l as [|y l IH]; simpl; intros j H; [discriminate H|].
  destruct (PyStr.eqb x y) eqn:E; [left; symmetry; apply pystr_eqb_eq; exact E|].
  destruct (index_of x l) as [k|]; [right; exact (IH k eq_refl) | discriminate H].
Qed.

(** The position at which [set_column] writes. *)
Lemma set_column_position (df : frame) (label : pystr) (cells : list pyval) :
  exists j,
    index_of label (columns (set_column df label cells)) = Some j /\
    rows (set_column df label cells)
    = map (fun rv : row * pyval => set_cell j (snd rv) (fst rv))
          (combine (rows df) cells) /\
    (index_of label (columns df) = Some j \/
     index_of label (columns df) = None /\ j = length (columns df)).
Proof.
  unfold set_column. destruct (index_of label (columns df)) as [j|] eqn:E.
  - exists j. simpl. auto.
  - exists (length (columns df)). simpl.
    rewrite index_of_app_new by exact E. auto.
Qed.

Lemma in_combine_map (A B : Type) (f : A -> B) (l : list A) (x : A) (y : B) :
  In (x, y) (combine l (map f l)) -> y = f x.
Proof.
  induction l as [|a l IH]; simpl; [tauto|].
  intros [E | H]; [injection E as <- <-; reflexivity | exact (IH H)].
Qed.

Lemma in_combine_map_intro (A B : Type) (f : A -> B) (l : list A) (x : A) :
  In x l -> In (x, f x) (combine l (map f l)).
Proof.
  induction l as [|a l IH]; simpl; [tauto|].
  intros [-> | H]; [left; reflexivity | right; exact (IH H)].
Qed.

Section PreprocessFacts.
Context {ucd : UnicodeCase}.

Lemma normalized_cell_text (v : pyval) (t : pystr) :
  normalized_cell v = VStr t <-> exists d, v = VStr d /\ strip (lower d) = t.
Proof.
  destruct v as [d| |]; simpl; split; intros H;
    try discriminate H; try (destruct H as (d' & H & _); discriminate H).
  - injection H as <-. eauto.
  - destruct H as (d' & H & <-). injection H as <-. reflexivity.
Qed.

(** A column that holds text gets its clean companion. *)
Lemma add_clean_column_ok (df : frame) (src dst : pystr) (j : nat) :
  index_of src (columns df) = Some j ->
  existsb is_text (column_of df j) = true ->
  add_clean_column df src dst
  = Ok (set_column df dst (map normalized_cell (column_of df j))).
Proof.
  intros Hj Ht. unfold add_clean_column, col_index, str_lower_strip.
  rewrite Hj. simpl. rewrite Ht. reflexivity.
Qed.

End PreprocessFacts.

(** X24: after preprocessing, the precautions table is joined on the normal
    form of the disease name: a name finds no row under "Disease_clean"
    exactly when no row of the original table has a "Disease" of the same
    lowered, stripped text. *)
Theorem preprocessed_names_are_normal_forms :
  forall (ucd : UnicodeCase) (precautions_df : frame)
         (symptoms_df faq_df augmented_df : option frame) (j : nat)
         (disease_name : pystr),
    index_of (lit "Disease") (columns precautions_df) = Some j ->
    existsb is_text (column_of precautions_df j) = true ->
    let preprocessed :=
      fst (fst (fst (preprocess_datasets (Some precautions_df) symptoms_df
                                         faq_df augmented_df))) in
    no_row_named preprocessed (lit "Disease_clean") (strip (lower disease_name))
    <->
    (forall r d, In r (rows precautions_df) -> cell r j = VStr d ->
                 strip (lower d) <> strip (lower disease_name)).
Proof.
  intros ucd pdf s f a j name Hj Ht preprocessed.
  assert (Hp : preprocessed
               = Some (set_column pdf (lit "Disease_clean")
                         (map normalized_cell (column_of pdf j)))).
  { unfold preprocessed, preprocess_datasets.
    unfold preprocess_column at 1.
    rewrite (proj2 (mem_In _ _)) by (apply index_of_Some_In with j; exact Hj).
    rewrite (@add_clean_column_ok ucd pdf (lit "Disease") (lit "Disease_clean") j Hj Ht).
    simpl bind. cbv iota.
    break_matches; reflexivity. }
  rewrite Hp. clear Hp preprocessed.
  set (cells := map normalized_cell (column_of pdf j)).
  assert (Hcells : cells = map (fun r => normalized_cell (cell r j)) (rows pdf))
    by (unfold cells, column_of; apply map_map).
  destruct (set_column_position pdf (lit "Disease_clean") cells)
    as (jc & Hjc & Hrows & _).
  split.
  - intros Hno r d Hr Hc Hd.
    apply (Hno _ jc (set_cell jc (normalized_cell (cell r j)) r) eq_refl Hjc).
    + rewrite Hrows. apply in_map_iff.
      exists (r, normalized_cell (cell r j)). split; [reflexivity|].
      rewrite Hcells.
      apply (in_combine_map_intro (fun r => normalized_cell (cell r j))). exact Hr.
    + rewrite cell_set_cell_same, Hc. simpl. rewrite Hd. reflexivity.
  - intros Hno d' j' r' Hd' Hj' Hr' Hc.
    injection Hd' as <-. rewrite Hjc in Hj'. injection Hj' as <-.
    rewrite Hrows in Hr'. apply in_map_iff in Hr'.
    destruct Hr' as ([r v] & <- & Hin). simpl in Hc.
    pose proof (in_combine_l _ _ _ _ Hin) as Hr.
    rewrite Hcells in Hin. apply in_combine_map in Hin. subst v.
    rewrite cell_set_cell_same in Hc.
    apply normalized_cell_text in Hc. destruct Hc as (d & Hcell & Hd).
    exact (Hno r d Hr Hcell Hd).
Qed.

Lemma preprocessed_names_are_normal_forms_witness :
  no_row_named
    (fst (fst (fst (preprocess_datasets (ucd := ucd_excerpt)
                      (Some raw_precautions) None None None))))
    (lit "Disease_clean") (strip (lower (ucd := ucd_excerpt) (lit "Gout")))
  <->
  (forall r d, In r (rows raw_precautions) -> cell r 1 = VStr d ->
               strip (lower (ucd := ucd_excerpt) d)
               <> strip (lower (ucd := ucd_excerpt) (lit "Gout"))).
Proof.
  apply (@preprocessed_names_are_normal_forms ucd_excerpt raw_precautions
           None None None 1 (lit "Gout")).
  - reflexivity.
  - reflexivity.
Defined.

Lemma index_of_nth_error (x : pystr) (l : list pystr) (j : nat) :
  index_of x l = Some j -> nth_error l j = Some x.
Proof.
  revert j. induction l as [|y l IH]; simpl; intros j H; [discriminate H|].
  destruct (PyStr.eqb x y) eqn:E.
  - injection H as <-. apply pystr_eqb_eq in E. subst y. reflexivity.
  - destruct (index_of x l) as [k|]; [|discriminate H].
    injection H as <-. simpl. exact (IH k eq_refl).
Qed.

Lemma nth_map_combine (A B C : Type) (h : A * B -> C) (l : list A) (m : list B)
  (i : nat) (da : A) (db : B) (dc : C) :
  length m = length l -> i < length l ->
  nth i (map h (combine l m)) dc = h (nth i l da, nth i m db).
Proof.
  revert m i. induction l as [|a l IH]; intros [|b m] i Hlen Hi;
    simpl in *; try lia.
  destruct i as [|i]; [reflexivity|]. apply IH; lia.
Qed.

Lemma frame_extends_refl (d : frame) : frame_extends d d.
Proof.
  split; [reflexivity|]. split; [|reflexivity].
  exists []. rewrite app_nil_r. split; [reflexivity | constructor].
Qed.

Lemma frame_extends_trans (d d' d'' : frame) :
  frame_extends d d' -> frame_extends d' d'' -> frame_extends d d''.
Proof.
  intros (Hr & (extra & Hc & He) & Hcell) (Hr' & (extra' & Hc' & He') & Hcell').
  split; [congruence|]. split.
  - exists (extra ++ extra'). rewrite Hc', Hc, app_assoc. split; [reflexivity|].
    apply Forall_app. split; assumption.
  - intros i k label Hk Hl. rewrite (Hcell' i k label Hk Hl).
    apply (Hcell i k label); [|exact Hl].
    rewrite Hc' in Hk.
    destruct (Nat.lt_ge_cases k (length (columns d'))) as [Hlt | Hge].
    + rewrite nth_error_app1 in Hk by exact Hlt. exact Hk.
    + rewrite nth_error_app2 in Hk by exact Hge. apply nth_error_In in Hk.
      rewrite Forall_forall in He'. contradiction (Hl (He' _ Hk)).
Qed.

(** Writing a clean column leaves the rest of the table as it was. *)
Lemma set_column_extends (df : frame) (label : pystr) (cells : list pyval) :
  In label clean_labels -> length cells = length (rows df) ->
  frame_extends df (set_column df label cells).
Proof.
  intros Hl Hlen.
  destruct (set_column_position df label cells) as (j & Hj & Hrows & Hwhere).
  split; [|split].
  - rewrite Hrows, length_map, length_combine, Hlen. apply Nat.min_id.
  - unfold set_column. destruct (index_of label (columns df)).
    + exists []. simpl. rewrite app_nil_r. split; [reflexivity | constructor].
    + exists [label]. simpl. split; [reflexivity|]. constructor; [exact Hl | constructor].
  - intros i k lab Hk Hlab. rewrite Hrows.
    assert (Hkj : k <> j).
    { intros ->. apply index_of_nth_error in Hj. rewrite Hj in Hk.
      injection Hk as <-. contradiction. }
    destruct (Nat.lt_ge_cases i (length (rows df))) as [Hi | Hi].
    + unfold row in *.
      rewrite (@nth_map_combine (list pyval) pyval (list pyval)
                 (fun rv : list pyval * pyval => set_cell j (snd rv) (fst rv))
                 (rows df) cells i [] VNaN [] Hlen Hi).
      simpl. apply cell_set_cell_other. exact Hkj.
    + rewrite !nth_overflow;
        [reflexivity | exact Hi |
         rewrite length_map, length_combine, Hlen, Nat.min_id; exact Hi].
Qed.

Lemma preprocess_column_extends {ucd : UnicodeCase} (t t' : option frame)
  (src dst : pystr) :
  In dst clean_labels ->
  preprocess_column t src dst = Ok t' -> table_extends t t'.
Proof.
  intros Hl H. unfold preprocess_column in H.
  destruct t as [d|]; [|apply Ok_inj in H; subst t'; exact I].
  destruct (mem src (columns d));
    [|apply Ok_inj in H; subst t'; apply frame_extends_refl].
  unfold add_clean_column, str_lower_strip in H.
  destruct (col_index d src) as [j|]; simpl in H; [|discriminate H].
  match type of H with
  | context [if ?c then _ else _] => destruct c; simpl in H; [discriminate H|]
  end.
  apply Ok_inj in H. subst t'. simpl.
  apply set_column_extends; [exact Hl|].
  unfold column_of. rewrite !length_map. reflexivity.
Qed.

Lemma table_extends_refl (t : option frame) : table_extends t t.
Proof. destruct t; simpl; [apply frame_extends_refl | exact I]. Qed.

Lemma table_extends_trans (t t' t'' : option frame) :
  table_extends t t' -> table_extends t' t'' -> table_extends t t''.
Proof.
  destruct t, t', t''; simpl; try tauto. apply frame_extends_trans.
Qed.

(** X25: preprocessing loses nothing: every table comes back absent if it
    was absent, and otherwise with the same number of rows, its columns
    followed by the clean columns that were added, and every cell under any
    other label unchanged, also when a statement raises half-way. *)
Theorem preprocessing_keeps_the_data :
  forall (ucd : UnicodeCase)
         (precautions_df symptoms_df faq_df augmented_df : option frame),
    let '(precautions_df', symptoms_df', faq_df', augmented_df') :=
      preprocess_datasets precautions_df symptoms_df faq_df augmented_df in
    table_extends precautions_df precautions_df' /\
    table_extends symptoms_df symptoms_df' /\
    table_extends faq_df faq_df' /\
    table_extends augmented_df augmented_df'.
Proof.
  intros ucd p s f a. unfold preprocess_datasets.
  assert (L1 : In (lit "Disease_clean") clean_labels) by (left; reflexivity).
  assert (L2 : In (lit "diseases_clean") clean_labels)
    by (right; left; reflexivity).
  assert (L3 : In (lit "question_clean") clean_labels)
    by (right; right; left; reflexivity).
  destruct (preprocess_column p (lit "Disease") (lit "Disease_clean"))
    as [p1|] eqn:E1;
    [apply (preprocess_column_extends _ _ L1) in E1
    |repeat split; apply table_extends_refl].
  destruct (preprocess_column s (lit "Disease") (lit "Disease_clean"))
    as [s1|] eqn:E2;
    [apply (preprocess_column_extends _ _ L1) in E2
    |repeat split; first [assumption | apply table_extends_refl]].
  destruct (preprocess_column f (lit "Disease") (lit "Disease_clean"))
    as [f1|] eqn:E3;
    [apply (preprocess_column_extends _ _ L1) in E3
    |repeat split; first [assumption | apply table_extends_refl]].
  destruct (preprocess_column a (lit "diseases") (lit "diseases_clean"))
    as [a1|] eqn:E4;
    [apply (preprocess_column_extends _ _ L2) in E4
    |repeat split; first [assumption | apply table_extends_refl]].
  destruct (preprocess_column f1 (lit "question") (lit "question_clean"))
    as [f2|] eqn:E5;
    [apply (preprocess_column_extends _ _ L3) in E5
    |repeat split; first [assumption | apply table_extends_refl]].
  repeat split; try assumption.
  exact (table_extends_trans _ _ _ E3 E5).
Qed.

Lemma filter_length_le (A : Type) (f : A -> bool) (l : list A) :
  length (filter f l) <= length l.
Proof.
  induction l as [|x l IH]; simpl; [lia|]. destruct (f x); simpl; lia.
Qed.

(** X26: what [clean_dataframe] returns is tidy, whatever dtypes pandas
    gives the columns: its labels are labels of the input and none starts
    with "Unnamed"; it has no more rows than the input, each as wide as the
    header; and every row of it is a row of the input, cell by cell under
    the same label, except that a missing value may have become the empty
    string. *)
Theorem cleaned_frame_is_tidy :
  forall (dt : Dtypes) (df df' : frame),
    clean_dataframe (Some df) = Some df' ->
    (forall label, In label (columns df') ->
                   In label (columns df) /\ unnamed label = false) /\
    length (rows df') <= length (rows df) /\
    (forall r', In r' (rows df') -> length r' = length (columns df')) /\
    (forall r', In r' (rows df') ->
       exists r, In r (rows df) /\
         forall k label, nth_error (columns df') k = Some label ->
           exists j, nth_error (columns df) j = Some label /\
                     (cell r' k = cell r j \/
                      cell r j = VNaN /\ cell r' k = VStr [])).
Proof.
  intros dt df df' H. unfold clean_dataframe in H.
  set (width := length (columns df)) in H.
  set (kept_rows := filter (fun r => negb (all_na width r)) (rows df)) in H.
  set (kept := filter (fun jc : nat * pystr => negb (unnamed (snd jc)))
                      (combine (seq 0 width) (columns df))) in H.
  set (narrowed := map (fun r => map (fun jc : nat * pystr => cell r (fst jc)) kept)
                       kept_rows) in H.
  set (is_object := map (fun k => object_dtype (map (fun r => cell r k) narrowed))
                        (seq 0 (length kept))) in H.
  set (fill := fun r : list pyval =>
                 map (fun vo : pyval * bool =>
                        if snd vo then fillna_text (fst vo) else fst vo)
                     (combine r is_object)) in H.
  injection H as <-. simpl.
  assert (Hobj : length is_object = length kept)
    by (unfold is_object; rewrite length_map, length_seq; reflexivity).
  assert (Hnar : forall r0, In r0 narrowed -> length r0 = length kept).
  { intros r0 Hr0. unfold narrowed in Hr0. apply in_map_iff in Hr0.
    destruct Hr0 as (r1 & <- & _). apply length_map. }
  assert (Hcell : forall r0 k, In r0 narrowed ->
            cell (fill r0) k
            = if k <? length kept
              then (if nth k is_object false
                    then fillna_text (cell r0 k) else cell r0 k)
              else VNaN).
  { intros r0 k Hr0. unfold cell, fill.
    destruct (Nat.ltb_spec k (length kept)) as [Hk | Hk].
    - rewrite (@nth_map_combine pyval bool pyval
                 (fun vo : pyval * bool =>
                    if snd vo then fillna_text (fst vo) else fst vo)
                 r0 is_object k VNaN false VNaN)
        by (rewrite ?Hobj, (Hnar r0 Hr0); first [reflexivity | exact Hk]).
      reflexivity.
    - apply nth_overflow.
      rewrite length_map, length_combine, Hobj, (Hnar r0 Hr0), Nat.min_id.
      exact Hk. }
  split; [|split; [|split]].
  - intros label Hl. apply in_map_iff in Hl. destruct Hl as ([j c] & <- & Hin).
    unfold kept in Hin. apply filter_In in Hin. destruct Hin as [Hin Hun].
    simpl in *. split; [exact (in_combine_r _ _ _ _ Hin)|].
    apply negb_true_iff. exact Hun.
  - unfold narrowed, kept_rows. rewrite !length_map. apply filter_length_le.
  - intros r Hr. apply in_map_iff in Hr. destruct Hr as (r0 & <- & Hr0).
    unfold fill. rewrite !length_map, length_combine, Hobj, (Hnar r0 Hr0).
    apply Nat.min_id.
  - intros r' Hr'. apply in_map_iff in Hr'. destruct Hr' as (r0 & <- & Hr0).
    fold fill. pose proof Hr0 as Hr0'.
    unfold narrowed in Hr0'. apply in_map_iff in Hr0'.
    destruct Hr0' as (r1 & E1 & Hr1).
    exists r1. split.
    { unfold kept_rows in Hr1. apply filter_In in Hr1. apply Hr1. }
    intros k label Hk.
    apply nth_error_map_some in Hk. destruct Hk as ([j c] & Hk & Ec).
    simpl in Ec. subst c.
    assert (Hlt : k < length kept) by (apply nth_error_Some; congruence).
    assert (Hin : In (j, label) (combine (seq 0 width) (columns df))).
    { apply nth_error_In in Hk. unfold kept in Hk. apply filter_In in Hk.
      apply Hk. }
    apply In_nth_error in Hin. destruct Hin as [i Hi].
    apply nth_error_combine_seq in Hi. destruct Hi as [Ej Hj].
    simpl in Ej. subst i.
    exists j. split; [exact Hj|].
    rewrite (Hcell r0 k Hr0).
    apply Nat.ltb_lt in Hlt. rewrite Hlt. apply Nat.ltb_lt in Hlt.
    assert (Hc0 : cell r0 k = cell r1 j).
    { rewrite <- E1. unfold cell at 1.
      rewrite (nth_map_lt (fun jc : nat * pystr => cell r1 (fst jc)) kept
                          VNaN (0, [])) by exact Hlt.
      rewrite (nth_error_nth _ _ _ Hk). reflexivity. }
    rewrite Hc0.
    destruct (nth k is_object false); [|left; reflexivity].
    destruct (cell r1 j); simpl; auto.
Qed.

Lemma cleaned_frame_is_tidy_witness :
  clean_dataframe (dt := object_if_text) (Some raw_precautions)
  = Some {| columns := [lit "Disease"; lit "Precaution_1"; lit "Precaution_2"];
            rows := [ [VStr (lit " Malaria"); VStr (lit "use nets"); VStr []];
                      [VStr (lit "TYPHOID "); VStr (lit "clean water");
                       VStr (lit "wash hands")] ] |} /\
  forall label,
    In label [lit "Disease"; lit "Precaution_1"; lit "Precaution_2"] ->
    In label (columns raw_precautions) /\ unnamed label = false.
Proof.
  assert (H : clean_dataframe (dt := object_if_text) (Some raw_precautions)
              = Some {| columns := [lit "Disease"; lit "Precaution_1";
                                    lit "Precaution_2"];
                        rows := [ [VStr (lit " Malaria"); VStr (lit "use nets");
                                   VStr []];
                                  [VStr (lit "TYPHOID "); VStr (lit "clean water");
                                   VStr (lit "wash hands")] ] |})
    by (vm_compute; reflexivity).
  split; [exact H|].
  destruct (@cleaned_frame_is_tidy object_if_text _ _ H) as (Hlabels & _).
  exact Hlabels.
Defined.

(** ** Patterns that are plain text *)

Lemma char_eqb_sym (a b : char) : char_eqb a b = char_eqb b a.
Proof. unfold char_eqb. apply N.eqb_sym. Qed.

(** A pattern that is a literal text matches where the text starts. *)
Lemma rmatch_chars (A : Type) (w : pystr) :
  forall (s : pystr) (caps : captures) (k : pystr -> captures -> option A),
    rmatch (chars w) s caps k
    = if startswith w s then k (skipn (length w) s) caps else None.
Proof.
  induction w as [|c w IH]; intros s caps k; [reflexivity|].
  destruct w as [|c' w].
  - simpl. destruct s as [|x s]; [reflexivity|].
    rewrite (char_eqb_sym c x), andb_true_r. reflexivity.
  - change (chars (c :: c' :: w)) with (Cat (Chr c) (chars (c' :: w))).
    simpl rmatch. destruct s as [|x s]; [reflexivity|].
    simpl startswith at 1. rewrite (char_eqb_sym c x).
    destruct (char_eqb x c); [|reflexivity].
    rewrite IH. reflexivity.
Qed.

(** [re.search] of a literal text is the test [text in s]. *)
Lemma found_chars (w s : pystr) : found (chars w) s = contains w s.
Proof.
  unfold found. induction s as [|x s IH]; simpl.
  - unfold match_here. rewrite rmatch_chars.
    destruct (startswith w []); reflexivity.
  - unfold match_here at 1. rewrite rmatch_chars.
    destruct (startswith w (x :: s)); [reflexivity|]. exact IH.
Qed.

(** X27: the patterns "can you", "could you", "would you", "explain" and
    "tell me about" are searched as plain text: an input whose lowered,
    stripped text contains one of them anywhere, even inside a word, is a
    question. *)
Theorem literal_patterns_match_anywhere :
  forall (ucd : UnicodeCase) (user_input : pystr) (text : string),
    In text ["can you"; "could you"; "would you"; "explain"; "tell me about"]%string ->
    contains (lit text) (strip (lower user_input)) = true ->
    classify_input_type user_input = Question.
Proof.
  intros ucd s w Hw Hc.
  assert (Hq : is_question s = true).
  { unfold is_question. apply existsb_exists. exists (Str w). split.
    - unfold question_patterns. simpl in Hw.
      destruct Hw as [<- | [<- | [<- | [<- | [<- | []]]]]]; simpl; auto 15.
    - unfold Str. rewrite found_chars. exact Hc. }
  unfold classify_input_type. destruct s as [|c u]; [reflexivity|].
  rewrite Hq, orb_true_r. reflexivity.
Qed.

Lemma literal_patterns_match_anywhere_witness :
  classify_input_type (ucd := ucd_excerpt) (lit "Unexplained rash") = Question.
Proof.
  apply (@literal_patterns_match_anywhere ucd_excerpt (lit "Unexplained rash")
           "explain"%string).
  - simpl. auto.
  - reflexivity.
Defined.

(** ** Rows below the first match *)

Lemma rows_where_eq_more (df : frame) (more : list row) (label : pystr)
      (v : pyval) (first : row) (others : list row) :
  rows_where_eq df label v = Ok (first :: others) ->
  exists others',
    rows_where_eq (with_more_rows df more) label v = Ok (first :: others').
Proof.
  unfold rows_where_eq, col_index. simpl.
  destruct (index_of label (columns df)) as [j|]; [|discriminate].
  unfold bind. intros H. apply Ok_inj in H.
  rewrite filter_app. unfold row in *. rewrite H.
  eexists. reflexivity.
Qed.

Lemma select_app (A : Type) (mask mask' : list bool) :
  forall (l l' : list A),
    length mask = length l ->
    select (mask ++ mask') (l ++ l') = select mask l ++ select mask' l'.
Proof.
  induction mask as [|b mask IH]; intros [|x l] l' Hlen; try discriminate.
  - reflexivity.
  - simpl in Hlen. injection Hlen as Hlen. simpl.
    destruct b; simpl; rewrite IH by exact Hlen; reflexivity.
Qed.

Lemma select_map_true (A B : Type) (t : B -> bool) (cells : list B) :
  forall (l : list A),
    select (map t cells) l <> [] -> exists v, In v cells /\ t v = true.
Proof.
  induction cells as [|c cells IH]; intros l H.
  - destruct l; simpl in H; congruence.
  - destruct l as [|x l]; simpl in H.
    + destruct (t c); congruence.
    + destruct (t c) eqn:Ht.
      * exists c. split; [left; reflexivity | exact Ht].
      * destruct (IH l H) as (v & Hv & Hvt). exists v. split; [right|]; assumption.
Qed.

Section LaterRows.
Context {ucd : UnicodeCase} {pc : PatternCompiler} {pf : PyFloat} {sk : Sklearn}.

Lemma precautions_from_table_more (disease_clean : pystr) (df : frame)
      (more : list row) (precautions : list pystr) :
  precautions <> [] ->
  precautions_from_table disease_clean df = Ok precautions ->
  precautions_from_table disease_clean (with_more_rows df more) = Ok precautions.
Proof.
  intros Hne. unfold precautions_from_table.
  change (columns (with_more_rows df more)) with (columns df).
  destruct (mem (lit "Disease_clean") (columns df)).
  2:{ intros H. apply Ok_inj in H. congruence. }
  destruct (rows_where_eq df (lit "Disease_clean") (VStr disease_clean))
    as [[|first others]|] eqn:Hm; unfold bind.
  - intros H. apply Ok_inj in H. congruence.
  - destruct (@rows_where_eq_more df more _ _ _ _ Hm) as (others' & ->). intros H. exact H.
  - discriminate.
Qed.

Lemma symptoms_from_catalogue_more (disease_clean : pystr) (df : frame)
      (more : list row) (symptoms : list pystr) :
  symptoms <> [] ->
  symptoms_from_catalogue disease_clean df = Ok symptoms ->
  symptoms_from_catalogue disease_clean (with_more_rows df more) = Ok symptoms.
Proof.
  intros Hne. unfold symptoms_from_catalogue.
  change (columns (with_more_rows df more)) with (columns df).
  destruct (rows_where_eq df (lit "Disease_clean") (VStr disease_clean))
    as [[|first others]|] eqn:Hm; unfold bind.
  - intros H. apply Ok_inj in H. congruence.
  - destruct (@rows_where_eq_more df more _ _ _ _ Hm) as (others' & ->). intros H. exact H.
  - discriminate.
Qed.

Lemma symptoms_from_augmented_more (disease_clean : pystr) (df : frame)
      (more : list row) (symptoms : list pystr) :
  symptoms <> [] ->
  symptoms_from_augmented disease_clean df = Ok symptoms ->
  symptoms_from_augmented disease_clean (with_more_rows df more) = Ok symptoms.
Proof.
  intros Hne. unfold symptoms_from_augmented, symptom_columns_of.
  change (columns (with_more_rows df more)) with (columns df).
  destruct (rows_where_eq df (lit "diseases_clean") (VStr disease_clean))
    as [[|first others]|] eqn:Hm; unfold bind.
  - intros H. apply Ok_inj in H. congruence.
  - destruct (@rows_where_eq_more df more _ _ _ _ Hm) as (others' & ->). intros H. exact H.
  - discriminate.
Qed.

Lemma str_contains_more (cells cells' : list pyval) (pat : pystr)
      (mask : list bool) (A : Type) (l : list A) :
  str_contains cells pat = Ok mask ->
  select mask l <> [] ->
  exists mask',
    str_contains (cells ++ cells') pat = Ok (mask ++ mask') /\
    length mask = length cells.
Proof.
  unfold str_contains.
  destruct (re_compile pat) as [test|].
  2:{ destruct (_ && _); discriminate. }
  destruct (negb (existsb (fun v => match v with VStr _ => true | _ => false end)
                          cells)
            && negb (match cells with [] => true | _ => false end));
    [discriminate|].
  intros H Hsel. apply Ok_inj in H. subst mask.
  destruct (select_map_true _ _ _ Hsel) as (v & Hin & Htv).
  assert (Hex : existsb (fun v => match v with VStr _ => true | _ => false end)
                        (cells ++ cells') = true).
  { apply existsb_exists. exists v. split.
    - apply in_or_app. left. exact Hin.
    - destruct v; try discriminate. reflexivity. }
  rewrite Hex. simpl negb. rewrite andb_false_l, map_app.
  eexists. split; [reflexivity|]. apply length_map.
Qed.

Lemma description_from_faq_more (disease_clean : pystr) (df : frame)
      (more : list row) (description : pyval) :
  description_from_faq disease_clean df = Ok (Some description) ->
  description_from_faq disease_clean (with_more_rows df more)
  = Ok (Some description).
Proof.
  unfold description_from_faq, row_get, col_index.
  change (columns (with_more_rows df more)) with (columns df).
  change (rows (with_more_rows df more)) with (rows df ++ more).
  destruct (mem (lit "question_clean") (columns df)); [|discriminate].
  destruct (index_of (lit "question_clean") (columns df)) as [j|];
    [|discriminate].
  cbv beta iota delta [bind]. unfold row in *. rewrite map_app.
  destruct (str_contains (map (fun r : list pyval => cell r j) (rows df)) disease_clean)
    as [mask|] eqn:Hmask; [|discriminate].
  destruct (select mask (rows df)) as [|first others] eqn:Hsel; [discriminate|].
  intros H.
  assert (Hne : select mask (rows df) <> []) by (rewrite Hsel; discriminate).
  destruct (@str_contains_more _ (map (fun r : list pyval => cell r j) more) _ _ _ _
              Hmask Hne) as (mask' & Hmore & Hlen).
  rewrite Hmore, select_app.
  2:{ rewrite Hlen. apply length_map. }
  rewrite Hsel. simpl app. exact H.
Qed.

End LaterRows.

(** X28: the first matching row wins.  Once a disease is found in a table,
    rows written below the ones the table has change nothing: the
    precautions, the symptoms from the catalogue, the symptoms from the
    augmented matrix and the description stay what they were. *)
Theorem later_rows_do_not_override :
  forall (ucd : UnicodeCase) (pc : PatternCompiler) (disease_name : pystr)
         (more : list row),
    (forall precautions_df precautions,
       precautions <> [] ->
       get_disease_precautions (VStr disease_name) (Some precautions_df)
       = Ok precautions ->
       get_disease_precautions (VStr disease_name)
                               (Some (with_more_rows precautions_df more))
       = Ok precautions) /\
    (forall symptoms_df augmented_df symptoms,
       symptoms <> [] ->
       get_disease_symptoms (VStr disease_name) (Some symptoms_df) augmented_df
       = Ok symptoms ->
       get_disease_symptoms (VStr disease_name)
                            (Some (with_more_rows symptoms_df more)) augmented_df
       = Ok symptoms) /\
    (forall symptoms_df augmented_df symptoms,
       symptoms <> [] ->
       get_disease_symptoms (VStr disease_name) None (Some augmented_df)
       = Ok symptoms ->
       get_disease_symptoms (VStr disease_name) symptoms_df
                            (Some (with_more_rows augmented_df more))
       = Ok symptoms) /\
    (forall faq_df description,
       get_disease_description (VStr disease_name) (Some faq_df)
       = Ok (Some description) ->
       get_disease_description (VStr disease_name)
                               (Some (with_more_rows faq_df more))
       = Ok (Some description)).
Proof.
  intros ucd pc name more. split; [|split; [|split]].
  - intros df ps Hne. unfold get_disease_precautions.
    destruct (negb (truthy (VStr name))).
    { intros H. apply Ok_inj in H. congruence. }
    unfold as_str, bind. intros H. apply Ok_inj in H. f_equal.
    destruct (precautions_from_table (strip (lower name)) df) as [ps'|] eqn:Hp;
      simpl in H; [|congruence].
    subst ps'. erewrite precautions_from_table_more; [reflexivity | exact Hne | exact Hp].
  - intros sdf aug ss Hne. unfold get_disease_symptoms.
    destruct (negb (truthy (VStr name))).
    { intros H. apply Ok_inj in H. congruence. }
    unfold as_str, bind. cbv zeta.
    change (columns (with_more_rows sdf more)) with (columns sdf).
    destruct (match aug with
              | Some aug0 =>
                  if mem (lit "diseases_clean") (columns aug0)
                  then try_except
                         (symptoms_from_augmented (strip (lower name)) aug0) []
                  else []
              | None => []
              end) as [|s0 ss0]; [|intros H; exact H].
    destruct (mem (lit "Disease_clean") (columns sdf)); [|intros H; exact H].
    intros H. apply Ok_inj in H. f_equal.
    destruct (symptoms_from_catalogue (strip (lower name)) sdf) as [ss'|] eqn:Hs;
      simpl in H; [|congruence].
    subst ss'. erewrite symptoms_from_catalogue_more; [reflexivity | exact Hne | exact Hs].
  - intros sdf aug ss Hne. unfold get_disease_symptoms.
    destruct (negb (truthy (VStr name))).
    { intros H. apply Ok_inj in H. congruence. }
    unfold as_str, bind. cbv zeta.
    change (columns (with_more_rows aug more)) with (columns aug).
    destruct (mem (lit "diseases_clean") (columns aug)).
    2:{ intros H. apply Ok_inj in H. congruence. }
    destruct (symptoms_from_augmented (strip (lower name)) aug) as [ss'|] eqn:Hs.
    2:{ simpl. intros H. apply Ok_inj in H. congruence. }
    simpl try_except at 1.
    intros H.
    assert (Hss : ss' = ss).
    { destruct ss'; simpl in H; apply Ok_inj in H; exact H. }
    subst ss'. erewrite symptoms_from_augmented_more; [| exact Hne | exact Hs].
    simpl try_except. destruct ss as [|s0 ss0]; [congruence|].
    destruct sdf; reflexivity.
  - intros df d. unfold get_disease_description.
    destruct (negb (truthy (VStr name))); [discriminate|].
    unfold as_str, bind. intros H. apply Ok_inj in H. f_equal.
    destruct (description_from_faq (strip (lower name)) df) as [d'|] eqn:Hd;
      simpl in H; [|congruence].
    subst d'. erewrite description_from_faq_more; [reflexivity | exact Hd].
Qed.

Lemma later_rows_do_not_override_witness :
  let more := [[VStr (lit "Flu"); VStr (lit "sleep"); VStr (lit "flu")]] in
  get_disease_precautions (ucd := ucd_excerpt) (VStr (lit "Flu"))
    (Some (with_more_rows sample_precautions more)) = Ok [lit "rest"] /\
  get_disease_symptoms (ucd := ucd_excerpt) (VStr (lit "Flu")) None
    (Some (with_more_rows sample_augmented more)) = Ok [lit "fever"] /\
  get_disease_description (ucd := ucd_excerpt) (pc := plain_compiler)
    (VStr (lit "Flu")) (Some (with_more_rows sample_faq more))
  = Ok (Some (VStr (lit "An infection"))).
Proof.
  intros more.
  destruct (@later_rows_do_not_override ucd_excerpt plain_compiler (lit "Flu") more)
    as (Hp & _ & Ha & Hd).
  split; [|split].
  - apply Hp; [discriminate | reflexivity].
  - apply Ha; [discriminate | reflexivity].
  - apply Hd. reflexivity.
Defined.
